(** * MX-BOT: a shallow embedding of the link classifier, the rate limiter,
      the verification workflow and the media acquisition handlers

    Sources embedded: [utils.py], [database.py], [downloader.py],
    [instagram_handler.py], [keyboards.py] and the handlers of [bot.py].

    Conventions of the model.
    - A Python [str] is a Rocq [string] read as a sequence of code points
      U+0000..U+00FF (one [ascii] per code point).  The menu labels of the
      router, which lie outside that range, are separate tokens.
    - Python [int] is [Z]; a [datetime]/timestamp is a number of
      microseconds in [Z] (the resolution of [datetime.now()]); the rounding
      of the float returned by [timestamp()] is not modelled.  SQLite's
      [CURRENT_TIMESTAMP] is a number of whole seconds on the clock of the
      database.  A number that yt-dlp reports is an [int] or a [float]
      ([spec_float]).
    - Dictionaries keyed by a primary key are [gmap]s; tables whose order
      matters are lists in insertion order.
    - Calls that leave the process (Telegram, Instagram, yt-dlp, the random
      generator) are answered by an explicit environment; every such call is
      recorded in a trace, and a Telegram call may raise. *)

From Stdlib Require Import ZArith String Ascii List Lia Bool DecimalString Sorted SpecFloat.
From stdpp Require Import gmap strings list.
Import ListNotations.

Local Open Scope string_scope.

(** ** Python string primitives *)

Module Py.

Definition chr (n : nat) : ascii := ascii_of_nat n.
Definition ord (c : ascii) : nat := nat_of_ascii c.

Definition in_range (lo hi : nat) (c : ascii) : bool :=
  (lo <=? ord c)%nat && (ord c <=? hi)%nat.

Definition is_upper (c : ascii) : bool := in_range 65 90 c.
Definition is_lower (c : ascii) : bool := in_range 97 122 c.
Definition is_digit (c : ascii) : bool := in_range 48 57 c.
Definition is_ascii_alpha (c : ascii) : bool := is_upper c || is_lower c.

(** [c in chars] for a one-character string [c]. *)
Fixpoint mem (c : ascii) (chars : string) : bool :=
  match chars with
  | EmptyString => false
  | String d rest => Ascii.eqb c d || mem c rest
  end.

(** [str.isspace()] on one code point below U+0100, which is also the
    class [\s] of a [str] pattern. *)
Definition is_space (c : ascii) : bool :=
  in_range 9 13 c || in_range 28 32 c
  || Nat.eqb (ord c) 133 || Nat.eqb (ord c) 160.

(** [str.lower()] on one code point below U+0100. *)
Definition lower_char (c : ascii) : ascii :=
  if is_upper c then chr (ord c + 32)
  else if in_range 192 222 c && negb (Nat.eqb (ord c) 215)
       then chr (ord c + 32)
       else c.

Fixpoint lower (s : string) : string :=
  match s with
  | EmptyString => EmptyString
  | String c rest => String (lower_char c) (lower rest)
  end.

(** [s.startswith(p)]; on a match the remainder [s[len(p):]]. *)
Fixpoint strip_prefix (p s : string) : option string :=
  match p, s with
  | EmptyString, _ => Some s
  | String a p', String b s' =>
      if Ascii.eqb a b then strip_prefix p' s' else None
  | String _ _, EmptyString => None
  end.

Definition startswith (s p : string) : bool :=
  match strip_prefix p s with Some _ => true | None => false end.

(** [sub in s]. *)
Fixpoint contains (sub s : string) : bool :=
  startswith s sub
  || match s with
     | EmptyString => false
     | String _ rest => contains sub rest
     end.

(** [s.endswith(p)]. *)
Fixpoint endswith (s p : string) : bool :=
  String.eqb s p
  || match s with
     | EmptyString => false
     | String _ rest => endswith rest p
     end.

(** [s.rstrip(chars)]. *)
Fixpoint rstrip (chars s : string) : string :=
  match s with
  | EmptyString => EmptyString
  | String c rest =>
      match rstrip chars rest with
      | EmptyString => if mem c chars then EmptyString else String c EmptyString
      | r => String c r
      end
  end.

(** [s.lstrip(chars)] for a class of characters. *)
Fixpoint lstrip (p : ascii -> bool) (s : string) : string :=
  match s with
  | String c rest => if p c then lstrip p rest else s
  | EmptyString => EmptyString
  end.

(** [s.replace(c, '')] for every [c] of a class. *)
Fixpoint remove_chars (p : ascii -> bool) (s : string) : string :=
  match s with
  | EmptyString => EmptyString
  | String c rest =>
      if p c then remove_chars p rest else String c (remove_chars p rest)
  end.

(** [s.partition(sep)] on a class of one-character separators: the text
    before the first separator, and the text from that separator on. *)
Fixpoint break (p : ascii -> bool) (s : string) : string * string :=
  match s with
  | EmptyString => (EmptyString, EmptyString)
  | String c rest =>
      if p c then (EmptyString, s)
      else let '(a, b) := break p rest in (String c a, b)
  end.

Fixpoint all_chars (p : ascii -> bool) (s : string) : bool :=
  match s with
  | EmptyString => true
  | String c rest => p c && all_chars p rest
  end.

(** Truthiness of an [Optional[str]]: [None] and the empty string are falsy. *)
Definition truthy (o : option string) : bool :=
  match o with
  | Some (String _ _) => true
  | _ => false
  end.

(** [o or ''] *)
Definition or_empty (o : option string) : string :=
  match o with
  | Some (String c r) => String c r
  | _ => EmptyString
  end.

(** [s.rstrip()]: trailing white space is removed. *)
Fixpoint rstrip_space (s : string) : string :=
  match s with
  | EmptyString => EmptyString
  | String c rest =>
      match rstrip_space rest with
      | EmptyString => if is_space c then EmptyString else String c EmptyString
      | r => String c r
      end
  end.

(** [s.strip()] *)
Definition strip (s : string) : string := rstrip_space (lstrip is_space s).

(** [s.replace(c, new)] for a one-character [c]. *)
Fixpoint replace_char (c : ascii) (new : string) (s : string) : string :=
  match s with
  | EmptyString => EmptyString
  | String x rest =>
      if Ascii.eqb x c then new ++ replace_char c new rest
      else String x (replace_char c new rest)
  end.

(** [s[:k]]: a negative [k] counts from the end. *)
Definition slice_to (k : Z) (s : string) : string :=
  if (0 <=? k)%Z then String.substring 0 (Z.to_nat k) s
  else String.substring 0 (Z.to_nat (Z.of_nat (String.length s) + k)) s.

(** Does [s] begin with white space. *)
Definition at_space (s : string) : bool :=
  match s with
  | String d _ => is_space d
  | EmptyString => false
  end.

(** [s.split()]: the maximal runs of characters that are not white space. *)
Fixpoint split (s : string) : list string :=
  match s with
  | EmptyString => []
  | String c rest =>
      let words := split rest in
      if is_space c then words
      else
        match words with
        | w :: ws =>
            if at_space rest then String c EmptyString :: words
            else String c w :: ws
        | [] => [String c EmptyString]
        end
  end.

(** [sep.join(words)] *)
Fixpoint join (sep : string) (words : list string) : string :=
  match words with
  | [] => EmptyString
  | [w] => w
  | w :: ws => w ++ sep ++ join sep ws
  end.

End Py.

(** ** Regular expressions of the [re] module

    The patterns of [utils.py] use literals, character classes, grouping,
    ordered alternation, the greedy optional [?] and the greedy [+] on a
    character class.  The matcher backtracks in the priority order of
    [re]: the first alternative first, the longer repetition first. *)

Module Re.

Inductive regex : Type :=
| Lit (s : string)                 (* literal text *)
| Cls (p : ascii -> bool)          (* one character of a class *)
| Seq (r1 r2 : regex)              (* r1 r2 *)
| Alt (r1 r2 : regex)              (* r1|r2 *)
| Opt (r : regex)                  (* (?:r)? *)
| Plus (p : ascii -> bool).        (* [class]+ *)

(** [[class]*] followed by the continuation [k], longest run first.
    The result is the text consumed from [s] on. *)
Fixpoint star_cls (p : ascii -> bool) (k : string -> option string)
         (s : string) : option string :=
  match s with
  | String c rest =>
      if p c then
        match star_cls p k rest with
        | Some m => Some (String c m)
        | None => k s
        end
      else k s
  | EmptyString => k s
  end.

(** [rmatch r s k]: match [r] at the start of [s], then the continuation
    [k] on what is left; returns the whole text consumed. *)
Fixpoint rmatch (r : regex) (s : string) (k : string -> option string)
  : option string :=
  match r with
  | Lit l =>
      match Py.strip_prefix l s with
      | Some rest => option_map (String.append l) (k rest)
      | None => None
      end
  | Cls p =>
      match s with
      | String c rest => if p c then option_map (String c) (k rest) else None
      | EmptyString => None
      end
  | Seq r1 r2 => rmatch r1 s (fun rest => rmatch r2 rest k)
  | Alt r1 r2 =>
      match rmatch r1 s k with
      | Some m => Some m
      | None => rmatch r2 s k
      end
  | Opt r1 =>
      match rmatch r1 s k with
      | Some m => Some m
      | None => k s
      end
  | Plus p =>
      match s with
      | String c rest => if p c then option_map (String c) (star_cls p k rest) else None
      | EmptyString => None
      end
  end.

(** The text [match.group(0)] of a match anchored at the start of [s]. *)
Definition match_here (r : regex) (s : string) : option string :=
  rmatch r s (fun _ => Some EmptyString).

(** [re.search(r, s)]: the match at the leftmost position that has one;
    the result is [match.group(0)]. *)
Fixpoint search (r : regex) (s : string) : option string :=
  match match_here r s with
  | Some m => Some m
  | None =>
      match s with
      | String _ rest => search r rest
      | EmptyString => None
      end
  end.

(** The language of a pattern, for reasoning about what [search] returns. *)
Inductive lang : regex -> string -> Prop :=
| L_lit l : lang (Lit l) l
| L_cls (p : ascii -> bool) c : p c = true -> lang (Cls p) (String c EmptyString)
| L_seq r1 r2 a b : lang r1 a -> lang r2 b -> lang (Seq r1 r2) (a ++ b)
| L_alt_l r1 r2 a : lang r1 a -> lang (Alt r1 r2) a
| L_alt_r r1 r2 a : lang r2 a -> lang (Alt r1 r2) a
| L_opt_none r : lang (Opt r) EmptyString
| L_opt_some r a : lang r a -> lang (Opt r) a
| L_plus (p : ascii -> bool) c a :
    p c = true -> Py.all_chars p a = true -> lang (Plus p) (String c a).

(** What a successful [rmatch] returns: the text matched by the pattern,
    then the text matched by the continuation on the rest. *)
Definition sound (s : string) (k : string -> option string) (m : string)
           (P : string -> Prop) : Prop :=
  exists a b rest, m = a ++ b /\ s = a ++ rest /\ P a /\ k rest = Some b.

(** [$] at the end of a pattern: the end of the text, or the position
    before a newline that ends the text. *)
Definition at_end (rest : string) : option string :=
  if String.eqb rest EmptyString || String.eqb rest (String (Py.chr 10) EmptyString)
  then Some EmptyString else None.

(** [r{0,n}], greedy: one more [r] is tried before none. *)
Fixpoint upto (r : regex) (n : nat) : regex :=
  match n with
  | O => Lit EmptyString
  | S n' => Opt (Seq r (upto r n'))
  end.

(** [r{m,n}]: [m] times [r], then [r{0,n-m}]. *)
Fixpoint bounded (r : regex) (m n : nat) : regex :=
  match m with
  | O => upto r n
  | S m' => Seq r (bounded r m' (n - 1))
  end.

(** [bool(re.match(r'^...$', s))] *)
Definition match_to_end (r : regex) (s : string) : bool :=
  match rmatch r s at_end with
  | Some _ => true
  | None => false
  end.

End Re.

(** ** [urllib.parse.urlparse(url).netloc]

    The part of CPython's [urlsplit] that computes the network location.
    [None] stands for the [ValueError] the function raises.  The validity
    test of a bracketed host ([ipaddress]) is an argument.  For code points
    below U+0100 the NFKC test of [_checknetloc] never raises. *)

Module urllib.

Definition c0_control_or_space (c : ascii) : bool := (Py.ord c <=? 32)%nat.

Definition unsafe_url_byte (c : ascii) : bool :=
  Nat.eqb (Py.ord c) 9 || Nat.eqb (Py.ord c) 13 || Nat.eqb (Py.ord c) 10.

Definition scheme_char (c : ascii) : bool :=
  Py.is_ascii_alpha c || Py.is_digit c || Py.mem c "+-.".

(** The url with a leading [scheme:] removed, when there is one. *)
Definition drop_scheme (url : string) : string :=
  let '(before, from) := Py.break (Ascii.eqb ":") url in
  match before, from with
  | String c0 _, String _ after =>
      if Py.is_ascii_alpha c0 && Py.all_chars scheme_char before
      then after else url
  | _, _ => url
  end.

Definition netloc_delim (c : ascii) : bool := Py.mem c "/?#".

(** [netloc.partition('[')[2].partition(']')[0]] *)
Definition bracketed_host (netloc : string) : string :=
  match snd (Py.break (Ascii.eqb "[") netloc) with
  | String _ after => fst (Py.break (Ascii.eqb "]") after)
  | EmptyString => EmptyString
  end.

Definition netloc (valid_bracketed_host : string -> bool) (url0 : string)
  : option string :=
  let url := Py.lstrip c0_control_or_space url0 in
  let url := Py.remove_chars unsafe_url_byte url in
  let url := drop_scheme url in
  match Py.strip_prefix "//" url with
  | Some rest =>
      let nl := fst (Py.break netloc_delim rest) in
      let lb := Py.mem "[" nl in
      let rb := Py.mem "]" nl in
      if (lb && negb rb) || (rb && negb lb) then None
      else if lb && rb then
             if valid_bracketed_host (bracketed_host nl) then Some nl else None
           else Some nl
  | None => Some EmptyString
  end.

End urllib.

(** ** [utils.py] *)

Module utils.

(** [string.ascii_uppercase + string.digits] *)
Definition characters : string :=
  "ABCDEFGHIJKLMNOPQRSTUVWXYZ" ++ "0123456789".

Section Random.
(** The state of the [random] module and its [_randbelow(n)]. *)
Variable G : Type.
Variable randbelow : G -> nat -> nat * G.

(** [random.choice(seq)]: [seq[randbelow(len(seq))]]; [None] is the
    [IndexError] of an index out of range. *)
Definition choice (seq : string) (g : G) : option (ascii * G) :=
  let '(i, g') := randbelow g (String.length seq) in
  match String.get i seq with
  | Some c => Some (c, g')
  | None => None
  end.

(** [''.join(random.choice(characters) for _ in range(n))] *)
Fixpoint join_choices (n : nat) (g : G) : option (string * G) :=
  match n with
  | O => Some (EmptyString, g)
  | S n' =>
      match choice characters g with
      | Some (c, g1) =>
          match join_choices n' g1 with
          | Some (cs, g2) => Some (String c cs, g2)
          | None => None
          end
      | None => None
      end
  end.

Definition generate_verification_code (length : Z) (g : G)
  : option (string * G) :=
  join_choices (Z.to_nat length) g.

Definition default_code_length : Z := 8.
End Random.

Definition code_char (c : ascii) : bool :=
  Py.is_upper c || Py.is_lower c || Py.is_digit c || Py.mem c "_-".
Definition story_user_char (c : ascii) : bool :=
  Py.is_upper c || Py.is_lower c || Py.is_digit c || Py.mem c "._".

(** [(?:https?://)?(?:www\.)?instagram\.com/] *)
Definition instagram_prefix (tail : Re.regex) : Re.regex :=
  Re.Seq (Re.Opt (Re.Seq (Re.Lit "http") (Re.Seq (Re.Opt (Re.Lit "s")) (Re.Lit "://"))))
    (Re.Seq (Re.Opt (Re.Lit "www."))
       (Re.Seq (Re.Lit "instagram.com/") tail)).

(** [...(?:p|reel|tv)/([A-Za-z0-9_-]+)] *)
Definition post_pattern : Re.regex :=
  instagram_prefix
    (Re.Seq (Re.Alt (Re.Lit "p") (Re.Alt (Re.Lit "reel") (Re.Lit "tv")))
       (Re.Seq (Re.Lit "/") (Re.Plus code_char))).

(** [...stories/([A-Za-z0-9._]+)/(\d+)] *)
Definition story_pattern : Re.regex :=
  instagram_prefix
    (Re.Seq (Re.Lit "stories/")
       (Re.Seq (Re.Plus story_user_char)
          (Re.Seq (Re.Lit "/") (Re.Plus Py.is_digit)))).

Definition extract_instagram_url (text : string) : option string :=
  match Re.search post_pattern text with
  | Some m => Some m
  | None =>
      match Re.search story_pattern text with
      | Some m => Some m
      | None => None
      end
  end.

(** The class of the url pattern: any character but white space, the
    double quote (code 34) and the characters of [<>{}|\^`[]]. *)
Definition url_char (c : ascii) : bool :=
  negb (Py.is_space c || Py.mem c "<>{}|\^`[]" || Nat.eqb (Py.ord c) 34).

(** [https?://] followed by one or more characters of that class. *)
Definition url_pattern : Re.regex :=
  Re.Seq (Re.Lit "http")
    (Re.Seq (Re.Opt (Re.Lit "s")) (Re.Seq (Re.Lit "://") (Re.Plus url_char))).

Definition extract_media_url (text : string) : option string :=
  match Re.search url_pattern text with
  | Some url => Some (Py.rstrip ".,;:!?" url)
  | None => None
  end.

Section Hosts.
Variable valid_bracketed_host : string -> bool.

(** [urlparse(url if url.startswith('http') else f'https://{url}')],
    then [.netloc.lower()] without a leading [www.] *)
Definition hostname_of (url : string) : option string :=
  let full := if Py.startswith url "http" then url else "https://" ++ url in
  match urllib.netloc valid_bracketed_host full with
  | Some nl =>
      let hostname := Py.lower nl in
      Some match Py.strip_prefix "www." hostname with
           | Some h => h
           | None => hostname
           end
  | None => None
  end.

Definition is_instagram_url (url : string) : bool :=
  match url with
  | EmptyString => false
  | _ =>
      match hostname_of url with
      | Some hostname => String.eqb hostname "instagram.com"
      | None => false
      end
  end.

Definition supported_domains : list string :=
  [ "youtube.com"; "youtu.be";
    "soundcloud.com";
    "twitter.com"; "x.com";
    "tiktok.com";
    "vimeo.com";
    "dailymotion.com";
    "twitch.tv";
    "facebook.com"; "fb.watch";
    "reddit.com";
    "streamable.com";
    "bandcamp.com";
    "mixcloud.com";
    "bilibili.com" ].

Definition is_ytdlp_supported_url (url : string) : bool :=
  match url with
  | EmptyString => false
  | _ =>
      match hostname_of url with
      | Some hostname =>
          if existsb (String.eqb hostname) supported_domains then true
          else existsb (fun domain => Py.endswith hostname ("." ++ domain))
                 supported_domains
      | None => false
      end
  end.
End Hosts.

(** [class RateLimiter]: [last_request] maps a user id to the time of the
    last admitted request. *)
Module RateLimiter.
Definition usec : Z := 1000000.

(** [int(x)] of a float given in microseconds: truncation toward zero. *)
Definition int_seconds (us : Z) : Z := Z.quot us usec.

Definition can_proceed (now : Z) (user_id : Z) (cooldown : Z)
           (last_request : gmap Z Z) : (bool * Z) * gmap Z Z :=
  let stamp := ((true, 0%Z), <[user_id := now]> last_request) in
  match last_request !! user_id with
  | Some last =>
      let time_passed := (now - last)%Z in
      if (time_passed <? cooldown * usec)%Z
      then ((false, int_seconds (cooldown * usec - time_passed)), last_request)
      else stamp
  | None => stamp
  end.

Definition reset (user_id : Z) (last_request : gmap Z Z) : gmap Z Z :=
  delete user_id last_request.
End RateLimiter.

End utils.

(** ** [database.py]

    The SQLite tables the handlers read and write.  [users] and
    [pending_verifications] are keyed by their primary key; the other
    tables are lists of rows in insertion order.  An [AUTOINCREMENT] key is
    drawn from a counter that never goes back. *)

Module database.

Record User := {
  username : option string;
  first_name : option string;
  is_banned : Z;
  is_premium : Z;
  download_count : Z }.

Record InstagramAccount := {
  id : Z;
  user_id : Z;
  instagram_username : string;
  instagram_user_id : option string;
  is_verified : Z;
  verification_code : string;
  code_expires_at : Z;
  created_at : Z }.                    (* [CURRENT_TIMESTAMP], in whole seconds *)

Record PendingVerification := {
  pv_user_id : Z;
  pv_verification_code : string;
  pv_instagram_username : string;
  expires_at : Z }.

Record Download := {
  dl_user_id : Z;
  media_type : string;
  media_url : string;
  dl_instagram_username : option string;
  file_size : Z }.

Record Channel := {
  channel_id : string;
  channel_title : option string;
  is_active : Z }.

Record Database := {
  users : gmap Z User;
  instagram_accounts : list InstagramAccount;
  seq_instagram_accounts : Z;
  pending_verifications : gmap Z PendingVerification;
  seq_pending_verifications : Z;
  downloads : list Download;
  channel_lock : list Channel }.

Definition set_users (f : gmap Z User -> gmap Z User) (d : Database) : Database :=
  {| users := f (users d);
     instagram_accounts := instagram_accounts d;
     seq_instagram_accounts := seq_instagram_accounts d;
     pending_verifications := pending_verifications d;
     seq_pending_verifications := seq_pending_verifications d;
     downloads := downloads d;
     channel_lock := channel_lock d |}.

Definition set_accounts (f : list InstagramAccount -> list InstagramAccount)
           (d : Database) : Database :=
  {| users := users d;
     instagram_accounts := f (instagram_accounts d);
     seq_instagram_accounts := seq_instagram_accounts d;
     pending_verifications := pending_verifications d;
     seq_pending_verifications := seq_pending_verifications d;
     downloads := downloads d;
     channel_lock := channel_lock d |}.

Definition set_pending (f : gmap Z PendingVerification -> gmap Z PendingVerification)
           (d : Database) : Database :=
  {| users := users d;
     instagram_accounts := instagram_accounts d;
     seq_instagram_accounts := seq_instagram_accounts d;
     pending_verifications := f (pending_verifications d);
     seq_pending_verifications := seq_pending_verifications d;
     downloads := downloads d;
     channel_lock := channel_lock d |}.

Definition set_downloads (f : list Download -> list Download)
           (d : Database) : Database :=
  {| users := users d;
     instagram_accounts := instagram_accounts d;
     seq_instagram_accounts := seq_instagram_accounts d;
     pending_verifications := pending_verifications d;
     seq_pending_verifications := seq_pending_verifications d;
     downloads := f (downloads d);
     channel_lock := channel_lock d |}.

(** [INSERT ... ON CONFLICT(user_id) DO UPDATE SET username, first_name] *)
Definition add_user (uid : Z) (uname fname : option string) (d : Database) : Database :=
  set_users (fun us =>
    match us !! uid with
    | Some u =>
        <[uid := {| username := uname; first_name := fname;
                    is_banned := is_banned u; is_premium := is_premium u;
                    download_count := download_count u |}]> us
    | None =>
        <[uid := {| username := uname; first_name := fname;
                    is_banned := 0; is_premium := 0; download_count := 0 |}]> us
    end) d.

Definition get_user (uid : Z) (d : Database) : option User := users d !! uid.

Definition is_user_banned (uid : Z) (d : Database) : bool :=
  match get_user uid d with
  | Some u => Z.eqb (is_banned u) 1
  | None => false
  end.

(** [UPDATE users SET download_count = download_count + 1 WHERE user_id = ?] *)
Definition increment_download_count (uid : Z) (d : Database) : Database :=
  set_users (fun us =>
    match us !! uid with
    | Some u =>
        <[uid := {| username := username u; first_name := first_name u;
                    is_banned := is_banned u; is_premium := is_premium u;
                    download_count := download_count u + 1 |}]> us
    | None => us
    end) d.

(** [INSERT INTO instagram_accounts ...]: SQLite stamps the row with the
    second its clock shows, [created]. *)
Definition add_instagram_account (uid : Z) (ig_username code : string)
           (expires : Z) (created : Z) (d : Database) : Z * Database :=
  let new_id := (seq_instagram_accounts d + 1)%Z in
  let row := {| id := new_id; user_id := uid; instagram_username := ig_username;
                instagram_user_id := None; is_verified := 0;
                verification_code := code; code_expires_at := expires;
                created_at := created |} in
  (new_id,
   {| users := users d;
      instagram_accounts := (instagram_accounts d ++ [row])%list;
      seq_instagram_accounts := new_id;
      pending_verifications := pending_verifications d;
      seq_pending_verifications := seq_pending_verifications d;
      downloads := downloads d;
      channel_lock := channel_lock d |}).

(** [UPDATE instagram_accounts SET is_verified = 1, instagram_user_id = ?
     WHERE id = ?] *)
Definition verify_instagram_account (account_id : Z) (ig_uid : option string)
           (d : Database) : Database :=
  set_accounts (map (fun a =>
    if Z.eqb (id a) account_id
    then {| id := id a; user_id := user_id a;
            instagram_username := instagram_username a;
            instagram_user_id := ig_uid; is_verified := 1;
            verification_code := verification_code a;
            code_expires_at := code_expires_at a;
            created_at := created_at a |}
    else a)) d.

(** A row put into rows sorted by [created_at], the latest second first:
    it goes in front of the first row that is not younger. *)
Fixpoint insert_by_created_at (x : InstagramAccount) (l : list InstagramAccount)
  : list InstagramAccount :=
  match l with
  | [] => [x]
  | y :: rest =>
      if (created_at y <=? created_at x)%Z then x :: y :: rest
      else y :: insert_by_created_at x rest
  end.

(** [ORDER BY created_at DESC] over rows in the order of the table.  The
    stamps are whole seconds: rows of the same second come back in the
    order of the table, the oldest first. *)
Definition order_by_created_at_desc (rows : list InstagramAccount)
  : list InstagramAccount :=
  foldr insert_by_created_at [] rows.

(** [SELECT * ... WHERE user_id = ? ORDER BY created_at DESC] *)
Definition get_user_instagram_accounts (uid : Z) (d : Database)
  : list InstagramAccount :=
  order_by_created_at_desc (filter (fun a => user_id a = uid) (instagram_accounts d)).

(** [SELECT COUNT( * ) ... WHERE user_id = ? AND is_verified = 1], then
    [count > 0]. *)
Definition has_verified_account (uid : Z) (d : Database) : bool :=
  let count :=
    length (filter (fun a => user_id a = uid ∧ is_verified a = 1%Z)
                   (instagram_accounts d)) in
  (0 <? Z.of_nat count)%Z.

Definition add_download (uid : Z) (mtype url : string)
           (ig_username : option string) (size : Z) (d : Database) : Database :=
  set_downloads (fun ds =>
    (ds ++ [ {| dl_user_id := uid; media_type := mtype; media_url := url;
                dl_instagram_username := ig_username; file_size := size |} ])%list) d.

Definition create_verification (uid : Z) (ig_username code : string)
           (expires : Z) (d : Database) : Z * Database :=
  let new_id := (seq_pending_verifications d + 1)%Z in
  let row := {| pv_user_id := uid; pv_verification_code := code;
                pv_instagram_username := ig_username; expires_at := expires |} in
  (new_id,
   {| users := users d;
      instagram_accounts := instagram_accounts d;
      seq_instagram_accounts := seq_instagram_accounts d;
      pending_verifications := <[new_id := row]> (pending_verifications d);
      seq_pending_verifications := new_id;
      downloads := downloads d;
      channel_lock := channel_lock d |}).

Definition get_verification (verification_id : Z) (d : Database)
  : option PendingVerification :=
  pending_verifications d !! verification_id.

Definition delete_verification (verification_id : Z) (d : Database) : Database :=
  set_pending (delete verification_id) d.

(** [DELETE FROM pending_verifications WHERE expires_at < datetime('now')].
    No handler calls it. *)
Definition cleanup_expired_verifications (now : Z) (d : Database) : Database :=
  set_pending (filter (fun kv => ¬ (expires_at (snd kv) < now)%Z)) d.

(** [SELECT * FROM channel_lock WHERE is_active = 1] *)
Definition get_locked_channels (d : Database) : list Channel :=
  filter (fun c => is_active c = 1%Z) (channel_lock d).

(** [UPDATE users SET is_banned = ? WHERE user_id = ?] *)
Definition set_is_banned (flag : Z) (uid : Z) (d : Database) : Database :=
  set_users (fun us =>
    match us !! uid with
    | Some u =>
        <[uid := {| username := username u; first_name := first_name u;
                    is_banned := flag; is_premium := is_premium u;
                    download_count := download_count u |}]> us
    | None => us
    end) d.

Definition ban_user (uid : Z) (d : Database) : Database := set_is_banned 1 uid d.
Definition unban_user (uid : Z) (d : Database) : Database := set_is_banned 0 uid d.

(** [SELECT COUNT( * ) FROM users] *)
Definition get_total_users (d : Database) : Z := Z.of_nat (size (users d)).

(** [SELECT * FROM instagram_accounts WHERE id = ?], [fetchone()] *)
Definition get_instagram_account (account_id : Z) (d : Database)
  : option InstagramAccount :=
  find (fun a => Z.eqb (id a) account_id) (instagram_accounts d).

(** [DELETE FROM instagram_accounts WHERE id = ?] *)
Definition delete_instagram_account (account_id : Z) (d : Database) : Database :=
  set_accounts (filter (fun a => id a <> account_id)) d.

(** [SELECT COUNT( * ) FROM instagram_accounts WHERE is_verified = 1] *)
Definition get_total_verified_accounts (d : Database) : Z :=
  Z.of_nat (length (filter (fun a => is_verified a = 1%Z) (instagram_accounts d))).

(** [SELECT COUNT( * ) FROM downloads] *)
Definition get_total_downloads (d : Database) : Z :=
  Z.of_nat (length (downloads d)).

Definition set_channel_lock (f : list Channel -> list Channel) (d : Database) : Database :=
  {| users := users d;
     instagram_accounts := instagram_accounts d;
     seq_instagram_accounts := seq_instagram_accounts d;
     pending_verifications := pending_verifications d;
     seq_pending_verifications := seq_pending_verifications d;
     downloads := downloads d;
     channel_lock := f (channel_lock d) |}.

(** [add_channel_lock]: refused when two channels are active; otherwise
    [INSERT ... ON CONFLICT(channel_id) DO UPDATE SET channel_username,
    channel_title, is_active = 1].  The rows of the model have no
    [channel_username] column, so that argument is not stored. *)
Definition add_channel_lock (cid : string) (channel_username channel_title : option string)
           (d : Database) : bool * Database :=
  let count := length (filter (fun c => is_active c = 1%Z) (channel_lock d)) in
  if (2 <=? Z.of_nat count)%Z then (false, d)
  else
    let row := {| channel_id := cid; channel_title := channel_title; is_active := 1 |} in
    (true,
     set_channel_lock (fun cs =>
       if existsb (fun c => String.eqb (channel_id c) cid) cs
       then map (fun c => if String.eqb (channel_id c) cid then row else c) cs
       else (cs ++ [row])%list) d).

(** [DELETE FROM channel_lock WHERE channel_id = ?] *)
Definition remove_channel_lock (cid : string) (d : Database) : Database :=
  set_channel_lock (filter (fun c => channel_id c <> cid)) d.

Definition is_channel_lock_enabled (d : Database) : bool :=
  (0 <? Z.of_nat (length (get_locked_channels d)))%Z.

(** [UPDATE channel_lock SET is_active = ? WHERE channel_id = ?] *)
Definition toggle_channel_lock (cid : string) (active : bool) (d : Database) : Database :=
  set_channel_lock (map (fun c =>
    if String.eqb (channel_id c) cid
    then {| channel_id := channel_id c; channel_title := channel_title c;
            is_active := if active then 1 else 0 |}
    else c)) d.

End database.

(** ** The libraries behind the handlers

    [instagrapi.Client] and [yt_dlp.YoutubeDL] are outside the repository:
    each of their calls is a function of the environment that returns a
    value or raises.  A call that downloads says which files it left on
    disk. *)

Module external.

Inductive Result (A : Type) : Type :=
| Returned (a : A)
| Raised.
Arguments Returned {A} a.
Arguments Raised {A}.

(** A path handed back by a download, with the size of the file behind it
    ([None]: no such file on disk). *)
Record Fetched := { path : string; on_disk : option Z }.

Record DirectMessage := { text : option string; dm_user_id : Z }.

Record Media := {
  media_type : Z;
  owner_username : string;
  caption_text : string;
  like_count : Z;
  comment_count : Z }.

Record Client := {
  direct_threads : Z -> Result (list Z);            (* thread ids, [amount] *)
  direct_messages : Z -> Z -> Result (list DirectMessage);
  direct_pending_inbox : Result (list Z);
  direct_thread_approve : Z -> Result unit;
  media_info : string -> Result Media;              (* [media_pk_from_url], [media_info] *)
  photo_download : string -> string -> Result Fetched;
  video_download : string -> string -> Result Fetched;
  album_download : string -> string -> Result (list Fetched) }.

(** One entry of [info['formats']].  A key may be absent, hold [None] or
    hold a value. *)
Inductive Field (A : Type) : Type :=
| Absent
| Null
| Val (a : A).
Arguments Absent {A}.
Arguments Null {A}.
Arguments Val {A} a.

(** [d.get(key, default)]; the result [None] is Python's [None]. *)
Definition dict_get {A} (f : Field A) (default : A) : option A :=
  match f with
  | Absent => Some default
  | Null => None
  | Val a => Some a
  end.

(** [d.get(key)] *)
Definition dict_get_none {A} (f : Field A) : option A :=
  match f with
  | Val a => Some a
  | _ => None
  end.

Record Format := {
  f_url : Field string;
  f_format_id : Field string;
  f_ext : Field string;
  f_height : Field Z;
  f_width : Field Z;
  f_filesize : Field Z;
  f_filesize_approx : Field Z;
  f_vcodec : Field string;
  f_acodec : Field string;
  f_format_note : Field string }.

(** [d.get(key, default)] where the default is itself the result of a
    [get]. *)
Definition dict_get_or {A} (f : Field A) (default : option A) : option A :=
  match f with
  | Absent => default
  | Null => None
  | Val a => Some a
  end.

(** A number of an info dictionary: yt-dlp reports a duration in seconds
    as an [int] or as a [float], depending on the site. *)
Inductive PyNumber : Type :=
| PyInt (n : Z)
| PyFloat (x : spec_float).

(** [bool(x)] for a number or [None]: a float is false when it is zero of
    either sign, and true otherwise (a NaN and the infinities included). *)
Definition truthy_number (x : option PyNumber) : bool :=
  match x with
  | Some (PyInt n) => negb (Z.eqb n 0)
  | Some (PyFloat (S754_zero _)) => false
  | Some (PyFloat _) => true
  | None => false
  end.

(** The info dictionary of yt-dlp: the keys the repository reads. *)
Record YdlInfo := {
  title : Field string;
  uploader : Field string;
  channel : Field string;
  duration : Field PyNumber;
  view_count : Field PyNumber;
  formats : Field (list Format);
  filename : string }.                 (* [ydl.prepare_filename(info)] *)

Record YoutubeDL := {
  (** [extract_info(url, download=False)] *)
  probe : string -> Result (option YdlInfo);
  (** [extract_info(url, download=True)] under a format selector, with or
      without the audio post-processor: what it returns or that it raises,
      and the files it wrote, which stay on disk in either case (a download
      that breaks off leaves its partial files). *)
  fetch : string -> string -> bool -> Result YdlInfo * list (string * Z) }.

End external.

(** ** The world of a handler run: state, environment, trace, exceptions *)

Module rt.

(** The texts of [messages.py], which is not among the sources, and the
    literal texts the handlers send. *)
Inductive Msg : Type :=
| USER_BANNED_MESSAGE
| CHANNEL_LOCK_REQUIRED
| NO_VERIFIED_ACCOUNT
| RATE_LIMIT (wait_time : Z)
| INVALID_LINK
| SEND_LINK
| FETCHING_INFO
| SELECT_QUALITY
| DOWNLOADING
| PROCESSING
| UPLOADING
| FILE_TOO_LARGE
| DOWNLOAD_FAILED
| LINK_NOT_FOUND
| DOWNLOAD_CANCELLED
| VERIFICATION_CODE_EXPIRED         (* the reply to an unknown verification id *)
| VERIFICATION_PENDING
| VERIFICATION_SUCCESS (ig_username : string)
| VERIFICATION_FAILED
| INVALID_COMMAND.

(** The quality buttons of [keyboards.download_options]. *)
Inductive Label : Type :=
| BestQuality
| Resolution (p : Z)
| AudioOnlyMp3
| Cancel.

Record Button := { label : Label; callback_data : string }.

Inductive Markup : Type :=
| NoMarkup
| InlineKeyboard (rows : list (list Button))
| VerificationCheck (verification_id : Z)
| BackButton
| JoinChannels.

Inductive Event : Type :=
(* Telegram *)
| reply_text (m : Msg) (k : Markup)
| edit_text (m : Msg) (k : Markup)
| delete_message
| send_chat_action
| answer_query
| reply_photo (file : string)
| reply_video (file : string)
| reply_audio (file : string)
| reply_document (file : string)
(* Instagram and yt-dlp *)
| ig_media_info (url : string)
| ig_download (url : string)
| ig_inbox
| ydl_probe (url : string)
| ydl_fetch (url : string) (format : string).

Inductive Exn : Type :=
| TelegramError
| FileNotFoundError
| TypeError
| ValueError
| LibraryError.

Record Env := {
  clock : Z;                                   (* [datetime.now()] *)
  admin_id : Z;                                (* [config.admin_id] *)
  download_dir : string;                       (* [config.download_dir] *)
  instagram_initialized : bool;
  client : option external.Client;             (* [instagram_handler.client] *)
  ydl : external.YoutubeDL;
  get_chat_member : string -> Z -> external.Result string;
  telegram_raises : nat -> bool }.             (* does the n-th Telegram call raise *)

Record World := {
  db : database.Database;
  files : gmap string Z;                       (* a file on disk and its size *)
  last_request : gmap Z Z;                     (* [rate_limiter.last_request] *)
  download_url : option string;                (* [context.user_data['download_url']] *)
  trace : list Event;
  telegram_calls : nat }.

Definition set_db (f : database.Database -> database.Database) (w : World) : World :=
  {| db := f (db w); files := files w; last_request := last_request w;
     download_url := download_url w; trace := trace w;
     telegram_calls := telegram_calls w |}.
Definition set_files (f : gmap string Z -> gmap string Z) (w : World) : World :=
  {| db := db w; files := f (files w); last_request := last_request w;
     download_url := download_url w; trace := trace w;
     telegram_calls := telegram_calls w |}.
Definition set_last_request (f : gmap Z Z -> gmap Z Z) (w : World) : World :=
  {| db := db w; files := files w; last_request := f (last_request w);
     download_url := download_url w; trace := trace w;
     telegram_calls := telegram_calls w |}.
Definition set_download_url (u : option string) (w : World) : World :=
  {| db := db w; files := files w; last_request := last_request w;
     download_url := u; trace := trace w;
     telegram_calls := telegram_calls w |}.
Definition log (e : Event) (w : World) : World :=
  {| db := db w; files := files w; last_request := last_request w;
     download_url := download_url w; trace := (trace w ++ [e])%list;
     telegram_calls := telegram_calls w |}.
Definition count_call (w : World) : World :=
  {| db := db w; files := files w; last_request := last_request w;
     download_url := download_url w; trace := trace w;
     telegram_calls := S (telegram_calls w) |}.

Inductive Res (A : Type) : Type :=
| Ok (a : A)
| Raise (e : Exn).
Arguments Ok {A} a.
Arguments Raise {A} e.

(** A computation reads the environment, changes the world and returns or
    raises; what it did to the world before raising stays done. *)
Definition M (A : Type) : Type := Env -> World -> Res A * World.

Definition ret {A} (a : A) : M A := fun _ w => (Ok a, w).

Definition bind {A B} (m : M A) (k : A -> M B) : M B :=
  fun env w =>
    match m env w with
    | (Ok a, w') => k a env w'
    | (Raise e, w') => (Raise e, w')
    end.

Definition raise {A} (e : Exn) : M A := fun _ w => (Raise e, w).

(** [try: body  except Exception as e: handler] *)
Definition try_except {A} (body : M A) (handler : Exn -> M A) : M A :=
  fun env w =>
    match body env w with
    | (Ok a, w') => (Ok a, w')
    | (Raise e, w') => handler e env w'
    end.

Definition ask : M Env := fun env w => (Ok env, w).
Definition get : M World := fun _ w => (Ok w, w).
Definition modify (f : World -> World) : M unit := fun _ w => (Ok tt, f w).

(** A call to Telegram: it raises when the environment says so, and is
    otherwise recorded in the trace. *)
Definition telegram (e : Event) : M unit :=
  fun env w =>
    let w' := count_call w in
    if telegram_raises env (telegram_calls w)
    then (Raise TelegramError, w')
    else (Ok tt, log e w').

(** A call to Instagram or yt-dlp is recorded when it is attempted. *)
Definition network (e : Event) : M unit := modify (log e).

Fixpoint for_each {A} (l : list A) (body : A -> M unit) : M unit :=
  match l with
  | [] => ret tt
  | x :: rest => bind (body x) (fun _ => for_each rest body)
  end.

End rt.

#[global] Instance handler_ret : MRet rt.M := @rt.ret.
#[global] Instance handler_bind : MBind rt.M := fun A B k m => rt.bind m k.

(** ** [os.path] and decimal numerals *)

Module os_path.

(** Split at the last character of a class: the text before it, and the
    text from it on. *)
Fixpoint rbreak (p : ascii -> bool) (s : string) : option (string * string) :=
  match s with
  | EmptyString => None
  | String c rest =>
      match rbreak p rest with
      | Some (a, b) => Some (String c a, b)
      | None => if p c then Some (EmptyString, s) else None
      end
  end.

(** [os.path.splitext(p)]: the extension starts at the last dot of the
    file name, unless only dots come before it in the name. *)
Definition splitext (p : string) : string * string :=
  let '(dir, base) :=
    match rbreak (Ascii.eqb "/") p with
    | Some (a, String _ b) => (a ++ "/", b)
    | _ => (EmptyString, p)
    end in
  match rbreak (Ascii.eqb ".") base with
  | Some (stem, ext) =>
      if Py.all_chars (Ascii.eqb ".") stem then (p, EmptyString)
      else (dir ++ stem, ext)
  | None => (p, EmptyString)
  end.

(** [ext in exts] *)
Definition ext_in (ext : string) (exts : list string) : bool :=
  existsb (String.eqb ext) exts.

End os_path.

(** ** [downloader.py] *)

Module downloader.
Import external rt.

(** An entry of the list built by [_parse_formats]. *)
Record Parsed := {
  format_id : option string;
  ext : option string;
  quality : option string;
  height : option Z;
  width : option Z;
  filesize : option Z;
  has_video : bool;
  has_audio : bool }.

(** [str(n)] *)
Definition str (n : Z) : string := DecimalString.NilZero.string_of_int (Z.to_int n).

Definition falsy_str (o : option string) : bool :=
  match o with Some (String _ _) => false | _ => true end.
Definition falsy_int (o : option Z) : bool :=
  match o with Some z => Z.eqb z 0 | None => true end.

(** [a == 'none'] *)
Definition is_none_codec (o : option string) : bool :=
  match o with Some s => String.eqb s "none" | None => false end.

Definition label_eqb (a b : option string) : bool :=
  match a, b with
  | Some x, Some y => String.eqb x y
  | None, None => true
  | _, _ => false
  end.

(** The body of the loop of [_parse_formats]: [seen_qualities] and
    [parsed] after one more format. *)
Definition parse_step (acc : list (option string) * list Parsed) (fmt : Format)
  : list (option string) * list Parsed :=
  let '(seen_qualities, parsed) := acc in
  if falsy_str (dict_get_none (f_url fmt)) then acc
  else
    let format_id := dict_get (f_format_id fmt) "" in
    let ext := dict_get (f_ext fmt) "" in
    let height := dict_get (f_height fmt) 0%Z in
    let width := dict_get (f_width fmt) 0%Z in
    let filesize :=
      if falsy_int (dict_get (f_filesize fmt) 0%Z)
      then dict_get (f_filesize_approx fmt) 0%Z
      else dict_get (f_filesize fmt) 0%Z in
    let vcodec := dict_get (f_vcodec fmt) "none" in
    let acodec := dict_get (f_acodec fmt) "none" in
    let format_note := dict_get (f_format_note fmt) "" in
    if is_none_codec vcodec && negb (is_none_codec acodec) then acc
    else
      let quality :=
        if negb (falsy_int height)
        then match height with Some h => Some (str h ++ "p") | None => None end
        else if negb (falsy_str format_note) then format_note
             else format_id in
      if existsb (label_eqb quality) seen_qualities then acc
      else ((seen_qualities ++ [quality])%list,
            (parsed ++ [ {| format_id := format_id; ext := ext;
                            quality := quality; height := height;
                            width := width; filesize := filesize;
                            has_video := negb (is_none_codec vcodec);
                            has_audio := negb (is_none_codec acodec) |} ])%list).

(** A stable sort by [height], largest first: [list.sort(key, reverse=True)]. *)
Fixpoint insert_desc (key : Parsed -> Z) (x : Parsed) (l : list Parsed) : list Parsed :=
  match l with
  | [] => [x]
  | y :: rest =>
      if (key y <=? key x)%Z then x :: y :: rest
      else y :: insert_desc key x rest
  end.

Definition sort_desc (key : Parsed -> Z) (l : list Parsed) : list Parsed :=
  foldr (insert_desc key) [] l.

Definition height_key (x : Parsed) : Z :=
  match height x with Some h => h | None => 0%Z end.

(** Sorting two or more entries compares every key; comparing [None]
    raises [TypeError], which is the result [None] here. *)
Definition sort_by_height (parsed : list Parsed) : option (list Parsed) :=
  match parsed with
  | [] | [_] => Some parsed
  | _ =>
      if forallb (fun x => match height x with Some _ => true | None => false end) parsed
      then Some (sort_desc height_key parsed)
      else None
  end.

Definition _parse_formats (formats : list Format) : option (list Parsed) :=
  let '(_, parsed) := fold_left parse_step formats ([], []) in
  match sort_by_height parsed with
  | Some sorted => Some (take 8 sorted)
  | None => None
  end.

(** The dictionary returned by [get_video_info]; the URL cache it fills is
    read by no handler and is left out. *)
Record VideoInfo := {
  vi_title : option string;
  vi_uploader : option string;
  vi_duration : option PyNumber;
  vi_view_count : option PyNumber;
  vi_formats : list Parsed }.

(** [self._parse_formats(info.get('formats', []))]: the loop over [None]
    raises [TypeError], which is the result [None] here. *)
Definition parse_formats_of (info : YdlInfo) : option (list Parsed) :=
  match dict_get (formats info) [] with
  | Some formats => _parse_formats formats
  | None => None
  end.

Definition get_video_info (url : string) : M (option VideoInfo) :=
  env ← ask;
  network (ydl_probe url);;
  mret match probe (ydl env) url with
       | Returned (Some info) =>
           match parse_formats_of info with
           | Some parsed =>
               Some {| vi_title := dict_get (title info) "Unknown";
                       vi_uploader :=
                         dict_get_or (uploader info) (dict_get (channel info) "Unknown");
                       vi_duration := dict_get (duration info) (PyInt 0);
                       vi_view_count := dict_get (view_count info) (PyInt 0);
                       vi_formats := parsed |}
           | None => None                      (* except Exception *)
           end
       | Returned None => None                 (* if not info *)
       | Raised => None                        (* except Exception *)
       end.

(** The dictionary returned by [download_with_ytdlp]. *)
Record Downloaded := {
  filepath : string;
  dl_title : option string;
  dl_uploader : option string;
  dl_duration : option PyNumber;
  dl_view_count : option PyNumber;
  is_audio : bool }.

(** The branches of [download_with_ytdlp] on [quality]: the [format]
    option and whether the mp3 post-processor is installed. *)
Definition format_of_quality (quality : string) : string * bool :=
  if String.eqb quality "best"
  then ("bestvideo[filesize<50M]+bestaudio/best[filesize<50M]/best", false)
  else if String.eqb quality "720"
  then ("bestvideo[height<=720]+bestaudio/best[height<=720]", false)
  else if String.eqb quality "480"
  then ("bestvideo[height<=480]+bestaudio/best[height<=480]", false)
  else if String.eqb quality "360"
  then ("bestvideo[height<=360]+bestaudio/best[height<=360]", false)
  else if String.eqb quality "240"
  then ("bestvideo[height<=240]+bestaudio/best[height<=240]", false)
  else if String.eqb quality "audio"
  then ("bestaudio/best", true)
  else ("best[filesize<50M]/best", false).

(** The [format] option, whether the post-processor is installed, and
    [extract_audio] afterwards. *)
Definition select_format (extract_audio : bool) (quality : string)
           (format_id : option string) : string * bool * bool :=
  if extract_audio then ("bestaudio/best", true, true)
  else if negb (falsy_str format_id)
          && negb (label_eqb format_id (Some "best"))
  then (match format_id with Some f => f | None => EmptyString end
        ++ "+bestaudio/best", false, false)
  else let '(format, audio) := format_of_quality quality in
       (format, audio, audio).

Definition write_files (written : list (string * Z)) (fs : gmap string Z)
  : gmap string Z :=
  fold_left (fun m pz => <[fst pz := snd pz]> m) written fs.

Definition download_with_ytdlp (url : string) (extract_audio : bool)
           (quality : string) (format_id : option string)
  : M (option Downloaded) :=
  env ← ask;
  let '(format, postprocess, extract_audio) :=
    select_format extract_audio quality format_id in
  network (ydl_fetch url format);;
  let '(outcome, written) := fetch (ydl env) url format postprocess in
  modify (set_files (write_files written));;
  match outcome with
  | Returned info =>
      let audio := extract_audio || String.eqb quality "audio" in
      let filepath :=
        if audio then fst (os_path.splitext (filename info)) ++ ".mp3"
        else filename info in
      mret (Some {| filepath := filepath;
                    dl_title := dict_get (title info) "Unknown";
                    dl_uploader :=
                      dict_get_or (uploader info) (dict_get (channel info) "Unknown");
                    dl_duration := dict_get (duration info) (PyInt 0);
                    dl_view_count := dict_get (view_count info) (PyInt 0);
                    is_audio := audio |})
  | Raised => mret None                         (* except Exception *)
  end.

Definition download_with_quality (url quality : string) : M (option Downloaded) :=
  download_with_ytdlp url false quality None.

Definition download_audio_only (url : string) : M (option Downloaded) :=
  download_with_ytdlp url true "best" None.

Definition download_with_format_id (url format_id : string) : M (option Downloaded) :=
  if String.eqb format_id "audio" then download_audio_only url
  else download_with_ytdlp url false "best" (Some format_id).

(** [os.path.getsize], or 0 when it raises. *)
Definition get_file_size (filepath : string) : M Z :=
  w ← get;
  mret match files w !! filepath with
       | Some size => size
       | None => 0%Z
       end.

(** [if os.path.exists(filepath): os.remove(filepath)] *)
Definition cleanup_file (filepath : string) : M unit :=
  w ← get;
  match files w !! filepath with
  | Some _ => modify (set_files (delete filepath))
  | None => mret tt
  end.

End downloader.

(** ** Patterns over every code point

    For a [str] pattern the class [\d] holds every decimal digit of the
    Unicode database (category Nd), and most of them lie above U+00FF.  A
    pattern that uses it is modelled over texts given as the list of
    their code points, with the category as a parameter; only whether
    there is a match is computed. *)

Module Ucs.

Definition text : Type := list N.

Inductive regex : Type :=
| Eps                              (* the empty pattern *)
| Chr (c : N)                      (* one literal character *)
| Cls (p : N -> bool)              (* one character of a class *)
| Seq (r1 r2 : regex)              (* r1 r2 *)
| Plus (p : N -> bool).            (* [class]+ *)

(** [[class]*] followed by the continuation [k], the longer run first. *)
Fixpoint star_cls (p : N -> bool) (k : text -> bool) (s : text) : bool :=
  match s with
  | c :: rest =>
      if p c then (if star_cls p k rest then true else k s) else k s
  | [] => k s
  end.

(** [rmatch r s k]: is there a match of [r] at the start of [s] after
    which the continuation [k] accepts what is left. *)
Fixpoint rmatch (r : regex) (s : text) (k : text -> bool) : bool :=
  match r with
  | Eps => k s
  | Chr c =>
      match s with
      | c' :: rest => N.eqb c' c && k rest
      | [] => false
      end
  | Cls p =>
      match s with
      | c :: rest => p c && k rest
      | [] => false
      end
  | Seq r1 r2 => rmatch r1 s (fun rest => rmatch r2 rest k)
  | Plus p =>
      match s with
      | c :: rest => p c && star_cls p k rest
      | [] => false
      end
  end.

(** [r{n}] *)
Fixpoint times (r : regex) (n : nat) : regex :=
  match n with
  | O => Eps
  | S n' => Seq r (times r n')
  end.

(** [$] at the end of a pattern: the end of the text, or the position
    before a line feed that ends the text. *)
Definition at_end (rest : text) : bool :=
  match rest with
  | [] => true
  | [c] => N.eqb c 10
  | _ => false
  end.

(** [bool(re.match(r'^...$', s))] *)
Definition match_to_end (r : regex) (s : text) : bool := rmatch r s at_end.

(** The language of a pattern. *)
Inductive lang : regex -> text -> Prop :=
| L_eps : lang Eps []
| L_chr c : lang (Chr c) [c]
| L_cls (p : N -> bool) c : p c = true -> lang (Cls p) [c]
| L_seq r1 r2 a b : lang r1 a -> lang r2 b -> lang (Seq r1 r2) (a ++ b)%list
| L_plus (p : N -> bool) c a :
    p c = true -> forallb p a = true -> lang (Plus p) (c :: a).

End Ucs.

(** ** [utils.py]: validation and text helpers *)

Module utils_text.

(** The class [[a-zA-Z0-9._]]. *)
Definition username_char (c : ascii) : bool :=
  Py.is_lower c || Py.is_upper c || Py.is_digit c || Py.mem c "._".

(** [^[a-zA-Z0-9._]{1,30}$] *)
Definition username_pattern : Re.regex := Re.bounded (Re.Cls username_char) 1 30.

Definition is_valid_instagram_username (username : string) : bool :=
  Re.match_to_end username_pattern username.

(** The class [[A-Za-z0-9_-]], on code points. *)
Definition token_char (c : N) : bool :=
  ((65 <=? c) && (c <=? 90) || (97 <=? c) && (c <=? 122)
   || (48 <=? c) && (c <=? 57) || (c =? 95) || (c =? 45))%N.

Section Token.
(** [\d]: the decimal digits of the Unicode database the interpreter was
    built with. *)
Variable decimal : N -> bool.

(** [^\d+:[A-Za-z0-9_-]{35}$]; the colon is U+003A. *)
Definition token_pattern : Ucs.regex :=
  Ucs.Seq (Ucs.Plus decimal)
    (Ucs.Seq (Ucs.Chr 58) (Ucs.times (Ucs.Cls token_char) 35)).

Definition validate_telegram_token (token : Ucs.text) : bool :=
  Ucs.match_to_end token_pattern token.
End Token.

(** [f"{n:02d}"] *)
Definition format_02d (n : Z) : string :=
  if (0 <=? n)%Z && (n <? 10)%Z then "0" ++ downloader.str n else downloader.str n.

Definition format_duration (seconds : Z) : string :=
  let hours := (seconds / 3600)%Z in
  let remainder := (seconds mod 3600)%Z in
  let minutes := (remainder / 60)%Z in
  let seconds := (remainder mod 60)%Z in
  if (0 <? hours)%Z
  then format_02d hours ++ ":" ++ format_02d minutes ++ ":" ++ format_02d seconds
  else format_02d minutes ++ ":" ++ format_02d seconds.

(** The class of the characters [sanitize_filename] removes: [<>:/\|?*]
    and the double quote (code 34). *)
Definition invalid_filename_char (c : ascii) : bool :=
  Py.mem c "<>:/\|?*" || Nat.eqb (Py.ord c) 34.

Definition sanitize_filename (filename : string) : string :=
  (* Remove invalid characters *)
  let filename := Py.remove_chars invalid_filename_char filename in
  (* Replace spaces with underscores *)
  let filename := Py.replace_char " " "_" filename in
  (* Limit length *)
  if (200 <? Z.of_nat (String.length filename))%Z then
    let '(name, ext) := os_path.splitext filename in
    Py.slice_to (200 - Z.of_nat (String.length ext)) name ++ ext
  else filename.

Definition get_media_type_from_url (url : string) : string :=
  if Py.contains "/p/" url then "post"
  else if Py.contains "/reel/" url then "reel"
  else if Py.contains "/tv/" url then "igtv"
  else if Py.contains "/stories/" url then "story"
  else "unknown".

Definition truncate_text (text : string) (max_length : Z) (suffix : string) : string :=
  if (Z.of_nat (String.length text) <=? max_length)%Z then text
  else Py.slice_to (max_length - Z.of_nat (String.length suffix)) text ++ suffix.

(** [special_chars], one character after the other. *)
Definition special_chars : string := "_*[]()~`>#+-=|{}.!".

(** [for char in chars: text = text.replace(char, '\' + char)] *)
Fixpoint escape_each (chars : string) (text : string) : string :=
  match chars with
  | EmptyString => text
  | String char rest =>
      escape_each rest (Py.replace_char char (String "\" (String char EmptyString)) text)
  end.

Definition escape_markdown (text : string) : string :=
  escape_each special_chars text.

Definition clean_caption (caption : string) (max_length : Z) : string :=
  match caption with
  | EmptyString => EmptyString
  | _ =>
      (* Remove extra whitespace *)
      let caption := Py.join " " (Py.split caption) in
      (* Truncate if too long *)
      if (max_length <? Z.of_nat (String.length caption))%Z
      then Py.slice_to max_length caption ++ "..."
      else caption
  end.

End utils_text.

(** ** [instagram_handler.py] *)

Module instagram_handler.
Import external rt.

(** [message.text and verification_code in message.text] *)
Definition has_code (verification_code : string) (message : DirectMessage) : bool :=
  match text message with
  | Some (String c r) => Py.contains verification_code (String c r)
  | _ => false
  end.

(** The loop over threads: the first thread with a message that holds
    the code, [None] when there is none; [Raised] when
    [direct_messages] raises before the code is met. *)
Fixpoint scan_threads (cl : Client) (verification_code : string)
         (max_messages : Z) (threads : list Z) : Result (option Z) :=
  match threads with
  | [] => Returned None
  | thread :: rest =>
      match direct_messages cl thread max_messages with
      | Returned messages =>
          if existsb (has_code verification_code) messages
          then Returned (Some thread)
          else scan_threads cl verification_code max_messages rest
      | Raised => Raised
      end
  end.

(** The scan of [check_direct_message] for a client in hand. *)
Definition scan_inboxes (cl : Client) (verification_code : string)
           (max_messages : Z) : bool :=
  match direct_threads cl 20 with
  | Returned threads =>
      match scan_threads cl verification_code max_messages threads with
      | Returned (Some _) => true
      | Returned None =>
          (* message requests *)
          match direct_pending_inbox cl with
          | Returned pending_threads =>
              match scan_threads cl verification_code max_messages pending_threads with
              | Returned (Some thread) =>
                  match direct_thread_approve cl thread with
                  | Returned _ => true
                  | Raised => true             (* could not approve: a warning *)
                  end
              | Returned None => false
              | Raised => false                (* could not check pending inbox *)
              end
          | Raised => false                    (* could not check pending inbox *)
          end
      | Raised => false                        (* error checking DMs *)
      end
  | Raised => false                            (* error checking DMs *)
  end.

Definition default_max_messages : Z := 50.

Definition check_direct_message (verification_code : string) : M bool :=
  env ← ask;
  match client env with
  | None => mret false                         (* no active Instagram client *)
  | Some cl =>
      network ig_inbox;;
      mret (scan_inboxes cl verification_code default_max_messages)
  end.

Record MediaInfo := {
  mi_media_type : string;
  mi_username : string;
  mi_caption : string;
  mi_like_count : Z;
  mi_comment_count : Z }.

Definition _get_media_type (media_type : Z) : string :=
  if Z.eqb media_type 1 then "photo"
  else if Z.eqb media_type 2 then "video"
  else if Z.eqb media_type 8 then "album"
  else "unknown".

Definition get_media_info (url : string) : M (option MediaInfo) :=
  env ← ask;
  match client env with
  | None => mret None
  | Some cl =>
      network (ig_media_info url);;
      mret match media_info cl url with
           | Returned media =>
               Some {| mi_media_type := _get_media_type (media_type media);
                       mi_username := owner_username media;
                       mi_caption := caption_text media;
                       mi_like_count := like_count media;
                       mi_comment_count := comment_count media |}
           | Raised => None
           end
  end.

Definition written (fetched : list Fetched) : list (string * Z) :=
  omap (fun f => match on_disk f with
                 | Some size => Some (path f, size)
                 | None => None
                 end) fetched.

(** The download by media type; [None] when a call raises. *)
Definition download_by_type (cl : Client) (url folder : string)
  : option (list Fetched) :=
  match media_info cl url with
  | Returned media =>
      if Z.eqb (media_type media) 1 then
        match photo_download cl url folder with
        | Returned f => Some [f]
        | Raised => None
        end
      else if Z.eqb (media_type media) 2 then
        match video_download cl url folder with
        | Returned f => Some [f]
        | Raised => None
        end
      else if Z.eqb (media_type media) 8 then
        match album_download cl url folder with
        | Returned fs => Some fs
        | Raised => None
        end
      else Some []
  | Raised => None
  end.

Definition download_media (url folder : string) : M (option (list string)) :=
  env ← ask;
  match client env with
  | None => mret None
  | Some cl =>
      network (ig_download url);;
      match download_by_type cl url folder with
      | Some fetched =>
          modify (set_files (downloader.write_files (written fetched)));;
          mret (Some (map path fetched))
      | None => mret None
      end
  end.

(** [get_user_info(username)] is truthy: a client is in hand and its call
    [user_info_by_username] returns.  The call is an argument here. *)
Definition get_user_info (user_info_by_username : string -> Result unit)
           (cl : option Client) (username : string) : bool :=
  match cl with
  | None => false
  | Some _ =>
      match user_info_by_username username with
      | Returned _ => true
      | Raised => false                        (* except Exception *)
      end
  end.

End instagram_handler.

(** ** [keyboards.py] *)

Module keyboards.
Import rt.

(** [url[:50]] *)
Definition head50 (url : string) : string := String.substring 0 50 url.

Definition download_options (url : string) (has_audio has_video : bool)
  : list (list Button) :=
  ((if has_video then
      [ [ {| label := BestQuality; callback_data := "dl:best:" ++ head50 url |} ];
        [ {| label := Resolution 720; callback_data := "dl:720:" ++ head50 url |};
          {| label := Resolution 480; callback_data := "dl:480:" ++ head50 url |} ];
        [ {| label := Resolution 360; callback_data := "dl:360:" ++ head50 url |};
          {| label := Resolution 240; callback_data := "dl:240:" ++ head50 url |} ] ]
    else [])
   ++ (if has_audio then
         [ [ {| label := AudioOnlyMp3; callback_data := "dl:audio:" ++ head50 url |} ] ]
       else [])
   ++ [ [ {| label := Cancel; callback_data := "cancel_download" |} ] ])%list.

End keyboards.

(** ** [bot.py]: the handlers of [MXBot] *)

Module bot.
Import external rt.

(** [update.effective_user] *)
Record TgUser := {
  tg_id : Z;
  tg_username : option string;
  tg_first_name : option string }.

Definition check_channel_membership (user_id : Z) : M bool :=
  env ← ask;
  w ← get;
  let channels := database.get_locked_channels (db w) in
  mret (forallb (fun channel =>
          if negb (Z.eqb (database.is_active channel) 0) then
            match get_chat_member env (database.channel_id channel) user_id with
            | Returned status =>
                negb (String.eqb status "left" || String.eqb status "kicked")
            | Raised => false                  (* cannot check: not a member *)
            end
          else true) channels).

Definition check_membership_middleware (user_id : Z) : M bool :=
  env ← ask;
  if Z.eqb user_id (admin_id env) then mret true
  else
    w ← get;
    if database.is_user_banned user_id (db w) then
      telegram (reply_text USER_BANNED_MESSAGE NoMarkup);;
      mret false
    else
      member ← check_channel_membership user_id;
      if negb member then
        telegram (reply_text CHANNEL_LOCK_REQUIRED JoinChannels);;
        mret false
      else mret true.

(** [50 * 1024 * 1024] *)
Definition size_limit : Z := 50 * 1024 * 1024.

(** [open(path, 'rb')] *)
Definition open_rb (path : string) : M unit :=
  w ← get;
  match files w !! path with
  | Some _ => mret tt
  | None => raise FileNotFoundError
  end.

Definition rate_limit (user_id : Z) (cooldown : Z) : M (bool * Z) :=
  env ← ask;
  w ← get;
  let '(answer, last_request') :=
    utils.RateLimiter.can_proceed (clock env) user_id cooldown (last_request w) in
  modify (set_last_request (fun _ => last_request'));;
  mret answer.

(** [format_duration(d.get('duration', 0)) if d.get('duration') else ...]
    on a dictionary built by [downloader]; [None] is the literal text for
    an unknown duration.  [format_duration] divides a float without
    complaint, and its format code [02d] then raises [ValueError]. *)
Definition duration_str (duration : option PyNumber) : M (option string) :=
  match duration with
  | Some seconds =>
      if truthy_number duration then
        match seconds with
        | PyInt n => mret (Some (utils_text.format_duration n))
        | PyFloat _ => raise ValueError
        end
      else mret None
  | None => mret None
  end.

(** [info.get('title', 'Unknown')[:50]]: [None] is not subscriptable. *)
Definition title_slice (title : option string) : M string :=
  match title with
  | Some title => mret (Py.slice_to 50 title)
  | None => raise TypeError
  end.

(** The other texts of a caption are built with [format_number] and
    [str.format], which take the numbers, strings and [None] of an info
    dictionary without raising (a count beyond the range of a float
    apart); the captions are not part of the trace. *)
Definition _perform_download (user_id : Z) (url quality : string) : M unit :=
  try_except
    (telegram send_chat_action;;
     result ← downloader.download_with_quality url quality;
     match result with
     | Some result =>
         let filepath := downloader.filepath result in
         telegram (edit_text UPLOADING NoMarkup);;
         file_size ← downloader.get_file_size filepath;
         (* Check file size (50MB limit) *)
         if (size_limit <? file_size)%Z then
           telegram (reply_text FILE_TOO_LARGE NoMarkup);;
           downloader.cleanup_file filepath;;
           telegram delete_message
         else
           (* Prepare caption with full info *)
           duration_str (downloader.dl_duration result);;
           (* Determine file type *)
           let ext := Py.lower (snd (os_path.splitext filepath)) in
           open_rb filepath;;
           (if os_path.ext_in ext [".mp3"; ".m4a"; ".wav"; ".ogg"; ".opus"]
               || downloader.is_audio result
            then telegram (reply_audio filepath)
            else if os_path.ext_in ext [".mp4"; ".webm"; ".mkv"; ".mov"]
            then telegram (reply_video filepath)
            else telegram (reply_document filepath));;
           (* Cleanup *)
           downloader.cleanup_file filepath;;
           telegram delete_message;;
           (* Record download *)
           modify (set_db (database.add_download user_id "ytdlp" url None 0));;
           modify (set_db (database.increment_download_count user_id))
     | None =>
         telegram (edit_text DOWNLOAD_FAILED NoMarkup)
     end)
    (fun _ => telegram (edit_text DOWNLOAD_FAILED NoMarkup)).

Definition ytdlp_download_handler (user : TgUser) (text : string) : M unit :=
  let user_id := tg_id user in
  modify (set_db (database.add_user user_id (tg_username user) (tg_first_name user)));;
  member ← check_membership_middleware user_id;
  if negb member then mret tt
  else
    '(can_proceed, wait_time) ← rate_limit user_id 5;
    if negb can_proceed then
      telegram (reply_text (RATE_LIMIT wait_time) NoMarkup)
    else
      match utils.extract_media_url text with
      | Some (String c r) =>
          let url := String c r in
          modify (set_download_url (Some url));;
          telegram (reply_text FETCHING_INFO NoMarkup);;
          try_except
            (telegram send_chat_action;;
             info ← downloader.get_video_info url;
             match info with
             | Some info =>
                 (* Format duration *)
                 duration_str (downloader.vi_duration info);;
                 (* Show quality selection *)
                 title_slice (downloader.vi_title info);;
                 telegram (edit_text SELECT_QUALITY
                             (InlineKeyboard (keyboards.download_options url true true)))
             | None =>
                 (* Direct download with best quality *)
                 _perform_download user_id url "best"
             end)
            (fun _ => _perform_download user_id url "best")
      | _ => telegram (reply_text INVALID_LINK NoMarkup)
      end.

(** [data.split(':', 2)[1]] for a [data] that starts with [dl:] *)
Definition quality_of_callback (data : string) : string :=
  match Py.strip_prefix "dl:" data with
  | Some rest => fst (Py.break (Ascii.eqb ":") rest)
  | None => EmptyString
  end.

Definition handle_quality_selection (user_id : Z) (data : string) : M unit :=
  telegram answer_query;;
  if String.eqb data "cancel_download" then
    telegram (edit_text DOWNLOAD_CANCELLED NoMarkup)
  else if Py.startswith data "dl:" then
    w ← get;
    match download_url w with
    | Some (String c r) =>
        telegram (edit_text DOWNLOADING NoMarkup);;
        _perform_download user_id (String c r) (quality_of_callback data)
    | _ => telegram (edit_text LINK_NOT_FOUND NoMarkup)
    end
  else mret tt.

(** [re.match] of callback data against a pattern [^text$] and against a
    pattern [^text], for a literal text. *)
Definition pattern_exact (text data : string) : bool :=
  Re.match_to_end (Re.Lit text) data.
Definition pattern_prefix (text data : string) : bool :=
  match Re.match_here (Re.Lit text) data with
  | Some _ => true
  | None => false
  end.

(** The patterns of the callback-query handlers that [run] registers
    before [handle_quality_selection], in the order of registration: the
    entry points of the seven conversations, then four callbacks. *)
Definition patterns_before_quality_selection : list (string -> bool) :=
  [ pattern_exact "add_account";
    pattern_exact "admin_broadcast";
    pattern_exact "upload_session";
    pattern_exact "add_channel_lock";
    pattern_exact "admin_search_user";
    pattern_prefix "send_to_user:";
    pattern_exact "add_admin_ig_account";
    pattern_prefix "check_verification:";
    pattern_exact "check_membership";
    pattern_exact "check_session_status";
    pattern_exact "relogin_session" ].

(** [CallbackQueryHandler(self.handle_quality_selection, pattern="^dl:")] *)
Definition quality_selection_pattern : string -> bool := pattern_prefix "dl:".

Inductive CallbackTarget : Type :=
| AnEarlierHandler
| HandleQualitySelection
| ButtonCallback.

(** The handler the application calls for a callback query: the first one
    registered whose pattern matches the data; [button_callback] is
    registered last and without a pattern.  For data that matches an
    earlier pattern, which handler takes the query - an entry point takes
    it only while its conversation is not running - is not modelled. *)
Definition callback_target (data : string) : CallbackTarget :=
  if existsb (fun pattern => pattern data) patterns_before_quality_selection
  then AnEarlierHandler
  else if quality_selection_pattern data then HandleQualitySelection
  else ButtonCallback.

(** The conditions of the [if]/[elif] chain of [button_callback], in
    order. *)
Definition button_callback_conditions : list (string -> bool) :=
  [ (fun data => String.eqb data "back_to_menu");
    (fun data => String.eqb data "list_accounts");
    (fun data => Py.startswith data "view_account:");
    (fun data => Py.startswith data "delete_account:");
    (fun data => Py.startswith data "confirm_delete:");
    (fun data => String.eqb data "admin_panel");
    (fun data => String.eqb data "admin_stats");
    (fun data => String.eqb data "admin_channel_lock");
    (fun data => String.eqb data "admin_users");
    (fun data => String.eqb data "admin_banned_users");
    (fun data => String.eqb data "admin_instagram_accounts");
    (fun data => String.eqb data "admin_settings");
    (fun data => String.eqb data "admin_sessions");
    (fun data => Py.startswith data "view_channel:");
    (fun data => Py.startswith data "enable_channel:"
                 || Py.startswith data "disable_channel:"
                 || Py.startswith data "delete_channel:");
    (fun data => Py.startswith data "admin_users_list:");
    (fun data => Py.startswith data "view_user:");
    (fun data => Py.startswith data "ban_user:");
    (fun data => Py.startswith data "unban_user:");
    (fun data => String.eqb data "cancel_action") ].

(** The number of the first condition that holds, counted from [n]. *)
Fixpoint first_branch (conditions : list (string -> bool)) (n : nat) (data : string)
  : option nat :=
  match conditions with
  | [] => None
  | condition :: rest =>
      if condition data then Some n else first_branch rest (S n) data
  end.

Section Callbacks.
(** The bodies of the branches of [button_callback] are not part of the
    model. *)
Variable branch_body : nat -> string -> M unit.

Definition button_callback (data : string) : M unit :=
  telegram answer_query;;
  match first_branch button_callback_conditions 0 data with
  | Some n => branch_body n data
  | None => mret tt
  end.
End Callbacks.

(** The body of the loop of [download_handler] over the downloaded files. *)
Definition send_one (user_id : Z) (url : string)
           (media_info : instagram_handler.MediaInfo) (file_path : string) : M unit :=
  w ← get;
  match files w !! file_path with
  | None => mret tt                            (* not os.path.exists: continue *)
  | Some _ =>
      file_size ← downloader.get_file_size file_path;
      if (size_limit <? file_size)%Z then
        telegram (reply_text FILE_TOO_LARGE NoMarkup);;
        downloader.cleanup_file file_path
      else
        let ext := Py.lower (snd (os_path.splitext file_path)) in
        open_rb file_path;;
        (if os_path.ext_in ext [".jpg"; ".jpeg"; ".png"]
         then telegram (reply_photo file_path)
         else if os_path.ext_in ext [".mp4"; ".mov"]
         then telegram (reply_video file_path)
         else telegram (reply_document file_path));;
        downloader.cleanup_file file_path;;
        modify (set_db (database.add_download user_id
                          (instagram_handler.mi_media_type media_info) url
                          (Some (instagram_handler.mi_username media_info))
                          file_size))
  end.

Definition download_handler (user_id : Z) (text : string) : M unit :=
  (* Check membership *)
  member ← check_membership_middleware user_id;
  if negb member then mret tt
  else
    w ← get;
    (* Check if user has verified account *)
    if negb (database.has_verified_account user_id (db w)) then
      telegram (reply_text NO_VERIFIED_ACCOUNT NoMarkup)
    else
      (* Check rate limit *)
      '(can_proceed, wait_time) ← rate_limit user_id 5;
      if negb can_proceed then
        telegram (reply_text (RATE_LIMIT wait_time) NoMarkup)
      else
        match utils.extract_instagram_url text with
        | Some (String c r) =>
            let url := String c r in
            telegram (reply_text DOWNLOADING NoMarkup);;
            try_except
              (env ← ask;
               telegram send_chat_action;;
               (* Get media info *)
               media_info ←
                 (if instagram_initialized env
                  then instagram_handler.get_media_info url
                  else mret None);
               match media_info with
               | None =>
                   (* Try yt-dlp as fallback *)
                   result ← downloader.download_with_ytdlp url false "best" None;
                   match result with
                   | Some result =>
                       let filepath := downloader.filepath result in
                       telegram (edit_text UPLOADING NoMarkup);;
                       open_rb filepath;;
                       telegram (reply_document filepath);;
                       downloader.cleanup_file filepath;;
                       telegram delete_message;;
                       modify (set_db (database.add_download user_id "ytdlp" url None 0));;
                       modify (set_db (database.increment_download_count user_id))
                   | None => telegram (edit_text DOWNLOAD_FAILED NoMarkup)
                   end
               | Some media_info =>
                   (* Download with Instagram *)
                   telegram (edit_text PROCESSING NoMarkup);;
                   downloaded_files ←
                     instagram_handler.download_media url (download_dir env);
                   match downloaded_files with
                   | Some (file :: more) =>
                       let downloaded_files := file :: more in
                       telegram (edit_text UPLOADING NoMarkup);;
                       (* Send files *)
                       for_each downloaded_files (send_one user_id url media_info);;
                       telegram delete_message;;
                       modify (set_db (database.increment_download_count user_id))
                   | _ => telegram (edit_text DOWNLOAD_FAILED NoMarkup)
                   end
               end)
              (fun _ => telegram (edit_text DOWNLOAD_FAILED NoMarkup))
        | _ => telegram (reply_text INVALID_LINK NoMarkup)
        end.

Definition check_verification (verification_id : Z) : M unit :=
  telegram answer_query;;
  w ← get;
  match database.get_verification verification_id (db w) with
  | None => telegram (edit_text VERIFICATION_CODE_EXPIRED NoMarkup)
  | Some verification =>
      (* Check Instagram DMs for the code *)
      telegram (edit_text VERIFICATION_PENDING NoMarkup);;
      env ← ask;
      code_found ←
        (if instagram_initialized env
         then instagram_handler.check_direct_message
                (database.pv_verification_code verification)
         else mret false);
      if (code_found : bool) then
        (* Mark account as verified *)
        w ← get;
        let accounts :=
          database.get_user_instagram_accounts (database.pv_user_id verification) (db w) in
        (match find (fun acc => String.eqb (database.instagram_username acc)
                                  (database.pv_instagram_username verification))
                    accounts with
         | Some acc =>
             modify (set_db (database.verify_instagram_account (database.id acc) None))
         | None => mret tt
         end);;
        (* Delete verification *)
        modify (set_db (database.delete_verification verification_id));;
        telegram (edit_text
                    (VERIFICATION_SUCCESS (database.pv_instagram_username verification))
                    BackButton)
      else
        telegram (edit_text VERIFICATION_FAILED (VerificationCheck verification_id))
  end.

(** The five keyboard labels of the main menu hold code points above
    U+00FF: a message is one of them, or a text of the model. *)
Inductive MenuLabel : Type :=
| MenuDownload
| MenuAccounts
| MenuStats
| MenuHelp
| MenuAdminPanel.

Inductive Incoming : Type :=
| Menu (l : MenuLabel)
| Text (s : string).

Inductive Route : Type :=
| ToSendLink
| ToAccountsMenu
| ToStats
| ToHelp
| ToAdminPanel
| ToDownloadHandler
| ToYtdlpHandler
| ToInvalidCommand.

Section Router.
Variable valid_bracketed_host : string -> bool.

(** The branch [message_router] takes. *)
Definition route (message : Incoming) : Route :=
  match message with
  | Menu MenuDownload => ToSendLink
  | Menu MenuAccounts => ToAccountsMenu
  | Menu MenuStats => ToStats
  | Menu MenuHelp => ToHelp
  | Menu MenuAdminPanel => ToAdminPanel
  | Text text =>
      if Py.truthy (utils.extract_instagram_url text) then ToDownloadHandler
      else if utils.is_ytdlp_supported_url valid_bracketed_host
                (Py.or_empty (utils.extract_media_url text))
      then ToYtdlpHandler
      else
        (* Check if it's a URL that might be supported *)
        if Py.truthy (utils.extract_media_url text) then ToYtdlpHandler
        else ToInvalidCommand
  end.

(** The handlers of the other menu entries are not part of the model. *)
Variable menu_handler : MenuLabel -> M unit.

Definition message_router (user : TgUser) (message : Incoming) : M unit :=
  match route message, message with
  | ToSendLink, _ =>
      member ← check_membership_middleware (tg_id user);
      if (member : bool) then telegram (reply_text SEND_LINK NoMarkup) else mret tt
  | ToDownloadHandler, Text text => download_handler (tg_id user) text
  | ToYtdlpHandler, Text text => ytdlp_download_handler user text
  | ToInvalidCommand, _ => telegram (reply_text INVALID_COMMAND NoMarkup)
  | _, Menu l => menu_handler l
  | _, Text _ => mret tt
  end.
End Router.

(** The link kinds of the specification, read off the router. *)
Inductive LinkKind : Type :=
| VerificationProviderLink
| GenericMediaLink
| NoLink.

Definition classify (valid_bracketed_host : string -> bool) (text : string) : LinkKind :=
  match route valid_bracketed_host (Text text) with
  | ToDownloadHandler => VerificationProviderLink
  | ToYtdlpHandler => GenericMediaLink
  | _ => NoLink
  end.

(** The states a conversation step returns. *)
Inductive ConversationState : Type :=
| WAITING_USERNAME
| END.

(** What [receive_username] tells the user; the text of the message lies
    in [messages.py]. *)
Inductive UsernameReply : Type :=
| InvalidUsername
| UsernameNotOnInstagram
| VerificationCodeSent (code : string) (verification_id : Z).

Section Accounts.
Variable G : Type.
Variable randbelow : G -> nat -> nat * G.
Variable user_info_by_username : string -> Result unit.

(** [timedelta(minutes=30)] in microseconds. *)
Definition validity : Z := 30 * 60 * 1000000.

(** [receive_username]: the reply (its last statement), the state of the
    conversation, and the generator and the tables afterwards.  [now] is
    what [datetime.now()] returns, [created] the second SQLite stamps the
    new account row with.  [None] is the [IndexError] of [random.choice]. *)
Definition receive_username (now created : Z) (instagram_initialized : bool)
           (cl : option Client) (user_id : Z) (text : string)
           (g : G) (d : database.Database)
  : option (UsernameReply * ConversationState * G * database.Database) :=
  let username := Py.remove_chars (Ascii.eqb "@") (Py.strip text) in
  (* Validate username *)
  if negb (utils_text.is_valid_instagram_username username)
  then Some (InvalidUsername, WAITING_USERNAME, g, d)
  else
    (* Check if account exists on Instagram *)
    if instagram_initialized
       && negb (instagram_handler.get_user_info user_info_by_username cl username)
    then Some (UsernameNotOnInstagram, WAITING_USERNAME, g, d)
    else
      (* Generate verification code *)
      match utils.generate_verification_code G randbelow utils.default_code_length g with
      | Some (code, g') =>
          let expires_at := (now + validity)%Z in
          (* Save to database *)
          let '(verification_id, d) :=
            database.create_verification user_id username code expires_at d in
          (* Also add to instagram_accounts for tracking *)
          let '(_, d) :=
            database.add_instagram_account user_id username code expires_at
              created d in
          Some (VerificationCodeSent code verification_id, END, g', d)
      | None => None
      end.
End Accounts.

End bot.

(** ** What a run shows: the observations the properties speak about *)

Module observe.
Import rt.

(** An attempt to fetch metadata or media over the network. *)
Definition is_fetch (e : Event) : bool :=
  match e with
  | ig_media_info _ | ig_download _ | ydl_probe _ | ydl_fetch _ _ => true
  | _ => false
  end.

(** The upload of a file to the chat. *)
Definition is_delivery (e : Event) : bool :=
  match e with
  | reply_photo _ | reply_video _ | reply_audio _ | reply_document _ => true
  | _ => false
  end.

Definition delivers (file : string) (e : Event) : bool :=
  match e with
  | reply_photo f | reply_video f | reply_audio f | reply_document f =>
      String.eqb f file
  | _ => false
  end.

(** No Telegram call of the run raises. *)
Definition reliable (env : Env) : Prop :=
  forall n, telegram_raises env n = false.

(** The outcomes of the confirmation step, as the user is told them. *)
Inductive Outcome : Type :=
| Found
| NotFound
| Expired.

Definition outcome_of (e : Event) : option Outcome :=
  match e with
  | edit_text (VERIFICATION_SUCCESS _) _ => Some Found
  | edit_text VERIFICATION_FAILED _ => Some NotFound
  | edit_text VERIFICATION_CODE_EXPIRED _ => Some Expired
  | _ => None
  end.

(** The outcome a trace ends with. *)
Definition confirm_outcome (tr : list Event) : option Outcome :=
  last (omap outcome_of tr).

(** The events a run added to the trace. *)
Definition added (w w' : World) : list Event :=
  drop (length (trace w)) (trace w').

(** A run that only talks to the user: the tables, the files and the
    rate limiter are as before, and the trace grew by events that neither
    fetch nor deliver. *)
Definition quiet (w w' : World) : Prop :=
  db w' = db w /\ files w' = files w /\ last_request w' = last_request w
  /\ exists more, trace w' = (trace w ++ more)%list
                  /\ Forall (fun e => is_fetch e = false /\ is_delivery e = false) more.

(** The scan of the two inboxes for a code comes back empty-handed: a
    call of the client raised before the code was met, or no message of
    either inbox holds the code. *)
Inductive scan_misses (cl : external.Client) (code : string) : Prop :=
| inbox_call_raises :
    external.direct_threads cl 20 = external.Raised ->
    scan_misses cl code
| inbox_scan_raises threads :
    external.direct_threads cl 20 = external.Returned threads ->
    instagram_handler.scan_threads cl code 50 threads = external.Raised ->
    scan_misses cl code
| pending_call_raises threads :
    external.direct_threads cl 20 = external.Returned threads ->
    instagram_handler.scan_threads cl code 50 threads = external.Returned None ->
    external.direct_pending_inbox cl = external.Raised ->
    scan_misses cl code
| pending_scan_raises threads pending :
    external.direct_threads cl 20 = external.Returned threads ->
    instagram_handler.scan_threads cl code 50 threads = external.Returned None ->
    external.direct_pending_inbox cl = external.Returned pending ->
    instagram_handler.scan_threads cl code 50 pending = external.Raised ->
    scan_misses cl code
| no_message_has_code threads pending :
    external.direct_threads cl 20 = external.Returned threads ->
    instagram_handler.scan_threads cl code 50 threads = external.Returned None ->
    external.direct_pending_inbox cl = external.Returned pending ->
    instagram_handler.scan_threads cl code 50 pending = external.Returned None ->
    scan_misses cl code.


(** A duration the handlers can put into a text: [None], an [int], or a
    float zero (which they show as unknown).  Any other float makes
    [format_duration] raise. *)
Definition showable (duration : option external.PyNumber) : bool :=
  match duration with
  | Some (external.PyFloat _) => negb (external.truthy_number duration)
  | _ => true
  end.

(** The duration and the title the repository reads off an info
    dictionary of yt-dlp. *)
Definition duration_of (info : external.YdlInfo) : option external.PyNumber :=
  external.dict_get (external.duration info) (external.PyInt 0).
Definition title_of (info : external.YdlInfo) : option string :=
  external.dict_get (external.title info) "Unknown".

(** The row [increment_download_count] leaves for a user whose counter
    read [count]: the counter is [count + 1], nothing else changed. *)
Definition counted_once (before after : database.Database) (user_id : Z) : Prop :=
  match database.get_user user_id before with
  | Some u =>
      exists u', database.get_user user_id after = Some u'
                 /\ database.download_count u' = (database.download_count u + 1)%Z
                 /\ database.username u' = database.username u
                 /\ database.first_name u' = database.first_name u
                 /\ database.is_banned u' = database.is_banned u
                 /\ database.is_premium u' = database.is_premium u
  | None => database.get_user user_id after = None
  end
  /\ forall other, other <> user_id ->
                   database.get_user other after = database.get_user other before.



(** An entry with sound and no picture. *)
Definition audio_only (x : downloader.Parsed) : Prop :=
  downloader.has_video x = false /\ downloader.has_audio x = true.



(** The host is an allow-listed domain or a subdomain of one. *)
Definition host_allowed (h : string) : Prop :=
  exists d, In d utils.supported_domains
            /\ (h = d \/ exists sub, h = sub ++ "." ++ d).

(** The one-character text of a line feed. *)
Definition newline : string := String (Py.chr 10) EmptyString.

(** A character [sanitize_filename] leaves in a name. *)
Definition clean_name_char (c : ascii) : bool :=
  negb (utils_text.invalid_filename_char c) && negb (Ascii.eqb c " ").

(** One character, with a backslash in front when it is special. *)
Definition escaped (c : ascii) : string :=
  if Py.mem c utils_text.special_chars
  then String "\" (String c EmptyString) else String c EmptyString.

(** The texts [f c] of the characters [c] of [s], one after the other. *)
Fixpoint concat_map (f : ascii -> string) (s : string) : string :=
  match s with
  | EmptyString => EmptyString
  | String c rest => f c ++ concat_map f rest
  end.

(** No character occurs twice. *)
Fixpoint distinct (s : string) : bool :=
  match s with
  | EmptyString => true
  | String c rest => negb (Py.mem c rest) && distinct rest
  end.

(** No white space but the space character, and no space right after a
    space; [after_space] tells whether a space comes just before [s]. *)
Fixpoint spaced (after_space : bool) (s : string) : bool :=
  match s with
  | EmptyString => true
  | String c rest =>
      if Ascii.eqb c " " then negb after_space && spaced true rest
      else negb (Py.is_space c) && spaced false rest
  end.

(** Words separated by single spaces, with no space in front. *)
Definition single_spaced (s : string) : bool := spaced true s.

(** A word: not empty, and free of white space. *)
Definition word (w : string) : Prop :=
  w <> EmptyString /\ Py.all_chars (fun c => negb (Py.is_space c)) w = true.

Definition digit (d : Z) : ascii := Py.chr (48 + Z.to_nat d).

(** The two decimal digits of a number below 100. *)
Definition two_digits (n : Z) : string :=
  String (digit (n / 10)) (String (digit (n mod 10)) EmptyString).

Definition known_media_type (t : string) : Prop :=
  t = "post" \/ t = "reel" \/ t = "igtv" \/ t = "story".

(** The keys of [pending_verifications] were drawn from its counter. *)
Definition pending_wf (d : database.Database) : Prop :=
  forall i v, database.pending_verifications d !! i = Some v ->
              (i <= database.seq_pending_verifications d)%Z.

(** The keys of [instagram_accounts] were drawn from its counter. *)
Definition accounts_wf (d : database.Database) : Prop :=
  Forall (fun a => (database.id a <= database.seq_instagram_accounts d)%Z)
         (database.instagram_accounts d).

(** A row put behind the rows that are not older than it, in a list
    sorted by [created_at] with the latest second first. *)
Fixpoint behind_newer (x : database.InstagramAccount)
         (l : list database.InstagramAccount) : list database.InstagramAccount :=
  match l with
  | [] => [x]
  | y :: rest =>
      if (database.created_at y <? database.created_at x)%Z then x :: y :: rest
      else y :: behind_newer x rest
  end.

(** The number of active rows of [channel_lock]. *)
Definition active_channels (d : database.Database) : nat :=
  length (database.get_locked_channels d).

(** [channel_id] is UNIQUE. *)
Definition channels_wf (d : database.Database) : Prop :=
  NoDup (map database.channel_id (database.channel_lock d)).

(** Telegram says the user left the channel or was kicked from it, or
    cannot tell. *)
Definition not_a_member (env : Env) (cid : string) (user_id : Z) : Prop :=
  match get_chat_member env cid user_id with
  | external.Returned status => status = "left" \/ status = "kicked"
  | external.Raised => True
  end.

(** The messages of a thread can be read and none holds the code. *)
Definition clean_thread (cl : external.Client) (code : string) (n : Z) (thread : Z) : Prop :=
  exists messages,
    external.direct_messages cl thread n = external.Returned messages
    /\ existsb (instagram_handler.has_code code) messages = false.

(** The messages of a thread can be read and one of them holds the code. *)
Definition holding_thread (cl : external.Client) (code : string) (n : Z) (thread : Z) : Prop :=
  exists messages,
    external.direct_messages cl thread n = external.Returned messages
    /\ existsb (instagram_handler.has_code code) messages = true.

(** The [quality] a button of the menu stands for. *)
Definition quality_of_label (l : Label) : string :=
  match l with
  | BestQuality => "best"
  | Resolution p => downloader.str p
  | AudioOnlyMp3 => "audio"
  | Cancel => EmptyString
  end.

(** The name [receive_username] works on. *)
Definition entered_username (text : string) : string :=
  Py.remove_chars (Ascii.eqb "@") (Py.strip text).

End observe.

(** ** Sample environments, to run the model on *)

Module sample.
Import external rt.

Definition mib50 : Z := 50 * 1024 * 1024.

(** A generator: a counter read modulo [n]. *)
Definition counter_randbelow (g n : nat) : nat * nat :=
  ((g * 7 + 3) mod n, S g)%nat.

Definition post : Media :=
  {| media_type := 8; owner_username := "owner"; caption_text := "";
     like_count := 1; comment_count := 2 |}.

(** A client whose inbox holds the given messages in one thread and whose
    albums hold the given files. *)
Definition client_with (messages : list DirectMessage) (album : list Fetched) : Client :=
  {| direct_threads := fun _ => Returned [1%Z];
     direct_messages := fun _ _ => Returned messages;
     direct_pending_inbox := Returned [];
     direct_thread_approve := fun _ => Returned tt;
     media_info := fun _ => Returned post;
     photo_download := fun _ _ => Raised;
     video_download := fun _ _ => Raised;
     album_download := fun _ _ => Returned album |}.

(** A client whose every call raises. *)
Definition failing_client : Client :=
  {| direct_threads := fun _ => Raised;
     direct_messages := fun _ _ => Raised;
     direct_pending_inbox := Raised;
     direct_thread_approve := fun _ => Raised;
     media_info := fun _ => Raised;
     photo_download := fun _ _ => Raised;
     video_download := fun _ _ => Raised;
     album_download := fun _ _ => Raised |}.

(** A yt-dlp that writes one file of the given size: the video, or the mp3
    the post-processor leaves. *)
Definition ydl_with (size : Z) : YoutubeDL :=
  {| probe := fun _ => Raised;
     fetch := fun _ _ postprocess =>
       (Returned {| title := Val "clip"; uploader := Val "someone"; channel := Absent;
                    duration := Val (PyInt 3); view_count := Val (PyInt 0);
                    formats := Val []; filename := "downloads/clip.mp4" |},
        [(if postprocess then "downloads/clip.mp3" else "downloads/clip.mp4",
          size)]) |}.

Definition env_with (initialized : bool) (cl : option Client) (y : YoutubeDL)
           (raises : nat -> bool) : Env :=
  {| clock := 1700000000000000; admin_id := 1; download_dir := "downloads";
     instagram_initialized := initialized; client := cl; ydl := y;
     get_chat_member := fun _ _ => Returned "member";
     telegram_raises := raises |}.

Definition never : nat -> bool := fun _ => false.

Definition user7 : database.User :=
  {| database.username := Some "u7"; database.first_name := None;
     database.is_banned := 0; database.is_premium := 0;
     database.download_count := 3 |}.

Definition account (verified : Z) : database.InstagramAccount :=
  {| database.id := 1; database.user_id := 7;
     database.instagram_username := "bob"; database.instagram_user_id := None;
     database.is_verified := verified; database.verification_code := "AB12CD34";
     database.code_expires_at := 1000; database.created_at := 0 |}.

(** A request for user 7 and account [bob], expired long before the clock
    of [env_with]. *)
Definition expired_request : database.PendingVerification :=
  {| database.pv_user_id := 7; database.pv_verification_code := "AB12CD34";
     database.pv_instagram_username := "bob"; database.expires_at := 1000 |}.

Definition db_with (verified : Z) : database.Database :=
  {| database.users := {[ 7%Z := user7 ]};
     database.instagram_accounts := [account verified];
     database.seq_instagram_accounts := 1;
     database.pending_verifications := {[ 1%Z := expired_request ]};
     database.seq_pending_verifications := 1;
     database.downloads := [];
     database.channel_lock := [] |}.

Definition world_with (verified : Z) : World :=
  {| db := db_with verified; files := ∅; last_request := ∅;
     download_url := None; trace := []; telegram_calls := 0 |}.





Definition tg_user7 : bot.TgUser :=
  {| bot.tg_id := 7; bot.tg_username := Some "u7"; bot.tg_first_name := None |}.

(** A client that knows one post, of the given media type, and raises on
    every other call. *)
Definition client_of_type (t : Z) : Client :=
  {| direct_threads := fun _ => Raised;
     direct_messages := fun _ _ => Raised;
     direct_pending_inbox := Raised;
     direct_thread_approve := fun _ => Raised;
     media_info := fun _ =>
       Returned {| media_type := t; owner_username := "owner"; caption_text := "";
                   like_count := 1; comment_count := 2 |};
     photo_download := fun _ _ => Raised;
     video_download := fun _ _ => Raised;
     album_download := fun _ _ => Raised |}.

(** An environment in which Telegram gives the same membership status for
    every user and channel. *)
Definition env_of_status (status : string) : Env :=
  {| clock := 1700000000000000; admin_id := 1; download_dir := "downloads";
     instagram_initialized := false; client := None; ydl := ydl_with 10;
     get_chat_member := fun _ _ => Returned status;
     telegram_raises := never |}.

(** The tables of [db_with 0] with one channel in [channel_lock]. *)
Definition db_with_channel (active : Z) : database.Database :=
  database.set_channel_lock
    (fun _ => [ {| database.channel_id := "-1001"; database.channel_title := Some "News";
                   database.is_active := active |} ])
    (db_with 0).

(** The generator [counter_randbelow] draws this code first. *)
Definition first_code : string := "DKRY5CJQ".

(** Twelve and a half seconds, as a float: 25 * 2^-1. *)
Definition seconds_12_5 : PyNumber := PyFloat (S754_finite false 25 (-1)).

(** A clip as yt-dlp reports it, with the given title and duration. *)
Definition clip_of (title : Field string) (duration : Field PyNumber) : YdlInfo :=
  {| title := title; uploader := Val "someone"; channel := Absent;
     duration := duration; view_count := Val (PyInt 0);
     formats := Val []; filename := "downloads/clip.mp4" |}.

(** A yt-dlp that finds the given clip and, when asked to fetch it, writes
    one file of the given size. *)
Definition ydl_of (info : YdlInfo) (size : Z) : YoutubeDL :=
  {| probe := fun _ => Returned (Some info);
     fetch := fun _ _ postprocess =>
       (Returned info,
        [(if postprocess then "downloads/clip.mp3" else "downloads/clip.mp4",
          size)]) |}.

(** A yt-dlp whose download breaks off: it raises and leaves the part it
    had written. *)
Definition ydl_breaking_off (size : Z) : YoutubeDL :=
  {| probe := fun _ => Raised;
     fetch := fun _ _ _ => (Raised, [("downloads/clip.mp4.part", size)]) |}.

(** What [ydl_with] reports about the clip it fetches. *)
Definition clip : YdlInfo :=
  {| title := Val "clip"; uploader := Val "someone"; channel := Absent;
     duration := Val (PyInt 3); view_count := Val (PyInt 0);
     formats := Val []; filename := "downloads/clip.mp4" |}.

End sample.

(** * Properties *)

(** ** Verification codes ([generate_verification_code]) *)

Lemma get_in_range (s : string) (i : nat) :
  (i < String.length s)%nat ->
  exists c, String.get i s = Some c /\ Py.mem c s = true.
Proof.
  revert i. induction s as [|d s IH]; intros i Hi; simpl in *; [lia|].
  destruct i as [|i].
  - exists d. split; [reflexivity|]. rewrite Ascii.eqb_refl. reflexivity.
  - destruct (IH i) as (c & Hget & Hmem); [lia|].
    exists c. split; [exact Hget|]. rewrite Hmem. apply orb_true_r.
Qed.

Section CodeGeneration.
Variable G : Type.
Variable randbelow : G -> nat -> nat * G.
(** [_randbelow(n)] returns an index below [n]. *)
Hypothesis randbelow_lt : forall g n, (0 < n)%nat -> (fst (randbelow g n) < n)%nat.

Lemma choice_characters (g : G) :
  exists c g', utils.choice G randbelow utils.characters g = Some (c, g')
               /\ Py.mem c utils.characters = true.
Proof.
  unfold utils.choice.
  pose proof (randbelow_lt g (String.length utils.characters)) as Hlt.
  destruct (randbelow g (String.length utils.characters)) as [i g'].
  destruct (get_in_range utils.characters i) as (c & Hget & Hmem).
  { apply Hlt. simpl. lia. }
  exists c, g'. rewrite Hget. split; [reflexivity | exact Hmem].
Qed.

Lemma join_choices_spec (n : nat) (g : G) :
  exists code g', utils.join_choices G randbelow n g = Some (code, g')
                  /\ String.length code = n
                  /\ Py.all_chars (fun c => Py.mem c utils.characters) code = true.
Proof.
  revert g. induction n as [|n IH]; intros g; cbn [utils.join_choices].
  - exists EmptyString, g. repeat split.
  - destruct (choice_characters g) as (c & g1 & Hc & Hmem). rewrite Hc.
    destruct (IH g1) as (cs & g2 & Hcs & Hlen & Hall). rewrite Hcs.
    exists (String c cs), g2. cbn [String.length Py.all_chars].
    rewrite Hlen, Hmem, Hall. repeat split.
Qed.

(** C9. A generated code has exactly the requested length (8 when the
    caller gives none) and every one of its characters is an uppercase
    letter or a digit of [characters]; this holds for each call on its own,
    whatever the state of the generator. *)
Theorem C9_code_length_and_alphabet (length : Z) (g : G) :
  (0 <= length)%Z ->
  exists code g',
    utils.generate_verification_code G randbelow length g = Some (code, g')
    /\ Z.of_nat (String.length code) = length
    /\ Py.all_chars (fun c => Py.mem c utils.characters) code = true
    /\ Py.all_chars (fun c => Py.is_upper c || Py.is_digit c) code = true
    /\ utils.default_code_length = 8%Z.
Proof.
  intros Hlen. unfold utils.generate_verification_code.
  destruct (join_choices_spec (Z.to_nat length) g) as (code & g' & Hrun & Hl & Hall).
  exists code, g'. rewrite Hrun, Hl. repeat split; [lia | exact Hall | ].
  clear Hrun Hl. induction code as [|c code IH]; simpl in *; [reflexivity|].
  apply andb_true_iff in Hall as [Hc Hall]. rewrite (IH Hall), andb_true_r.
  clear IH Hall. revert Hc.
  destruct c as [[] [] [] [] [] [] [] []]; vm_compute; congruence.
Qed.
End CodeGeneration.

Lemma C9_code_length_and_alphabet_witness :
  exists code g',
    utils.generate_verification_code nat sample.counter_randbelow 8 0%nat = Some (code, g')
    /\ Z.of_nat (String.length code) = 8%Z
    /\ Py.all_chars (fun c => Py.mem c utils.characters) code = true
    /\ Py.all_chars (fun c => Py.is_upper c || Py.is_digit c) code = true
    /\ utils.default_code_length = 8%Z.
Proof.
  apply (C9_code_length_and_alphabet nat sample.counter_randbelow).
  - intros g n Hn. unfold sample.counter_randbelow. simpl fst.
    apply Nat.mod_upper_bound. lia.
  - lia.
Defined.

(** ** The rate limiter ([RateLimiter.can_proceed]) *)

Lemma can_proceed_allowed_stamps (now user_id cooldown : Z) (lr : gmap Z Z) :
  fst (fst (utils.RateLimiter.can_proceed now user_id cooldown lr)) = true ->
  utils.RateLimiter.can_proceed now user_id cooldown lr
  = ((true, 0%Z), <[user_id := now]> lr).
Proof.
  unfold utils.RateLimiter.can_proceed.
  destruct (lr !! user_id) as [last|]; [|reflexivity].
  destruct (now - last <? cooldown * utils.RateLimiter.usec)%Z; [|reflexivity].
  simpl. discriminate.
Qed.

(** C6, as stated, fails: with a cooldown of 5 s, a first call at 0 s is
    admitted and a second call at 4.5 s is denied with a retry-after of 0,
    which is not positive. *)
Lemma C6_counterexample :
  let first := utils.RateLimiter.can_proceed 0 7 5 ∅ in
  let second := utils.RateLimiter.can_proceed 4500000 7 5 (snd first) in
  fst first = (true, 0%Z)
  /\ fst second = (false, 0%Z)
  /\ ~ (0 < snd (fst second))%Z.
Proof. vm_compute. repeat split; congruence. Qed.

(** C6, amended. After an admitted call at [t1], a call of the same identity
    at [t2] with less than the cooldown elapsed is denied, leaves the stamp
    untouched and reports the remaining cooldown truncated to whole seconds:
    a retry-after [r >= 0] with [r s <= remaining < (r+1) s], positive
    exactly when at least one second remains.  A call with the cooldown
    elapsed is admitted with retry-after 0 and stamps [t2]. *)
Theorem C6_rate_limiter_cooldown (lr : gmap Z Z) (user_id cooldown t1 t2 : Z) :
  let usec := utils.RateLimiter.usec in
  let lr1 := snd (utils.RateLimiter.can_proceed t1 user_id cooldown lr) in
  let remaining := (t1 + cooldown * usec - t2)%Z in
  fst (fst (utils.RateLimiter.can_proceed t1 user_id cooldown lr)) = true ->
  ((t2 - t1 < cooldown * usec)%Z ->
   exists r,
     utils.RateLimiter.can_proceed t2 user_id cooldown lr1 = ((false, r), lr1)
     /\ (0 <= r)%Z
     /\ (r * usec <= remaining < (r + 1) * usec)%Z
     /\ ((0 < r)%Z <-> (usec <= remaining)%Z))
  /\ ((cooldown * usec <= t2 - t1)%Z ->
      utils.RateLimiter.can_proceed t2 user_id cooldown lr1
      = ((true, 0%Z), <[user_id := t2]> lr1)).
Proof.
  intros usec lr1 remaining Hfirst.
  apply can_proceed_allowed_stamps in Hfirst.
  subst lr1. rewrite Hfirst. simpl snd.
  unfold utils.RateLimiter.can_proceed. rewrite lookup_insert_eq.
  fold usec. split; intros Hwin.
  - destruct (Z.ltb_spec (t2 - t1) (cooldown * usec)) as [_|]; [|lia].
    eexists. split; [reflexivity|].
    unfold utils.RateLimiter.int_seconds. fold usec.
    replace (cooldown * usec - (t2 - t1))%Z with remaining by (subst remaining; lia).
    assert (Hpos : (0 < remaining)%Z) by (subst remaining; lia).
    assert (Hu : (0 < usec)%Z) by (subst usec; reflexivity).
    rewrite Z.quot_div_nonneg by lia.
    pose proof (Z.div_mod remaining usec ltac:(lia)) as Hdm.
    pose proof (Z.mod_pos_bound remaining usec Hu) as Hmod.
    assert (0 <= remaining / usec)%Z by (apply Z.div_pos; lia).
    repeat split; try nia.
  - destruct (Z.ltb_spec (t2 - t1) (cooldown * usec)) as [|_]; [lia|].
    reflexivity.
Qed.

Lemma C6_rate_limiter_cooldown_witness :
  let usec := utils.RateLimiter.usec in
  let lr1 := snd (utils.RateLimiter.can_proceed 0 7 5 ∅) in
  (exists r,
     utils.RateLimiter.can_proceed 2500000 7 5 lr1 = ((false, r), lr1)
     /\ (0 <= r)%Z
     /\ (r * usec <= 0 + 5 * usec - 2500000 < (r + 1) * usec)%Z
     /\ ((0 < r)%Z <-> (usec <= 0 + 5 * usec - 2500000)%Z))
  /\ utils.RateLimiter.can_proceed 6000000 7 5 lr1
     = ((true, 0%Z), <[7%Z := 6000000%Z]> lr1).
Proof.
  split.
  - apply (C6_rate_limiter_cooldown ∅ 7 5 0 2500000); reflexivity.
  - apply (C6_rate_limiter_cooldown ∅ 7 5 0 6000000); [reflexivity|].
    unfold utils.RateLimiter.usec. lia.
Defined.

(** ** Running a handler *)

Import external rt observe.

Ltac run_step :=
  unfold mbind, mret, handler_bind, handler_ret, rt.bind, rt.ret, rt.ask, rt.get,
    rt.network, rt.modify, rt.raise, rt.try_except in *.

Lemma telegram_reliable (e : Event) (env : Env) (w : World) :
  reliable env -> telegram e env w = (Ok tt, log e (count_call w)).
Proof. intros H. unfold telegram. rewrite H. reflexivity. Qed.

(** Reduce a run as far as it goes when Telegram does not fail. *)
Ltac crunch Hrel :=
  repeat (progress (cbv beta iota;
                    cbn [files db trace telegram_calls last_request download_url
                         log count_call set_files set_db set_last_request
                         set_download_url fst snd negb
                         downloader.filepath downloader.is_audio];
                    rewrite ?(fun e w => telegram_reliable e _ w Hrel))).

(** The events a run added, once the run is reduced. *)
Ltac added_events :=
  unfold added;
  cbn [trace log count_call set_files set_db set_last_request set_download_url];
  rewrite <- ?app_assoc; rewrite drop_app_length; reflexivity.

Lemma quiet_refl (w : World) : quiet w w.
Proof.
  repeat split. exists []. rewrite app_nil_r. split; [reflexivity|constructor].
Qed.

Lemma telegram_quiet (e : Event) (env : Env) (w : World) :
  is_fetch e = false -> is_delivery e = false ->
  quiet w (snd (telegram e env w)).
Proof.
  intros Hf Hd. unfold telegram.
  destruct (telegram_raises env (telegram_calls w)); simpl.
  - repeat split. exists []. rewrite app_nil_r. split; [reflexivity|constructor].
  - repeat split. exists [e]. split; [reflexivity|]. repeat constructor; assumption.
Qed.

Lemma check_membership_quiet (user_id : Z) (env : Env) (w : World) :
  quiet w (snd (bot.check_membership_middleware user_id env w)).
Proof.
  unfold bot.check_membership_middleware, bot.check_channel_membership. run_step.
  destruct (Z.eqb _ _); simpl; [apply quiet_refl|].
  destruct (database.is_user_banned _ _); simpl.
  - pose proof (telegram_quiet (reply_text USER_BANNED_MESSAGE NoMarkup) env w
                  eq_refl eq_refl) as H.
    destruct (telegram _ env w) as [[] ?]; exact H.
  - destruct (forallb _ _); simpl; [apply quiet_refl|].
    pose proof (telegram_quiet (reply_text CHANNEL_LOCK_REQUIRED JoinChannels) env w
                  eq_refl eq_refl) as H.
    destruct (telegram _ env w) as [[] ?]; exact H.
Qed.

(** The gate lets a user through without touching the world. *)
Lemma check_membership_pass (user_id : Z) (env : Env) (w w' : World) :
  bot.check_membership_middleware user_id env w = (Ok true, w') -> w' = w.
Proof.
  unfold bot.check_membership_middleware, bot.check_channel_membership. run_step.
  destruct (Z.eqb _ _); simpl; [congruence|].
  destruct (database.is_user_banned _ _); simpl.
  - destruct (telegram _ env w) as [[] ?]; congruence.
  - destruct (forallb _ _); simpl; [congruence|].
    destruct (telegram _ env w) as [[] ?]; congruence.
Qed.

(** ** The verified-account gate of [download_handler] *)

(** C2. For an identity without a verified account, a run of the Instagram
    handler fetches nothing and delivers nothing, whatever the text and the
    environment; when the membership gate lets the user through, the run
    consists of the reply NO_VERIFIED_ACCOUNT alone. *)
Theorem C2_no_verified_account_no_fetch
        (env : Env) (w : World) (user_id : Z) (text : string) :
  database.has_verified_account user_id (db w) = false ->
  let '(r, w') := bot.download_handler user_id text env w in
  quiet w w'
  /\ (fst (bot.check_membership_middleware user_id env w) = Ok true ->
      telegram_raises env (telegram_calls w) = false ->
      r = Ok tt
      /\ trace w' = (trace w ++ [reply_text NO_VERIFIED_ACCOUNT NoMarkup])%list).
Proof.
  intros Hnone.
  unfold bot.download_handler. run_step.
  pose proof (check_membership_quiet user_id env w) as Hq.
  destruct (bot.check_membership_middleware user_id env w) as [[[] | e] w1] eqn:Hm;
    simpl in *.
  - apply check_membership_pass in Hm. subst w1. rewrite Hnone. simpl.
    pose proof (telegram_quiet (reply_text NO_VERIFIED_ACCOUNT NoMarkup) env w
                  eq_refl eq_refl) as Hq'.
    unfold telegram in *.
    destruct (telegram_raises env (telegram_calls w)); simpl in *.
    + split; [exact Hq'|]. intros _ ?; discriminate.
    + split; [exact Hq'|]. intros _ _. split; reflexivity.
  - split; [exact Hq|]. intros ?; discriminate.
  - split; [exact Hq|]. intros ?; discriminate.
Qed.

Lemma C2_no_verified_account_no_fetch_witness :
  let env := sample.env_with true (Some (sample.client_with [] []))
               (sample.ydl_with 10) sample.never in
  let w := sample.world_with 0 in
  database.has_verified_account 7 (db w) = false
  /\ let '(r, w') := bot.download_handler 7 "https://instagram.com/p/ABC123/" env w in
     quiet w w'
     /\ r = Ok tt
     /\ trace w' = [reply_text NO_VERIFIED_ACCOUNT NoMarkup].
Proof.
  intros env w. split; [reflexivity|].
  pose proof (C2_no_verified_account_no_fetch env w 7
                "https://instagram.com/p/ABC123/" eq_refl) as H.
  destruct (bot.download_handler 7 "https://instagram.com/p/ABC123/" env w) as [r w'].
  destruct H as [Hq H]. split; [exact Hq|].
  apply H; reflexivity.
Defined.

(** ** The confirmation step ([check_verification]) *)

Lemma scan_misses_false (cl : Client) (code : string) :
  scan_misses cl code -> instagram_handler.scan_inboxes cl code 50 = false.
Proof.
  unfold instagram_handler.scan_inboxes.
  intros [H | ths H1 H2 | ths H1 H2 H3 | ths pths H1 H2 H3 H4 | ths pths H1 H2 H3 H4];
    rewrite ?H, ?H1, ?H2, ?H3, ?H4; reflexivity.
Qed.

(** [scan_misses] lists every way the scan answers [False]. *)
Lemma scan_false_misses (cl : Client) (code : string) :
  instagram_handler.scan_inboxes cl code 50 = false -> scan_misses cl code.
Proof.
  unfold instagram_handler.scan_inboxes. intros H.
  destruct (direct_threads cl 20) as [ths|] eqn:H1; [|by apply inbox_call_raises].
  destruct (instagram_handler.scan_threads cl code 50 ths) as [[t|]|] eqn:H2;
    [discriminate | | by eapply inbox_scan_raises].
  destruct (direct_pending_inbox cl) as [pths|] eqn:H3; [|by eapply pending_call_raises].
  destruct (instagram_handler.scan_threads cl code 50 pths) as [[t|]|] eqn:H4.
  - destruct (direct_thread_approve cl t); discriminate.
  - by eapply no_message_has_code.
  - by eapply pending_scan_raises.
Qed.

Ltac raised R :=
  split; [reflexivity|]; split; [assumption|];
  let Hr := fresh in intros Hr; rewrite Hr in R; discriminate.

Ltac not_found_reported :=
  split; [reflexivity|]; split; [assumption|]; intros _;
  split; [reflexivity|];
  rewrite <- !app_assoc, drop_app_length; split;
  [reflexivity | rewrite !app_assoc; apply last_snoc].

(** C7. For a pending record, when the scan of the inboxes misses the code
    - no message holds it, or a call of the provider raises on the way -
    the confirmation leaves the database as it was, so the record is still
    retrievable under the same id; and when Telegram does not fail, the
    handler returns normally and the outcome it reports is NotFound (the
    failed-verification message with the retry button), never Expired. *)
Theorem C7_not_found_keeps_record
        (env : Env) (w : World) (verification_id : Z)
        (v : database.PendingVerification) :
  database.get_verification verification_id (db w) = Some v ->
  (forall cl, instagram_initialized env = true -> client env = Some cl ->
              scan_misses cl (database.pv_verification_code v)) ->
  let '(r, w') := bot.check_verification verification_id env w in
  db w' = db w
  /\ database.get_verification verification_id (db w') = Some v
  /\ (reliable env ->
      r = Ok tt
      /\ confirm_outcome (added w w') = Some NotFound
      /\ last (trace w')
         = Some (edit_text VERIFICATION_FAILED (VerificationCheck verification_id))).
Proof.
  intros Hv Hmiss.
  assert (Hscan : forall cl, instagram_initialized env = true -> client env = Some cl ->
            instagram_handler.scan_inboxes cl (database.pv_verification_code v)
              instagram_handler.default_max_messages = false).
  { intros cl Hi Hc. apply scan_misses_false. auto. }
  unfold bot.check_verification, instagram_handler.check_direct_message. run_step.
  unfold telegram, reliable, added.
  destruct (telegram_raises env (telegram_calls w)) eqn:R1; simpl; [raised R1|].
  rewrite Hv. simpl.
  destruct (telegram_raises env (S (telegram_calls w))) eqn:R2; simpl; [raised R2|].
  destruct (instagram_initialized env) eqn:Hinit; simpl.
  - destruct (client env) as [cl|] eqn:Hcl; simpl.
    + rewrite (Hscan cl eq_refl eq_refl). simpl.
      destruct (telegram_raises env (S (S (telegram_calls w)))) eqn:R3; simpl;
        [raised R3 | not_found_reported].
    + destruct (telegram_raises env (S (S (telegram_calls w)))) eqn:R3; simpl;
        [raised R3 | not_found_reported].
  - destruct (telegram_raises env (S (S (telegram_calls w)))) eqn:R3; simpl;
      [raised R3 | not_found_reported].
Qed.

Lemma C7_not_found_keeps_record_witness :
  let env := sample.env_with true (Some sample.failing_client) (sample.ydl_with 10) sample.never in
  let w := sample.world_with 0 in
  let '(r, w') := bot.check_verification 1 env w in
  db w' = db w
  /\ database.get_verification 1 (db w') = Some sample.expired_request
  /\ r = Ok tt
  /\ confirm_outcome (added w w') = Some NotFound
  /\ last (trace w')
     = Some (edit_text VERIFICATION_FAILED (VerificationCheck 1)).
Proof.
  intros env w.
  pose proof (C7_not_found_keeps_record env w 1 sample.expired_request eq_refl) as H.
  destruct (bot.check_verification 1 env w) as [r w'].
  destruct H as (Hdb & Hget & H).
  - intros cl _ Hcl. injection Hcl as <-. apply inbox_call_raises. reflexivity.
  - split; [exact Hdb|]. split; [exact Hget|]. apply H. intros n. reflexivity.
Defined.

(** For a stored record the confirmation reports Found or NotFound, whatever
    its expiry time and whatever the clock: Expired is never reported, and
    on NotFound the record is not removed. *)
Lemma stored_record_is_never_expired (env : Env) (w : World) (verification_id : Z)
      (v : database.PendingVerification) :
  database.get_verification verification_id (db w) = Some v ->
  reliable env ->
  let '(r, w') := bot.check_verification verification_id env w in
  r = Ok tt
  /\ (confirm_outcome (added w w') = Some Found
      \/ (confirm_outcome (added w w') = Some NotFound
          /\ database.get_verification verification_id (db w') = Some v)).
Proof.
  intros Hv Hrel.
  unfold bot.check_verification, instagram_handler.check_direct_message.
  run_step. crunch Hrel. rewrite Hv. crunch Hrel.
  destruct (instagram_initialized env); [destruct (client env) as [cl|]|]; crunch Hrel;
    [destruct (instagram_handler.scan_inboxes _ _ _); crunch Hrel;
     [destruct (find _ _); crunch Hrel|]| |];
    (split; [reflexivity|]);
    first [ left; added_events
          | right; split; [added_events | exact Hv] ].
Qed.

(** C3. The code at the failing input: the request [sample.expired_request]
    expired long before the clock of the run, and [check_verification] never
    compares the two.  With the code in the inbox the expired code is
    accepted and the account verified; with an empty inbox the outcome is
    NotFound, the record stays, and a second call finds it again.  Expired
    is reported only for an id that has no record. *)
Theorem C3_expired_record_is_not_rejected :
  let with_code :=
    sample.env_with true
      (Some (sample.client_with
               [ {| text := Some "my code is AB12CD34"; dm_user_id := 42 |} ] []))
      (sample.ydl_with 10) sample.never in
  let empty :=
    sample.env_with true (Some (sample.client_with [] []))
      (sample.ydl_with 10) sample.never in
  let w := sample.world_with 0 in
  let accepted := snd (bot.check_verification 1 with_code w) in
  let retried := snd (bot.check_verification 1 empty w) in
  let retried_again := snd (bot.check_verification 1 empty retried) in
  (database.expires_at sample.expired_request < clock with_code)%Z
  /\ database.get_verification 1 (db w) = Some sample.expired_request
  /\ confirm_outcome (trace accepted) = Some Found
  /\ database.has_verified_account 7 (db w) = false
  /\ database.has_verified_account 7 (db accepted) = true
  /\ confirm_outcome (trace retried) = Some NotFound
  /\ database.get_verification 1 (db retried) = Some sample.expired_request
  /\ confirm_outcome (added retried retried_again) = Some NotFound
  /\ confirm_outcome (trace (snd (bot.check_verification 2 empty w))) = Some Expired.
Proof. vm_compute. repeat split; congruence. Qed.

(** ** Files: what the fetch writes and what the handlers delete *)











(** ** The loop of [download_handler] over the files of a post *)

(** The counter after [increment_download_count], on tables whose [users]
    are those of [before]. *)
Lemma increment_counted_once (before d : database.Database) (user_id : Z) :
  database.users d = database.users before ->
  counted_once before (database.increment_download_count user_id d) user_id.
Proof.
  intros Hu. unfold counted_once, database.increment_download_count, database.get_user,
    database.set_users.
  cbn [database.users]. rewrite Hu. split.
  - destruct (database.users before !! user_id) as [u|] eqn:Hlook.
    + eexists. split; [apply lookup_insert_eq|]. repeat split.
    + exact Hlook.
  - intros other Hne.
    destruct (database.users before !! user_id); [|reflexivity].
    apply lookup_insert_ne. congruence.
Qed.




(** ** Cleanup of fetched files *)

Lemma format_of_quality_audio (quality : string) :
  snd (downloader.format_of_quality quality) = String.eqb quality "audio".
Proof.
  unfold downloader.format_of_quality.
  repeat match goal with
         | |- context [String.eqb quality ?s] =>
             destruct (String.eqb_spec quality s) as [->|?]; [reflexivity|]
         end.
  reflexivity.
Qed.

(** C5. The code at the failing inputs.  In each run the disk is empty
    before and the handler returns after reporting a failed download, and
    what the fetch step wrote is still on disk: (1) yt-dlp reports a
    duration of 12.5 seconds, a float, so the caption cannot be built,
    though no call of Telegram fails; (2) the upload raises; (3) the
    first upload of a post of two files raises in [download_handler];
    (4) the download breaks off and leaves a partial file.  The sibling
    paths of [_perform_download] clean up: after the delivery of the same
    clip with a duration of 3 seconds, and after the rejection of a clip
    above the size limit, the file is gone. *)
Theorem C5_exception_paths_keep_the_file :
  let url := "https://youtu.be/x" in
  let best := "bestvideo[filesize<50M]+bestaudio/best[filesize<50M]/best" in
  let w := sample.world_with 1 in
  let env_of := fun y raises => sample.env_with true None y raises in
  let float_clip := sample.clip_of (Val "clip") (Val sample.seconds_12_5) in
  let int_clip := sample.clip_of (Val "clip") (Val (PyInt 3)) in
  let '(r1, w1) :=
    bot._perform_download 7 url "best" (env_of (sample.ydl_of float_clip 10) sample.never) w in
  let '(r2, w2) :=
    bot._perform_download 7 url "best"
      (env_of (sample.ydl_of int_clip 10) (fun n : nat => Nat.eqb n 2)) w in
  let album := [ {| path := "downloads/a.jpg"; on_disk := Some 10%Z |};
                 {| path := "downloads/b.mp4"; on_disk := Some 20%Z |} ] in
  let '(r3, w3) :=
    bot.download_handler 7 "https://instagram.com/p/ABC123/"
      (sample.env_with true (Some (sample.client_with [] album))
         (sample.ydl_with 10) (fun n : nat => Nat.eqb n 4)) w in
  let '(r4, w4) :=
    bot._perform_download 7 url "best" (env_of (sample.ydl_breaking_off 10) sample.never) w in
  let delivered :=
    snd (bot._perform_download 7 url "best" (env_of (sample.ydl_of int_clip 10) sample.never) w) in
  let rejected :=
    snd (bot._perform_download 7 url "best"
           (env_of (sample.ydl_of int_clip (sample.mib50 + 1)) sample.never) w) in
  files w = ∅
  /\ (r1 = Ok tt
      /\ trace w1 = [ send_chat_action; ydl_fetch url best; edit_text UPLOADING NoMarkup;
                      edit_text DOWNLOAD_FAILED NoMarkup ]
      /\ files w1 !! "downloads/clip.mp4" = Some 10%Z)
  /\ (r2 = Ok tt
      /\ trace w2 = [ send_chat_action; ydl_fetch url best; edit_text UPLOADING NoMarkup;
                      edit_text DOWNLOAD_FAILED NoMarkup ]
      /\ files w2 !! "downloads/clip.mp4" = Some 10%Z)
  /\ (r3 = Ok tt
      /\ last (trace w3) = Some (edit_text DOWNLOAD_FAILED NoMarkup)
      /\ files w3 !! "downloads/a.jpg" = Some 10%Z
      /\ files w3 !! "downloads/b.mp4" = Some 20%Z)
  /\ (r4 = Ok tt
      /\ trace w4 = [ send_chat_action; ydl_fetch url best;
                      edit_text DOWNLOAD_FAILED NoMarkup ]
      /\ files w4 !! "downloads/clip.mp4.part" = Some 10%Z)
  /\ (trace delivered
      = [ send_chat_action; ydl_fetch url best; edit_text UPLOADING NoMarkup;
          reply_video "downloads/clip.mp4"; delete_message ]
      /\ files delivered = ∅)
  /\ (trace rejected
      = [ send_chat_action; ydl_fetch url best; edit_text UPLOADING NoMarkup;
          reply_text FILE_TOO_LARGE NoMarkup; delete_message ]
      /\ files rejected = ∅).
Proof. vm_compute. repeat split; reflexivity. Qed.

(** ** The size gate *)

(** A duration is put into a text when it can be shown; [format_duration]
    raises on any other. *)
Lemma duration_str_showable (duration : option PyNumber) (env : Env) (w : World) :
  showable duration = true ->
  exists s, bot.duration_str duration env w = (Ok s, w).
Proof.
  unfold bot.duration_str, showable. run_step.
  destruct duration as [[n|x]|]; [| |eexists; reflexivity].
  - intros _. destruct (truthy_number _); eexists; reflexivity.
  - destruct (truthy_number _); [discriminate|]. eexists; reflexivity.
Qed.

Lemma duration_str_raises (duration : option PyNumber) (env : Env) (w : World) :
  showable duration = false ->
  bot.duration_str duration env w = (Raise ValueError, w).
Proof.
  unfold bot.duration_str, showable. run_step.
  destruct duration as [[n|x]|]; try discriminate.
  destruct (truthy_number _); [reflexivity|discriminate].
Qed.

(** The branches of [_perform_download] after a fetch that wrote the file
    it hands back, when Telegram does not fail: a file above the limit is
    announced as too large, is not uploaded and is deleted; a file within
    the limit is uploaded and then deleted when its duration can be shown;
    and when it cannot, the failure is reported, the file stays on disk and
    no download is recorded. *)
Lemma perform_download_size_gate (env : Env) (w : World) (user_id : Z)
      (url quality : string) (info : YdlInfo) (size : Z) :
  let format := fst (downloader.format_of_quality quality) in
  let audio := snd (downloader.format_of_quality quality) in
  let filepath :=
    if audio then fst (os_path.splitext (filename info)) ++ ".mp3" else filename info in
  reliable env ->
  fetch (ydl env) url format audio = (Returned info, [(filepath, size)]) ->
  let '(r, w') := bot._perform_download user_id url quality env w in
  r = Ok tt
  /\ ((bot.size_limit < size)%Z ->
      files w' !! filepath = None
      /\ added w w' = [ send_chat_action; ydl_fetch url format;
                        edit_text UPLOADING NoMarkup;
                        reply_text FILE_TOO_LARGE NoMarkup; delete_message ])
  /\ ((size <= bot.size_limit)%Z -> showable (duration_of info) = true ->
      files w' !! filepath = None
      /\ exists e, delivers filepath e = true
                   /\ added w w' = [ send_chat_action; ydl_fetch url format;
                                     edit_text UPLOADING NoMarkup; e; delete_message ])
  /\ ((size <= bot.size_limit)%Z -> showable (duration_of info) = false ->
      files w' !! filepath = Some size
      /\ db w' = db w
      /\ added w w' = [ send_chat_action; ydl_fetch url format;
                        edit_text UPLOADING NoMarkup;
                        edit_text DOWNLOAD_FAILED NoMarkup ]).
Proof.
  intros format audio filepath Hrel Hfetch.
  unfold bot._perform_download, downloader.download_with_quality,
    downloader.download_with_ytdlp, downloader.select_format,
    downloader.get_file_size, downloader.cleanup_file, bot.open_rb.
  run_step.
  pose proof (format_of_quality_audio quality) as Haudio.
  subst format audio filepath.
  destruct (downloader.format_of_quality quality) as [format audio].
  cbn [fst snd] in *. cbn [downloader.falsy_str negb andb].
  crunch Hrel. rewrite Hfetch. crunch Hrel.
  rewrite <- Haudio, orb_diag.
  set (fp := if audio then _ else _) in *.
  unfold downloader.write_files. cbn [fold_left fst snd].
  rewrite lookup_insert_eq. crunch Hrel.
  destruct (Z.ltb_spec bot.size_limit size) as [Hbig|Hsmall]; crunch Hrel.
  - rewrite lookup_insert_eq. crunch Hrel.
    split; [reflexivity|].
    split; [intros _; split; [apply lookup_delete_eq|added_events]|].
    split; intros; lia.
  - cbn [downloader.dl_duration]. fold (duration_of info).
    destruct (showable (duration_of info)) eqn:Hshow.
    + match goal with
      | |- context [bot.duration_str _ env ?w1] =>
          destruct (duration_str_showable _ env w1 Hshow) as [s ->]
      end.
      crunch Hrel. rewrite lookup_insert_eq. crunch Hrel.
      destruct (_ || _); [|destruct (os_path.ext_in _ _)];
        crunch Hrel; rewrite lookup_insert_eq; crunch Hrel;
        (split; [reflexivity|]; split; [intros; lia|];
         split; [|intros; discriminate]; intros _ _;
         split; [apply lookup_delete_eq|];
         eexists; split; [|added_events];
         cbn [delivers]; apply String.eqb_refl).
    + rewrite duration_str_raises by exact Hshow. crunch Hrel.
      split; [reflexivity|]. split; [intros; lia|].
      split; [intros; discriminate|]. intros _ _.
      split; [apply lookup_insert_eq|]. split; [reflexivity|added_events].
Qed.

(** The yt-dlp fallback of [download_handler] has no size gate: whatever
    the size of the file, it is uploaded as a document. *)
Lemma fallback_uploads_any_size (env : Env) (w : World) (user_id : Z)
      (text url : string) (info : YdlInfo) (size : Z) :
  let best := "bestvideo[filesize<50M]+bestaudio/best[filesize<50M]/best" in
  reliable env ->
  fst (bot.check_membership_middleware user_id env w) = Ok true ->
  database.has_verified_account user_id (db w) = true ->
  fst (fst (utils.RateLimiter.can_proceed (clock env) user_id 5 (last_request w))) = true ->
  utils.extract_instagram_url text = Some url -> url <> EmptyString ->
  instagram_initialized env = false ->
  fetch (ydl env) url best false = (Returned info, [(filename info, size)]) ->
  let '(r, w') := bot.download_handler user_id text env w in
  r = Ok tt
  /\ added w w' = [ reply_text DOWNLOADING NoMarkup; send_chat_action;
                    ydl_fetch url best; edit_text UPLOADING NoMarkup;
                    reply_document (filename info); delete_message ].
Proof.
  intros best Hrel Hmem Hver Hrate Hurl Hne Hinit Hfetch.
  unfold bot.download_handler, bot.rate_limit, downloader.download_with_ytdlp,
    downloader.select_format, downloader.cleanup_file, bot.open_rb.
  run_step.
  destruct (bot.check_membership_middleware user_id env w) as [r0 w0] eqn:Hm.
  simpl in Hmem. subst r0. apply check_membership_pass in Hm as ->.
  crunch Hrel. rewrite Hver. crunch Hrel.
  apply can_proceed_allowed_stamps in Hrate. rewrite Hrate. crunch Hrel.
  rewrite Hurl. destruct url as [|c u]; [congruence|]. crunch Hrel.
  rewrite Hinit. crunch Hrel.
  cbn [downloader.falsy_str negb andb downloader.format_of_quality
       String.eqb Ascii.eqb Bool.eqb].
  crunch Hrel. fold best. rewrite Hfetch. crunch Hrel.
  cbn [orb String.eqb Ascii.eqb Bool.eqb]. crunch Hrel.
  unfold downloader.write_files. cbn [fold_left fst snd].
  rewrite lookup_insert_eq. crunch Hrel. rewrite lookup_insert_eq. crunch Hrel.
  split; [reflexivity | added_events].
Qed.

(** C4. The code at the failing input: Instagram metadata is unavailable,
    so [download_handler] falls back to yt-dlp, which writes a file of
    50 MiB + 1 byte; the handler uploads it as a document without measuring
    it.  The two sibling paths measure: [_perform_download] rejects the same
    file, tells the user and deletes it, and accepts a file of exactly
    50 MiB. *)
Theorem C4_fallback_skips_the_size_gate :
  let url := "https://instagram.com/p/ABC123" in
  let best := "bestvideo[filesize<50M]+bestaudio/best[filesize<50M]/best" in
  let too_large := sample.env_with false None (sample.ydl_with (sample.mib50 + 1)) sample.never in
  let exact := sample.env_with false None (sample.ydl_with sample.mib50) sample.never in
  let w := sample.world_with 1 in
  let fallback := snd (bot.download_handler 7 "https://instagram.com/p/ABC123/" too_large w) in
  let gated := snd (bot._perform_download 7 url "best" too_large w) in
  let accepted := snd (bot._perform_download 7 url "best" exact w) in
  bot.size_limit = sample.mib50
  /\ trace fallback
     = [ reply_text DOWNLOADING NoMarkup; send_chat_action; ydl_fetch url best;
         edit_text UPLOADING NoMarkup; reply_document "downloads/clip.mp4";
         delete_message ]
  /\ trace gated
     = [ send_chat_action; ydl_fetch url best; edit_text UPLOADING NoMarkup;
         reply_text FILE_TOO_LARGE NoMarkup; delete_message ]
  /\ files gated !! "downloads/clip.mp4" = None
  /\ trace accepted
     = [ send_chat_action; ydl_fetch url best; edit_text UPLOADING NoMarkup;
         reply_video "downloads/clip.mp4"; delete_message ]
  /\ files accepted !! "downloads/clip.mp4" = None.
Proof. vm_compute. repeat split; reflexivity. Qed.

(** ** Quality options *)












(** When the text of the menu cannot be built - the duration is a float
    other than zero, or the title is [None] - the handler shows no menu:
    its [except] clause downloads in best quality. *)
Lemma ytdlp_handler_no_menu (env : Env) (w : World) (user : bot.TgUser) (text url : string)
      (info : YdlInfo) (parsed : list downloader.Parsed) :
  reliable env ->
  fst (bot.check_membership_middleware (bot.tg_id user) env
         (set_db (database.add_user (bot.tg_id user) (bot.tg_username user)
                    (bot.tg_first_name user)) w)) = Ok true ->
  fst (fst (utils.RateLimiter.can_proceed (clock env) (bot.tg_id user) 5 (last_request w)))
  = true ->
  utils.extract_media_url text = Some url -> url <> EmptyString ->
  probe (ydl env) url = Returned (Some info) ->
  downloader.parse_formats_of info = Some parsed ->
  showable (duration_of info) = false \/ title_of info = None ->
  exists w1,
    added w w1 = [reply_text FETCHING_INFO NoMarkup; send_chat_action; ydl_probe url]
    /\ bot.ytdlp_download_handler user text env w
       = bot._perform_download (bot.tg_id user) url "best" env w1.
Proof.
  intros Hrel Hmem Hrate Hurl Hne Hprobe Hparse Hbad.
  unfold bot.ytdlp_download_handler, bot.rate_limit, downloader.get_video_info.
  run_step. crunch Hrel.
  destruct (bot.check_membership_middleware _ _ _) as [r0 w0] eqn:Hm.
  simpl in Hmem. subst r0. apply check_membership_pass in Hm as ->.
  crunch Hrel.
  apply can_proceed_allowed_stamps in Hrate. rewrite Hrate. crunch Hrel.
  rewrite Hurl. destruct url as [|c u]; [congruence|]. crunch Hrel.
  rewrite Hprobe, Hparse. crunch Hrel.
  cbn [downloader.vi_duration downloader.vi_title].
  fold (duration_of info). fold (title_of info).
  destruct (showable (duration_of info)) eqn:Hshow.
  - destruct Hbad as [Hbad|Hbad]; [discriminate|].
    match goal with
    | |- context [bot.duration_str _ env ?w1] =>
        destruct (duration_str_showable _ env w1 Hshow) as [s ->]
    end.
    crunch Hrel. rewrite Hbad. unfold bot.title_slice. run_step. crunch Hrel.
    eexists. split; [|reflexivity]. added_events.
  - rewrite duration_str_raises by exact Hshow. crunch Hrel.
    eexists. split; [|reflexivity]. added_events.
Qed.



(** ** The link classifier *)

Lemma append_cons (c : ascii) (a b : string) : String c a ++ b = String c (a ++ b).
Proof. reflexivity. Qed.

Lemma strip_prefix_app (p s rest : string) :
  Py.strip_prefix p s = Some rest -> s = p ++ rest.
Proof.
  revert s. induction p as [|a p IH]; intros s H; simpl in *.
  - injection H as ->. reflexivity.
  - destruct s as [|b s]; [discriminate|].
    destruct (Ascii.eqb_spec a b) as [->|]; [|discriminate].
    rewrite append_cons. f_equal. apply IH, H.
Qed.

Lemma append_assoc (a b c : string) : (a ++ b) ++ c = a ++ (b ++ c).
Proof. induction a as [|x a IH]; [reflexivity|]. rewrite !append_cons, IH. reflexivity. Qed.

Lemma append_nil_r (a : string) : a ++ "" = a.
Proof. induction a as [|x a IH]; [reflexivity|]. rewrite append_cons, IH. reflexivity. Qed.

Lemma star_cls_sound (p : ascii -> bool) (k : string -> option string) (s m : string) :
  Re.star_cls p k s = Some m ->
  Re.sound s k m (fun a => Py.all_chars p a = true).
Proof.
  revert m. induction s as [|c s IH]; intros m H; simpl in H.
  - exists "", m, "". repeat split; assumption.
  - destruct (p c) eqn:Hc.
    + destruct (Re.star_cls p k s) as [m'|] eqn:Hs.
      * injection H as <-. destruct (IH m' eq_refl) as (a & b & rest & -> & -> & Ha & Hk).
        exists (String c a), b, rest. repeat split; [|exact Hk]. simpl. rewrite Hc, Ha. reflexivity.
      * exists "", m, (String c s). repeat split; assumption.
    + exists "", m, (String c s). repeat split; assumption.
Qed.

Lemma rmatch_sound (r : Re.regex) :
  forall s k m, Re.rmatch r s k = Some m -> Re.sound s k m (Re.lang r).
Proof.
  induction r as [l | p | r1 IH1 r2 IH2 | r1 IH1 r2 IH2 | r IH | p]; intros s k m H; simpl in H.
  - destruct (Py.strip_prefix l s) as [rest|] eqn:Hp; [|discriminate].
    destruct (k rest) as [b|] eqn:Hk; [|discriminate]. injection H as <-.
    exists l, b, rest. repeat split; [apply strip_prefix_app, Hp | constructor | exact Hk].
  - destruct s as [|c rest]; [discriminate|].
    destruct (p c) eqn:Hc; [|discriminate].
    destruct (k rest) as [b|] eqn:Hk; [|discriminate]. injection H as <-.
    exists (String c ""), b, rest. repeat split; [constructor; exact Hc | exact Hk].
  - apply IH1 in H as (a & b & rest & -> & -> & Ha & Hk).
    apply IH2 in Hk as (a2 & b2 & rest2 & -> & -> & Ha2 & Hk2).
    exists (a ++ a2), b2, rest2. rewrite !append_assoc.
    repeat split; [constructor; assumption | exact Hk2].
  - destruct (Re.rmatch r1 s k) as [m1|] eqn:H1.
    + injection H as <-. apply IH1 in H1 as (a & b & rest & -> & -> & Ha & Hk).
      exists a, b, rest. repeat split; [apply Re.L_alt_l, Ha | exact Hk].
    + apply IH2 in H as (a & b & rest & -> & -> & Ha & Hk).
      exists a, b, rest. repeat split; [apply Re.L_alt_r, Ha | exact Hk].
  - destruct (Re.rmatch r s k) as [m1|] eqn:H1.
    + injection H as <-. apply IH in H1 as (a & b & rest & -> & -> & Ha & Hk).
      exists a, b, rest. repeat split; [apply Re.L_opt_some, Ha | exact Hk].
    + exists "", m, s. repeat split; [constructor | exact H].
  - destruct s as [|c rest]; [discriminate|].
    destruct (p c) eqn:Hc; [|discriminate].
    destruct (Re.star_cls p k rest) as [m'|] eqn:Hs; [|discriminate]. injection H as <-.
    apply star_cls_sound in Hs as (a & b & rest' & -> & -> & Ha & Hk).
    exists (String c a), b, rest'. repeat split; [constructor; assumption | exact Hk].
Qed.

Lemma search_sound (r : Re.regex) (s m : string) :
  Re.search r s = Some m -> Re.lang r m.
Proof.
  induction s as [|c s IH]; simpl; unfold Re.match_here.
  - destruct (Re.rmatch r "" _) as [m'|] eqn:H; [|discriminate].
    intros [= <-]. apply rmatch_sound in H as (a & b & rest & -> & _ & Ha & [= <-]).
    rewrite append_nil_r. exact Ha.
  - destruct (Re.rmatch r (String c s) _) as [m'|] eqn:H; [|exact IH].
    intros [= <-]. apply rmatch_sound in H as (a & b & rest & -> & _ & Ha & [= <-]).
    rewrite append_nil_r. exact Ha.
Qed.

Ltac lang_inv H :=
  repeat match goal with
         | H : Re.lang (Re.Seq _ _) _ |- _ => inversion H; subst; clear H
         | H : Re.lang (Re.Lit _) _ |- _ => inversion H; subst; clear H
         | H : Re.lang (Re.Opt _) _ |- _ => inversion H; subst; clear H
         | H : Re.lang (Re.Alt _ _) _ |- _ => inversion H; subst; clear H
         | H : Re.lang (Re.Plus _) _ |- _ => inversion H; subst; clear H
         end.

Lemma extracted_is_instagram (vb : string -> bool) (text u : string) :
  utils.extract_instagram_url text = Some u -> utils.is_instagram_url vb u = true.
Proof.
  unfold utils.extract_instagram_url.
  destruct (Re.search utils.post_pattern text) as [m|] eqn:Hpost.
  - intros [= <-]. apply search_sound in Hpost.
    unfold utils.post_pattern, utils.instagram_prefix in Hpost.
    lang_inv Hpost; vm_compute; reflexivity.
  - destruct (Re.search utils.story_pattern text) as [m|] eqn:Hstory; [|discriminate].
    intros [= <-]. apply search_sound in Hstory.
    unfold utils.story_pattern, utils.instagram_prefix in Hstory.
    lang_inv Hstory; vm_compute; reflexivity.
Qed.

Lemma endswith_spec (s p : string) :
  Py.endswith s p = true <-> exists pre, s = pre ++ p.
Proof.
  induction s as [|c s IH]; cbn [Py.endswith].
  - rewrite orb_false_r, String.eqb_eq. split.
    + intros <-. exists "". reflexivity.
    + intros [[|x pre] H]; [exact H|]. rewrite append_cons in H. discriminate.
  - rewrite orb_true_iff, String.eqb_eq, IH. split.
    + intros [<-|[pre ->]]; [exists ""; reflexivity|].
      exists (String c pre). reflexivity.
    + intros [[|x pre] H]; [left; exact H|].
      rewrite append_cons in H. injection H as -> ->. right. exists pre. reflexivity.
Qed.

Lemma is_ytdlp_supported_url_spec (vb : string -> bool) (url : string) :
  utils.is_ytdlp_supported_url vb url = true
  <-> url <> EmptyString
      /\ exists h, utils.hostname_of vb url = Some h /\ host_allowed h.
Proof.
  unfold utils.is_ytdlp_supported_url, host_allowed.
  destruct url as [|c u]; [split; [discriminate | intros [H _]; congruence]|].
  set (url := String c u).
  destruct (utils.hostname_of vb url) as [h|];
    [|split; [discriminate | intros (_ & h & H & _); discriminate]].
  split.
  - intros H. split; [discriminate|]. exists h. split; [reflexivity|].
    destruct (existsb (String.eqb h) utils.supported_domains) eqn:Hex.
    + apply existsb_exists in Hex as (d & Hd & Heq). apply String.eqb_eq in Heq.
      exists d. auto.
    + apply existsb_exists in H as (d & Hd & Hend). apply endswith_spec in Hend as [sub ->].
      exists d. split; [exact Hd|]. right. exists sub. reflexivity.
  - intros (_ & h' & [= <-] & d & Hd & Hh).
    destruct (existsb (String.eqb h) utils.supported_domains) eqn:Hex; [reflexivity|].
    apply existsb_exists. exists d. split; [exact Hd|].
    destruct Hh as [->|[sub ->]].
    + exfalso. assert (existsb (String.eqb d) utils.supported_domains = true); [|congruence].
      apply existsb_exists. exists d. split; [exact Hd | apply String.eqb_refl].
    + apply endswith_spec. exists sub. reflexivity.
Qed.

Lemma lookalike_hosts_rejected (vb : string -> bool) (d rest : string) :
  In d ("instagram.com" :: utils.supported_domains) ->
  utils.is_ytdlp_supported_url vb ("https://" ++ d ++ ".evil.com/" ++ rest) = false
  /\ utils.is_instagram_url vb ("https://" ++ d ++ ".evil.com/" ++ rest) = false
  /\ utils.is_ytdlp_supported_url vb ("https://evil.com/" ++ d ++ "/" ++ rest) = false
  /\ utils.is_instagram_url vb ("https://evil.com/" ++ d ++ "/" ++ rest) = false
  /\ utils.is_ytdlp_supported_url vb ("https://evil" ++ d ++ "/" ++ rest) = false
  /\ utils.is_instagram_url vb ("https://evil" ++ d ++ "/" ++ rest) = false.
Proof.
  intros Hd. simpl in Hd.
  repeat (destruct Hd as [<-|Hd]; [vm_compute; repeat split; reflexivity|]).
  contradiction.
Qed.

Lemma true_hosts_accepted (vb : string -> bool) (d rest : string) :
  In d utils.supported_domains ->
  utils.is_ytdlp_supported_url vb ("https://" ++ d ++ "/" ++ rest) = true
  /\ utils.is_ytdlp_supported_url vb ("https://www." ++ d ++ "/" ++ rest) = true
  /\ utils.is_ytdlp_supported_url vb ("https://music." ++ d ++ "/" ++ rest) = true
  /\ utils.is_ytdlp_supported_url vb ("http://M.a." ++ d ++ "?" ++ rest) = true.
Proof.
  intros Hd. simpl in Hd.
  repeat (destruct Hd as [<-|Hd]; [vm_compute; repeat split; reflexivity|]).
  contradiction.
Qed.

Lemma classify_spec (vb : string -> bool) (text : string) :
  (bot.classify vb text = bot.VerificationProviderLink
   <-> Py.truthy (utils.extract_instagram_url text) = true)
  /\ (bot.classify vb text = bot.GenericMediaLink
      <-> Py.truthy (utils.extract_instagram_url text) = false
          /\ Py.truthy (utils.extract_media_url text) = true)
  /\ (bot.classify vb text = bot.NoLink
      <-> Py.truthy (utils.extract_instagram_url text) = false
          /\ Py.truthy (utils.extract_media_url text) = false).
Proof.
  unfold bot.classify, bot.route.
  destruct (Py.truthy (utils.extract_instagram_url text)).
  { repeat split; try congruence; intros [? ?]; congruence. }
  destruct (utils.extract_media_url text) as [[|c u]|]; cbn [Py.or_empty Py.truthy].
  - cbn [utils.is_ytdlp_supported_url]. repeat split; try congruence; intros [? ?]; congruence.
  - destruct (utils.is_ytdlp_supported_url vb (String c u));
      repeat split; try congruence; intros [? ?]; congruence.
  - cbn [utils.is_ytdlp_supported_url]. repeat split; try congruence; intros [? ?]; congruence.
Qed.


(** The assertions of [test_bot.py] on the two predicates hold in the model. *)
Example test_utils_predicates (vb : string -> bool) :
  utils.is_instagram_url vb "https://instagram.com/p/ABC123/" = true
  /\ utils.is_instagram_url vb "https://youtube.com/watch?v=abc" = false
  /\ utils.is_instagram_url vb "https://malicious-instagram.com.evil.com/" = false
  /\ utils.is_ytdlp_supported_url vb "https://youtube.com/watch?v=abc" = true
  /\ utils.is_ytdlp_supported_url vb "https://soundcloud.com/test/track" = true
  /\ utils.is_ytdlp_supported_url vb "https://instagram.com/p/ABC123/" = false
  /\ utils.is_ytdlp_supported_url vb "https://malicious-youtube.com.evil.com/" = false
  /\ utils.is_ytdlp_supported_url vb "https://music.youtube.com/watch?v=abc" = true
  /\ utils.extract_instagram_url "Check https://instagram.com/p/ABC123/ out"
     = Some "https://instagram.com/p/ABC123"
  /\ utils.extract_media_url "Check out https://www.youtube.com/watch?v=dQw4w9WgXcQ"
     = Some "https://www.youtube.com/watch?v=dQw4w9WgXcQ".
Proof. vm_compute. repeat split; reflexivity. Qed.

(** C1, as stated, fails: the router classifies a URL on the look-alike host
    [instagram.com.evil.com] as a generic media link, and a text whose URL
    has [instagram.com] only in its path as an Instagram link (the handler
    then works on the matched part, [instagram.com/p/X]). *)
Lemma C1_counterexample :
  let vb := fun _ : string => true in
  bot.classify vb "https://instagram.com.evil.com/p/X" = bot.GenericMediaLink
  /\ bot.classify vb "https://evil.com/instagram.com/p/X" = bot.VerificationProviderLink
  /\ utils.extract_instagram_url "https://evil.com/instagram.com/p/X"
     = Some "instagram.com/p/X".
Proof. vm_compute. repeat split; reflexivity. Qed.

(** C1, amended.  The two host predicates match the host exactly or as a
    dot-separated subdomain, never as a substring: [is_ytdlp_supported_url]
    accepts a URL exactly when its lower-cased network location, less a
    leading [www.], is an allow-listed domain or ends with a dot and such a
    domain; so both predicates reject the look-alikes [d.evil.com],
    [evil.com/d/...] and [evild] of every listed domain [d], and accept the
    domain itself and its subdomains such as [music.youtube.com].  The
    router does not route by them: a text in which the Instagram pattern is
    found is an Instagram link, and what is extracted from it always has the
    host [instagram.com]; any other text that holds an [http(s)://] URL is a
    generic media link, whatever the host. *)
Theorem C1_hosts_and_routing (vb : string -> bool) :
  (forall url,
     utils.is_ytdlp_supported_url vb url = true
     <-> url <> EmptyString
         /\ exists h, utils.hostname_of vb url = Some h /\ host_allowed h)
  /\ (forall d rest,
        In d ("instagram.com" :: utils.supported_domains) ->
        utils.is_ytdlp_supported_url vb ("https://" ++ d ++ ".evil.com/" ++ rest) = false
        /\ utils.is_instagram_url vb ("https://" ++ d ++ ".evil.com/" ++ rest) = false
        /\ utils.is_ytdlp_supported_url vb ("https://evil.com/" ++ d ++ "/" ++ rest) = false
        /\ utils.is_instagram_url vb ("https://evil.com/" ++ d ++ "/" ++ rest) = false
        /\ utils.is_ytdlp_supported_url vb ("https://evil" ++ d ++ "/" ++ rest) = false
        /\ utils.is_instagram_url vb ("https://evil" ++ d ++ "/" ++ rest) = false)
  /\ (forall d rest,
        In d utils.supported_domains ->
        utils.is_ytdlp_supported_url vb ("https://" ++ d ++ "/" ++ rest) = true
        /\ utils.is_ytdlp_supported_url vb ("https://www." ++ d ++ "/" ++ rest) = true
        /\ utils.is_ytdlp_supported_url vb ("https://music." ++ d ++ "/" ++ rest) = true
        /\ utils.is_ytdlp_supported_url vb ("http://M.a." ++ d ++ "?" ++ rest) = true)
  /\ (forall rest,
        utils.is_instagram_url vb ("https://instagram.com/" ++ rest) = true
        /\ utils.is_instagram_url vb ("https://www.instagram.com/" ++ rest) = true
        /\ utils.is_ytdlp_supported_url vb ("https://instagram.com/" ++ rest) = false)
  /\ (forall text,
        (bot.classify vb text = bot.VerificationProviderLink
         <-> Py.truthy (utils.extract_instagram_url text) = true)
        /\ (bot.classify vb text = bot.GenericMediaLink
            <-> Py.truthy (utils.extract_instagram_url text) = false
                /\ Py.truthy (utils.extract_media_url text) = true)
        /\ (bot.classify vb text = bot.NoLink
            <-> Py.truthy (utils.extract_instagram_url text) = false
                /\ Py.truthy (utils.extract_media_url text) = false))
  /\ (forall text u,
        utils.extract_instagram_url text = Some u ->
        utils.is_instagram_url vb u = true).
Proof.
  split; [apply is_ytdlp_supported_url_spec|].
  split; [intros d rest; apply lookalike_hosts_rejected|].
  split; [intros d rest; apply true_hosts_accepted|].
  split; [intros rest; vm_compute; repeat split; reflexivity|].
  split; [apply classify_spec|].
  intros text u. apply extracted_is_instagram.
Qed.

(** * Further properties of the code

    What follows covers functions the properties above do not reach: the
    validation and text helpers of [utils.py], the remaining operations of
    [database.py], and the other paths of the handlers of [bot.py]. *)

(** ** Patterns anchored at both ends *)

Lemma strip_prefix_append (l rest : string) : Py.strip_prefix l (l ++ rest) = Some rest.
Proof.
  induction l as [|a l IH]; [reflexivity|].
  rewrite append_cons. simpl. rewrite Ascii.eqb_refl. exact IH.
Qed.

Lemma star_cls_complete (p : ascii -> bool) (k : string -> option string) (a rest : string) :
  Py.all_chars p a = true -> k rest <> None -> Re.star_cls p k (a ++ rest) <> None.
Proof.
  intros Ha Hk. induction a as [|c a IH].
  - change ("" ++ rest) with rest. destruct rest as [|d rest]; simpl; [exact Hk|].
    destruct (p d); [|exact Hk]. destruct (Re.star_cls p k rest); [discriminate|exact Hk].
  - rewrite append_cons. simpl in *. apply andb_true_iff in Ha as [Hc Ha]. rewrite Hc.
    destruct (Re.star_cls p k (a ++ rest)) eqn:E; [discriminate|]. exfalso. exact (IH Ha eq_refl).
Qed.

(** The matcher finds a match whenever the text starts with a word of the
    pattern after which the continuation succeeds. *)
Lemma rmatch_complete (r : Re.regex) (a : string) :
  Re.lang r a ->
  forall rest k, k rest <> None -> Re.rmatch r (a ++ rest) k <> None.
Proof.
  induction 1 as [l | p c Hc | r1 r2 a b _ IH1 _ IH2 | r1 r2 a _ IH | r1 r2 a _ IH
                  | r | r a _ IH | p c a Hc Ha]; intros rest k Hk; simpl.
  - rewrite strip_prefix_append. destruct (k rest); [discriminate|congruence].
  - rewrite Hc. change ("" ++ rest) with rest. destruct (k rest); [discriminate|congruence].
  - rewrite append_assoc. apply IH1. apply IH2, Hk.
  - destruct (Re.rmatch r1 (a ++ rest) k) eqn:E; [discriminate|]. exfalso. exact (IH rest k Hk E).
  - destruct (Re.rmatch r1 (a ++ rest) k) eqn:E; [discriminate|]. apply IH, Hk.
  - change ("" ++ rest) with rest. destruct (Re.rmatch r rest k); [discriminate|exact Hk].
  - destruct (Re.rmatch r (a ++ rest) k) eqn:E; [discriminate|]. exfalso. exact (IH rest k Hk E).
  - rewrite ?append_cons, Hc.
    destruct (Re.star_cls p k (a ++ rest)) eqn:E; [discriminate|].
    exfalso. exact (star_cls_complete p k a rest Ha Hk E).
Qed.

Lemma at_end_spec (rest : string) :
  Re.at_end rest <> None <-> rest = "" \/ rest = newline.
Proof.
  unfold Re.at_end.
  destruct (String.eqb_spec rest "") as [->|H1]; simpl.
  - split; [auto|discriminate].
  - destruct (String.eqb_spec rest (String (Py.chr 10) "")) as [->|H2].
    + split; [intros _; right; reflexivity|discriminate].
    + split; [congruence|]. intros [?|?]; contradiction.
Qed.

Lemma match_to_end_spec (r : Re.regex) (s : string) :
  Re.match_to_end r s = true
  <-> exists a, Re.lang r a /\ (s = a \/ s = a ++ newline).
Proof.
  unfold Re.match_to_end. split.
  - destruct (Re.rmatch r s Re.at_end) as [m|] eqn:E; [|discriminate]. intros _.
    apply rmatch_sound in E as (a & b & rest & _ & -> & Ha & Hk).
    exists a. split; [exact Ha|].
    assert (Hr : Re.at_end rest <> None) by congruence.
    apply at_end_spec in Hr as [->| ->]; [left; apply append_nil_r | right; reflexivity].
  - intros (a & Ha & Hs).
    assert (H : Re.rmatch r s Re.at_end <> None).
    { destruct Hs as [->| ->].
      - rewrite <- (append_nil_r a) at 1. apply rmatch_complete; [exact Ha|]. discriminate.
      - apply rmatch_complete; [exact Ha|]. discriminate. }
    destruct (Re.rmatch r s Re.at_end); congruence.
Qed.

Lemma length_append (a b : string) :
  String.length (a ++ b) = (String.length a + String.length b)%nat.
Proof. induction a as [|c a IH]; [reflexivity|]. rewrite append_cons. simpl. rewrite IH. reflexivity. Qed.

Lemma lang_upto (p : ascii -> bool) (n : nat) (a : string) :
  Re.lang (Re.upto (Re.Cls p) n) a
  <-> Py.all_chars p a = true /\ (String.length a <= n)%nat.
Proof.
  revert a. induction n as [|n IH]; intros a; simpl.
  - split.
    + intros H. inversion H; subst. split; [reflexivity|simpl; lia].
    + intros [_ H]. destruct a; [constructor|simpl in H; lia].
  - split.
    + intros H. inversion H as [| | | | | |r' a' H'|]; subst.
      * split; [reflexivity|simpl; lia].
      * inversion H' as [| |r1 r2 x y Hx Hy| | | | |]; subst.
        inversion Hx; subst. apply IH in Hy as [Hy Hl].
        rewrite append_cons. simpl. change ("" ++ y) with y.
        split; [rewrite Hy; apply andb_true_iff; auto|lia].
    + intros [Hall Hl]. destruct a as [|c a]; [apply Re.L_opt_none|].
      simpl in *. apply andb_true_iff in Hall as [Hc Hall].
      apply Re.L_opt_some. change (String c a) with (String c "" ++ a).
      constructor; [constructor; exact Hc|]. apply IH. split; [exact Hall|lia].
Qed.

Lemma lang_bounded (p : ascii -> bool) (m n : nat) (a : string) :
  (m <= n)%nat ->
  Re.lang (Re.bounded (Re.Cls p) m n) a
  <-> Py.all_chars p a = true /\ (m <= String.length a <= n)%nat.
Proof.
  revert n a. induction m as [|m IH]; intros n a Hmn; simpl.
  - rewrite lang_upto. intuition lia.
  - split.
    + intros H. inversion H as [| |r1 r2 x y Hx Hy| | | | |]; subst.
      inversion Hx; subst. apply IH in Hy as [Hy Hl]; [|lia].
      rewrite append_cons. simpl. change ("" ++ y) with y.
      split; [rewrite Hy; apply andb_true_iff; auto|lia].
    + intros [Hall Hl]. destruct a as [|c a]; [simpl in Hl; lia|].
      simpl in *. apply andb_true_iff in Hall as [Hc Hall].
      change (String c a) with (String c "" ++ a).
      constructor; [constructor; exact Hc|]. apply IH; [lia|]. split; [exact Hall|lia].
Qed.

(** X1. [is_valid_instagram_username] accepts exactly the names of 1 to 30
    characters among letters, digits, dot and underscore - and such a name
    followed by one line feed, because [$] also matches before a final
    newline. *)
Theorem username_validity (username : string) :
  utils_text.is_valid_instagram_username username = true
  <-> exists name,
        (username = name \/ username = name ++ newline)
        /\ (1 <= String.length name <= 30)%nat
        /\ Py.all_chars utils_text.username_char name = true.
Proof.
  unfold utils_text.is_valid_instagram_username, utils_text.username_pattern.
  rewrite match_to_end_spec. split.
  - intros (a & Ha & Hs). apply lang_bounded in Ha as [Hall Hl]; [|lia].
    exists a. auto.
  - intros (a & Hs & Hl & Hall). exists a. split; [|exact Hs].
    apply lang_bounded; [lia|]. auto.
Qed.

Lemma ucs_star_spec (p : N -> bool) (k : Ucs.text -> bool) (s : Ucs.text) :
  Ucs.star_cls p k s = true
  <-> exists a rest, s = (a ++ rest)%list /\ forallb p a = true /\ k rest = true.
Proof.
  induction s as [|c s IH]; simpl.
  - split.
    + intros H. exists [], []. auto.
    + intros (a & rest & Hs & _ & Hk). symmetry in Hs.
      apply app_eq_nil in Hs as [_ ->]. exact Hk.
  - destruct IH as [IHfound IHfinds]. split.
    + intros H. destruct (p c) eqn:Hc.
      * destruct (Ucs.star_cls p k s) eqn:Hstar.
        -- destruct (IHfound eq_refl) as (a & rest & -> & Ha & Hk).
           exists (c :: a), rest. simpl. rewrite Hc. auto.
        -- exists [], (c :: s). auto.
      * exists [], (c :: s). auto.
    + intros (a & rest & Hs & Ha & Hk). destruct a as [|x a].
      * simpl in Hs. subst rest. rewrite Hk. destruct (p c); [|reflexivity].
        destruct (Ucs.star_cls p k s); reflexivity.
      * simpl in Hs, Ha. injection Hs as <- ->.
        apply andb_true_iff in Ha as [Hc Ha]. rewrite Hc.
        rewrite IHfinds; [reflexivity|]. exists a, rest. auto.
Qed.

(** The matcher finds a match exactly when the text starts with a word of
    the language that the continuation accepts the rest of. *)
Lemma ucs_rmatch_spec (r : Ucs.regex) (s : Ucs.text) (k : Ucs.text -> bool) :
  Ucs.rmatch r s k = true
  <-> exists a rest, s = (a ++ rest)%list /\ Ucs.lang r a /\ k rest = true.
Proof.
  revert s k. induction r as [|c|p|r1 IH1 r2 IH2|p]; intros s k; simpl.
  - split.
    + intros H. exists [], s. split; [reflexivity|]. split; [constructor|exact H].
    + intros (a & rest & -> & Ha & Hk). inversion Ha; subst. exact Hk.
  - destruct s as [|c' s].
    + split; [discriminate|]. intros (a & rest & Hs & Ha & _).
      inversion Ha; subst. discriminate.
    + rewrite andb_true_iff, N.eqb_eq. split.
      * intros [-> Hk]. exists [c], s. split; [reflexivity|]. split; [constructor|exact Hk].
      * intros (a & rest & Hs & Ha & Hk). inversion Ha; subst.
        injection Hs as -> ->. auto.
  - destruct s as [|c s].
    + split; [discriminate|]. intros (a & rest & Hs & Ha & _).
      inversion Ha; subst. discriminate.
    + rewrite andb_true_iff. split.
      * intros [Hc Hk]. exists [c], s. split; [reflexivity|].
        split; [constructor; exact Hc|exact Hk].
      * intros (a & rest & Hs & Ha & Hk). inversion Ha; subst.
        injection Hs as -> ->. auto.
  - rewrite IH1. split.
    + intros (a & rest & -> & Ha & Hk). apply IH2 in Hk as (b & rest' & -> & Hb & Hk).
      exists (a ++ b)%list, rest'. rewrite <- app_assoc.
      split; [reflexivity|]. split; [constructor; assumption|exact Hk].
    + intros (ab & rest & -> & Hab & Hk). inversion Hab; subst.
      exists a, (b ++ rest)%list. rewrite <- app_assoc. split; [reflexivity|].
      split; [assumption|]. apply IH2. exists b, rest. auto.
  - destruct s as [|c s].
    + split; [discriminate|]. intros (a & rest & Hs & Ha & _).
      inversion Ha; subst. discriminate.
    + rewrite andb_true_iff, ucs_star_spec. split.
      * intros (Hc & a & rest & -> & Ha & Hk). exists (c :: a), rest.
        split; [reflexivity|]. split; [constructor; assumption|exact Hk].
      * intros (ca & rest & Hs & Hca & Hk). inversion Hca; subst.
        injection Hs as -> ->. split; [assumption|]. exists a, rest. auto.
Qed.

Lemma ucs_times_cls (p : N -> bool) (n : nat) (a : Ucs.text) :
  Ucs.lang (Ucs.times (Ucs.Cls p) n) a <-> length a = n /\ forallb p a = true.
Proof.
  revert a. induction n as [|n IH]; intros a; simpl.
  - split.
    + intros H. inversion H; subst. auto.
    + intros [Hl _]. destruct a; [constructor|discriminate].
  - split.
    + intros H. inversion H as [| | |r1 r2 x y Hx Hy|]; subst.
      inversion Hx; subst. apply IH in Hy as [Hl Hall]. simpl.
      split; [congruence|]. apply andb_true_iff. auto.
    + intros [Hl Hall]. destruct a as [|c a]; [discriminate|]. simpl in *.
      apply andb_true_iff in Hall as [Hc Hall].
      apply (Ucs.L_seq (Ucs.Cls p) _ [c] a); [constructor; exact Hc|].
      apply IH. split; [congruence|exact Hall].
Qed.

Lemma ucs_at_end (rest : Ucs.text) :
  Ucs.at_end rest = true <-> rest = [] \/ rest = [10%N].
Proof.
  destruct rest as [|c [|c' rest]]; simpl.
  - split; auto.
  - rewrite N.eqb_eq. split.
    + intros ->. auto.
    + intros [H|H]; [discriminate|congruence].
  - split; [discriminate|]. intros [H|H]; discriminate.
Qed.

(** X2. [validate_telegram_token] accepts exactly the texts made of one or
    more decimal digits - those of the Unicode database, the Arabic-Indic
    digits for one, not only 0 to 9 - then a colon and 35 characters among
    the letters A to Z and a to z, the digits 0 to 9, underscore and
    hyphen; and such a text followed by one line feed. *)
Theorem token_validity (decimal : N -> bool) (token : Ucs.text) :
  (utils_text.validate_telegram_token decimal token = true
   <-> exists bot_id secret,
         (token = (bot_id ++ [58%N] ++ secret)%list
          \/ token = (bot_id ++ [58%N] ++ secret ++ [10%N])%list)
         /\ bot_id <> [] /\ forallb decimal bot_id = true
         /\ length secret = 35%nat
         /\ forallb utils_text.token_char secret = true)
  /\ (decimal 1633%N = true ->
      utils_text.validate_telegram_token decimal
        ([1633%N; 58%N] ++ repeat 65%N 35)%list = true).
Proof.
  assert (Hiff : utils_text.validate_telegram_token decimal token = true
                 <-> exists bot_id secret,
                       (token = (bot_id ++ [58%N] ++ secret)%list
                        \/ token = (bot_id ++ [58%N] ++ secret ++ [10%N])%list)
                       /\ bot_id <> [] /\ forallb decimal bot_id = true
                       /\ length secret = 35%nat
                       /\ forallb utils_text.token_char secret = true).
  { unfold utils_text.validate_telegram_token, Ucs.match_to_end, utils_text.token_pattern.
    rewrite ucs_rmatch_spec. split.
    - intros (a & rest & -> & Ha & Hend).
      inversion Ha as [| | |r1 r2 x y Hx Hy|]; subst.
      inversion Hx as [| | | |p c d Hc Hd]; subst.
      inversion Hy as [| | |r1 r2 x' y' Hx' Hy'|]; subst.
      inversion Hx'; subst.
      apply (proj1 (ucs_times_cls utils_text.token_char 35 y')) in Hy' as [Hl Hall].
      exists (c :: d), y'. split.
      + apply ucs_at_end in Hend as [->| ->].
        * left. rewrite app_nil_r. reflexivity.
        * right. rewrite <- !app_assoc. reflexivity.
      + split; [discriminate|]. split; [simpl; rewrite Hc, Hd; reflexivity|]. auto.
    - intros (d & k & Hs & Hne & Hd & Hl & Hk).
      exists (d ++ [58%N] ++ k)%list, (if decide (token = (d ++ [58%N] ++ k)%list)
                                       then [] else [10%N]).
      split; [|split].
      + destruct (decide _) as [->|Hn]; [rewrite app_nil_r; reflexivity|].
        destruct Hs as [Hs|Hs]; [contradiction|]. rewrite Hs, <- !app_assoc. reflexivity.
      + constructor.
        * destruct d as [|c d]; [congruence|]. simpl in Hd.
          apply andb_true_iff in Hd as [? ?]. constructor; assumption.
        * apply (Ucs.L_seq (Ucs.Chr 58) _ [58%N] k); [constructor|].
          apply ucs_times_cls. auto.
      + destruct (decide _); reflexivity. }
  split; [exact Hiff|].
  intros Hd. unfold utils_text.validate_telegram_token, Ucs.match_to_end,
    utils_text.token_pattern.
  apply ucs_rmatch_spec. exists ([1633%N; 58%N] ++ repeat 65%N 35)%list, [].
  split; [rewrite app_nil_r; reflexivity|]. split; [|reflexivity].
  apply (Ucs.L_seq (Ucs.Plus decimal) _ [1633%N] (58%N :: repeat 65%N 35)).
  - constructor; [exact Hd|reflexivity].
  - apply (Ucs.L_seq (Ucs.Chr 58) _ [58%N] (repeat 65%N 35)); [constructor|].
    apply ucs_times_cls. split; reflexivity.
Qed.

(** ** File names and short texts *)

Lemma all_chars_app (p : ascii -> bool) (a b : string) :
  Py.all_chars p (a ++ b) = Py.all_chars p a && Py.all_chars p b.
Proof.
  induction a as [|c a IH]; [reflexivity|]. rewrite append_cons. simpl.
  rewrite IH, andb_assoc. reflexivity.
Qed.

Lemma substring_prefix (n : nat) (s : string) :
  exists rest, s = String.substring 0 n s ++ rest
               /\ String.length (String.substring 0 n s) = Nat.min n (String.length s).
Proof.
  revert n. induction s as [|c s IH]; intros [|n]; simpl.
  - exists "". auto.
  - exists "". auto.
  - exists (String c s). auto.
  - destruct (IH n) as (rest & Hs & Hl). exists rest. rewrite append_cons, <- Hs, Hl. auto.
Qed.

Lemma slice_to_prefix (k : Z) (s : string) :
  exists rest, s = Py.slice_to k s ++ rest.
Proof.
  unfold Py.slice_to. destruct (0 <=? k)%Z.
  - destruct (substring_prefix (Z.to_nat k) s) as (rest & H & _). exists rest. exact H.
  - destruct (substring_prefix (Z.to_nat (Z.of_nat (String.length s) + k)) s) as (rest & H & _).
    exists rest. exact H.
Qed.

Lemma slice_to_length (k : Z) (s : string) :
  (0 <= k)%Z -> (Z.of_nat (String.length (Py.slice_to k s)) <= k)%Z.
Proof.
  intros Hk. unfold Py.slice_to. destruct (Z.leb_spec 0 k); [|lia].
  destruct (substring_prefix (Z.to_nat k) s) as (rest & _ & Hl). rewrite Hl. lia.
Qed.

Lemma all_chars_prefix (p : ascii -> bool) (a b : string) :
  Py.all_chars p (a ++ b) = true -> Py.all_chars p a = true.
Proof. rewrite all_chars_app. intros H. apply andb_true_iff in H as [H _]. exact H. Qed.

Lemma remove_chars_clean (p : ascii -> bool) (s : string) :
  Py.all_chars (fun c => negb (p c)) (Py.remove_chars p s) = true.
Proof.
  induction s as [|c s IH]; [reflexivity|]. simpl.
  destruct (p c) eqn:Hc; [exact IH|]. simpl. rewrite Hc, IH. reflexivity.
Qed.

Lemma replace_space_clean (s : string) :
  Py.all_chars (fun c => negb (utils_text.invalid_filename_char c)) s = true ->
  Py.all_chars clean_name_char (Py.replace_char " " "_" s) = true.
Proof.
  induction s as [|c s IH]; [reflexivity|]. simpl. intros H.
  apply andb_true_iff in H as [Hc H].
  destruct (Ascii.eqb_spec c " ") as [->|Hne].
  - rewrite append_cons. simpl. apply IH, H.
  - simpl. rewrite (IH H), andb_true_r. unfold clean_name_char. rewrite Hc. simpl.
    apply negb_true_iff, Ascii.eqb_neq, Hne.
Qed.

Lemma replace_char_absent (c : ascii) (new s : string) :
  Py.mem c s = false -> Py.replace_char c new s = s.
Proof.
  induction s as [|x s IH]; [reflexivity|]. cbn [Py.mem Py.replace_char]. intros H.
  apply orb_false_iff in H as [Hx H]. rewrite Ascii.eqb_sym, Hx, (IH H). reflexivity.
Qed.

Lemma remove_chars_id (p : ascii -> bool) (s : string) :
  Py.all_chars (fun c => negb (p c)) s = true -> Py.remove_chars p s = s.
Proof.
  induction s as [|x s IH]; [reflexivity|]. simpl. intros H.
  apply andb_true_iff in H as [Hx H]. apply negb_true_iff in Hx. rewrite Hx, (IH H). reflexivity.
Qed.

Lemma rbreak_app (p : ascii -> bool) (s a b : string) :
  os_path.rbreak p s = Some (a, b) ->
  s = a ++ b /\ exists c b', b = String c b' /\ p c = true /\ Py.all_chars (fun x => negb (p x)) b' = true.
Proof.
  revert a b. induction s as [|x s IH]; intros a b; simpl; [discriminate|].
  destruct (os_path.rbreak p s) as [[a' b']|] eqn:E.
  - intros [= <- <-]. destruct (IH a' b' eq_refl) as (-> & H). split; [reflexivity|exact H].
  - destruct (p x) eqn:Hx; [|discriminate]. intros [= <- <-]. split; [reflexivity|].
    exists x, s. split; [reflexivity|]. split; [exact Hx|].
    clear -E. induction s as [|y s IH]; [reflexivity|]. simpl in *.
    destruct (os_path.rbreak p s) as [[]|]; [discriminate|].
    destruct (p y); [discriminate|]. simpl. apply IH. reflexivity.
Qed.

Lemma splitext_app (p : string) :
  fst (os_path.splitext p) ++ snd (os_path.splitext p) = p.
Proof.
  unfold os_path.splitext.
  destruct (os_path.rbreak (Ascii.eqb "/") p) as [[a [|c b]]|] eqn:E.
  - apply rbreak_app in E as (_ & c & b' & H & _). discriminate.
  - apply rbreak_app in E as (-> & c' & b' & [= <- <-] & Hc & _).
    apply Ascii.eqb_eq in Hc. subst c.
    destruct (os_path.rbreak (Ascii.eqb ".") b) as [[stem ext]|] eqn:E2; simpl.
    + destruct (Py.all_chars _ stem); simpl; [apply append_nil_r|].
      apply rbreak_app in E2 as (-> & _). rewrite !append_assoc. reflexivity.
    + apply append_nil_r.
  - destruct (os_path.rbreak (Ascii.eqb ".") p) as [[stem ext]|] eqn:E2; simpl.
    + destruct (Py.all_chars _ stem); simpl; [apply append_nil_r|].
      apply rbreak_app in E2 as (-> & _). reflexivity.
    + apply append_nil_r.
Qed.

(** The extension of a path is empty, or a dot followed by characters
    that are not dots. *)
Lemma splitext_ext (p : string) :
  snd (os_path.splitext p) = ""
  \/ exists e, snd (os_path.splitext p) = String "." e /\ Py.mem "." e = false.
Proof.
  unfold os_path.splitext.
  destruct (match os_path.rbreak (Ascii.eqb "/") p with
            | Some (a, String _ b) => (a ++ "/", b)
            | _ => ("", p)
            end) as [dir base].
  destruct (os_path.rbreak (Ascii.eqb ".") base) as [[stem ext]|] eqn:E2; [|left; reflexivity].
  destruct (Py.all_chars _ stem); [left; reflexivity|]. right. simpl.
  apply rbreak_app in E2 as (_ & c & b' & -> & Hc & Hb). apply Ascii.eqb_eq in Hc. subst c.
  exists b'. split; [reflexivity|].
  clear -Hb. induction b' as [|x b IH]; [reflexivity|]. simpl in *.
  apply andb_true_iff in Hb as [Hx Hb]. rewrite (IH Hb), orb_false_r.
  apply negb_true_iff in Hx. exact Hx.
Qed.

(** X3. The result of [sanitize_filename] holds none of the characters
    [<>:/\|?*], no double quote and no space; a name of at most 200 characters
    that holds none of them is returned as it is. *)
Theorem sanitize_filename_clean (filename : string) :
  Py.all_chars clean_name_char (utils_text.sanitize_filename filename) = true
  /\ (Py.all_chars clean_name_char filename = true ->
      (String.length filename <= 200)%nat ->
      utils_text.sanitize_filename filename = filename).
Proof.
  unfold utils_text.sanitize_filename.
  set (g := Py.replace_char " " "_" (Py.remove_chars utils_text.invalid_filename_char filename)).
  assert (Hg : Py.all_chars clean_name_char g = true).
  { apply replace_space_clean, remove_chars_clean. }
  split.
  - destruct (200 <? Z.of_nat (String.length g))%Z; [|exact Hg].
    pose proof (splitext_app g) as Happ.
    destruct (os_path.splitext g) as [name ext]. simpl in Happ.
    rewrite <- Happ, all_chars_app in Hg. apply andb_true_iff in Hg as [Hn He].
    rewrite all_chars_app, He, andb_true_r.
    destruct (slice_to_prefix (200 - Z.of_nat (String.length ext)) name) as (rest & Hr).
    rewrite Hr in Hn. apply all_chars_prefix in Hn. exact Hn.
  - intros Hclean Hlen.
    assert (Heq : g = filename).
    { unfold g. rewrite remove_chars_id.
      - apply replace_char_absent.
        clear -Hclean. induction filename as [|c s IH]; [reflexivity|].
        cbn [Py.mem Py.all_chars] in *.
        apply andb_true_iff in Hclean as [Hc Hs]. rewrite (IH Hs), orb_false_r.
        unfold clean_name_char in Hc. apply andb_true_iff in Hc as [_ Hc].
        apply negb_true_iff in Hc. rewrite Ascii.eqb_sym. exact Hc.
      - clear -Hclean. induction filename as [|c s IH]; [reflexivity|].
        cbn [Py.mem Py.all_chars] in *.
        apply andb_true_iff in Hclean as [Hc Hs]. rewrite (IH Hs), andb_true_r.
        unfold clean_name_char in Hc. apply andb_true_iff in Hc as [Hc _]. exact Hc. }
    rewrite Heq. destruct (Z.ltb_spec 200 (Z.of_nat (String.length filename))); [lia|reflexivity].
Qed.

(** X4. The result of [sanitize_filename] is at most 200 characters long,
    unless the cleaned name ends with an extension of more than 200
    characters: then the extension is kept whole and the result is longer. *)
Theorem sanitize_filename_length (filename : string) :
  let result := utils_text.sanitize_filename filename in
  (String.length result <= 200)%nat
  \/ exists name ext,
       result = name ++ String "." ext
       /\ Py.mem "." ext = false
       /\ (200 <= String.length ext)%nat.
Proof.
  unfold utils_text.sanitize_filename.
  set (g := Py.replace_char " " "_" (Py.remove_chars utils_text.invalid_filename_char filename)).
  cbv zeta.
  destruct (Z.ltb_spec 200 (Z.of_nat (String.length g))) as [Hlong|Hshort]; [|left; lia].
  pose proof (splitext_ext g) as Hext.
  destruct (os_path.splitext g) as [name ext]. simpl in Hext.
  destruct (Z.le_gt_cases (Z.of_nat (String.length ext)) 200) as [Hle|Hgt].
  - left. rewrite length_append.
    pose proof (slice_to_length (200 - Z.of_nat (String.length ext)) name). lia.
  - right. destruct Hext as [->|(e & -> & He)]; [simpl in Hgt; lia|].
    eexists _, e. split; [reflexivity|]. split; [exact He|]. simpl in Hgt. lia.
Qed.

(** X5. When the suffix fits in [max_length], [truncate_text] returns a
    text of at most [max_length] characters: the text itself, or a beginning
    of it followed by the suffix. *)
Theorem truncate_text_length (text suffix : string) (max_length : Z) :
  (Z.of_nat (String.length suffix) <= max_length)%Z ->
  let result := utils_text.truncate_text text max_length suffix in
  (Z.of_nat (String.length result) <= max_length)%Z
  /\ (result = text \/ exists head rest, text = head ++ rest /\ result = head ++ suffix).
Proof.
  intros Hs. unfold utils_text.truncate_text. cbv zeta.
  destruct (Z.leb_spec (Z.of_nat (String.length text)) max_length) as [Hfit|Hlong].
  - split; [exact Hfit|left; reflexivity].
  - split.
    + rewrite length_append.
      pose proof (slice_to_length (max_length - Z.of_nat (String.length suffix)) text). lia.
    + right. destruct (slice_to_prefix (max_length - Z.of_nat (String.length suffix)) text)
        as (rest & Hr).
      eexists _, rest. split; [exact Hr|reflexivity].
Qed.

Lemma truncate_text_length_witness :
  let result := utils_text.truncate_text "hello world" 8 "..." in
  (Z.of_nat (String.length result) <= 8)%Z
  /\ (result = "hello world"
      \/ exists head rest, "hello world" = head ++ rest /\ result = head ++ "...").
Proof. apply (truncate_text_length "hello world" "..." 8). cbn. lia. Defined.

Lemma replace_char_app (c : ascii) (new a b : string) :
  Py.replace_char c new (a ++ b) = Py.replace_char c new a ++ Py.replace_char c new b.
Proof.
  induction a as [|x a IH]; [reflexivity|]. rewrite append_cons. cbn [Py.replace_char].
  rewrite IH. destruct (Ascii.eqb x c); [rewrite append_assoc|]; reflexivity.
Qed.

Lemma escape_each_app (chars a b : string) :
  utils_text.escape_each chars (a ++ b)
  = utils_text.escape_each chars a ++ utils_text.escape_each chars b.
Proof.
  revert a b. induction chars as [|c chars IH]; intros a b; [reflexivity|].
  cbn [utils_text.escape_each]. rewrite replace_char_app. apply IH.
Qed.

(** Characters other than those of [chars] are left alone. *)
Lemma escape_each_absent (chars s : string) :
  Py.all_chars (fun c => negb (Py.mem c s)) chars = true ->
  utils_text.escape_each chars s = s.
Proof.
  revert s. induction chars as [|c chars IH]; intros s H; [reflexivity|].
  cbn [utils_text.escape_each Py.all_chars] in *. apply andb_true_iff in H as [Hc H].
  apply negb_true_iff in Hc. rewrite replace_char_absent by exact Hc. apply IH, H.
Qed.

Lemma mem_false_neq (c x : ascii) (s : string) :
  Py.mem c (String x s) = false -> c <> x /\ Py.mem c s = false.
Proof.
  cbn [Py.mem]. intros H. apply orb_false_iff in H as [Hx H].
  split; [apply Ascii.eqb_neq, Hx|exact H].
Qed.

Lemma escape_each_one (chars : string) (x : ascii) :
  distinct chars = true -> Py.mem "\" chars = false ->
  utils_text.escape_each chars (String x "")
  = if Py.mem x chars then String "\" (String x "") else String x "".
Proof.
  induction chars as [|c chars IH]; intros Hd Hb; [reflexivity|].
  cbn [utils_text.escape_each Py.replace_char distinct] in *.
  apply andb_true_iff in Hd as [Hc Hd]. apply negb_true_iff in Hc.
  apply mem_false_neq in Hb as [Hbc Hb].
  cbn [Py.mem]. destruct (Ascii.eqb_spec x c) as [->|Hne].
  - cbn [orb]. rewrite append_nil_r. apply escape_each_absent.
    clear -Hc Hb Hbc. induction chars as [|y chars IH]; [reflexivity|].
    apply mem_false_neq in Hc as [Hcy Hc]. apply mem_false_neq in Hb as [Hby Hb].
    cbn [Py.all_chars]. rewrite (IH Hc Hb), andb_true_r.
    cbn [Py.mem]. rewrite !orb_false_r.
    apply negb_true_iff, orb_false_iff.
    split; apply Ascii.eqb_neq; congruence.
  - cbn [orb]. apply IH; assumption.
Qed.

(** X6. [escape_markdown] puts one backslash in front of every special
    character and changes nothing else: the replacements made one special
    character after the other never escape a character twice. *)
Theorem escape_markdown_once (text : string) :
  utils_text.escape_markdown text = concat_map escaped text.
Proof.
  unfold utils_text.escape_markdown.
  induction text as [|x text IH]; [reflexivity|].
  change (utils_text.escape_each utils_text.special_chars (String x text))
    with (utils_text.escape_each utils_text.special_chars (String x "" ++ text)).
  rewrite escape_each_app, IH. cbn [concat_map]. f_equal.
  unfold escaped. apply escape_each_one; reflexivity.
Qed.

Lemma split_words (s : string) : Forall word (Py.split s).
Proof.
  induction s as [|c s IH]; [constructor|]. cbn [Py.split].
  destruct (Py.is_space c) eqn:Hc; [exact IH|].
  assert (Hw : word (String c "")).
  { split; [discriminate|]. simpl. rewrite Hc. reflexivity. }
  destruct (Py.split s) as [|w ws]; [repeat constructor; apply Hw|].
  destruct (Py.at_space s).
  - constructor; [exact Hw|exact IH].
  - inversion IH as [|? ? [Hne Hall] Hws]; subst. constructor; [|exact Hws].
    split; [discriminate|]. simpl. rewrite Hc, Hall. reflexivity.
Qed.

Lemma space_is_space : Py.is_space " " = true.
Proof. reflexivity. Qed.

Lemma not_space_neq (c : ascii) : Py.is_space c = false -> Ascii.eqb c " " = false.
Proof.
  intros H. destruct (Ascii.eqb_spec c " ") as [->|]; [|reflexivity].
  rewrite space_is_space in H. discriminate.
Qed.

Lemma spaced_word (b : bool) (w rest : string) :
  word w -> spaced b (w ++ rest) = spaced false rest.
Proof.
  intros [Hne Hall]. destruct w as [|c w]; [congruence|]. clear Hne.
  revert b c Hall. induction w as [|d w IH]; intros b c Hall.
  - cbn [Py.all_chars] in Hall. rewrite andb_true_r in Hall. apply negb_true_iff in Hall.
    rewrite append_cons. cbn [spaced]. rewrite (not_space_neq _ Hall), Hall. reflexivity.
  - cbn [Py.all_chars] in Hall. apply andb_true_iff in Hall as [Hc Hall].
    apply negb_true_iff in Hc.
    rewrite append_cons. cbn [spaced]. rewrite (not_space_neq _ Hc), Hc. cbn [negb andb].
    apply IH, Hall.
Qed.

Lemma join_words_spaced (ws : list string) (b : bool) :
  Forall word ws -> ws <> [] -> spaced b (Py.join " " ws) = true.
Proof.
  intros H. revert b. induction H as [|w ws Hw Hws IH]; intros b Hne; [congruence|].
  destruct ws as [|w2 ws].
  - cbn [Py.join]. rewrite <- (append_nil_r w), spaced_word by exact Hw. reflexivity.
  - change (Py.join " " (w :: w2 :: ws)) with (w ++ " " ++ Py.join " " (w2 :: ws)).
    rewrite spaced_word by exact Hw.
    change (" " ++ Py.join " " (w2 :: ws)) with (String " " (Py.join " " (w2 :: ws))).
    cbn [spaced]. rewrite Ascii.eqb_refl. cbn [negb andb]. apply IH. discriminate.
Qed.

Lemma normalised_spaced (s : string) : single_spaced (Py.join " " (Py.split s)) = true.
Proof.
  unfold single_spaced. destruct (Py.split s) as [|w ws] eqn:E; [reflexivity|].
  apply join_words_spaced; [|discriminate]. rewrite <- E. apply split_words.
Qed.

Lemma spaced_prefix (b : bool) (a rest : string) :
  spaced b (a ++ rest) = true -> spaced b a = true.
Proof.
  revert b. induction a as [|c a IH]; intros b; [reflexivity|].
  rewrite append_cons. cbn [spaced].
  destruct (Ascii.eqb c " "); intros H; apply andb_true_iff in H as [H1 H2];
    rewrite H1, (IH _ H2); reflexivity.
Qed.

Lemma spaced_dots (b : bool) (a : string) :
  spaced b a = true -> spaced b (a ++ "...") = true.
Proof.
  revert b. induction a as [|c a IH]; intros b; [reflexivity|].
  rewrite append_cons. cbn [spaced].
  destruct (Ascii.eqb c " "); intros H; apply andb_true_iff in H as [H1 H2];
    rewrite H1, (IH _ H2); reflexivity.
Qed.

(** X7. The result of [clean_caption] has no white space but single spaces
    between words and none in front, truncated or not; for a limit that is
    not negative it is at most the limit plus the three dots long. *)
Theorem clean_caption_single_spaced (caption : string) (max_length : Z) :
  single_spaced (utils_text.clean_caption caption max_length) = true
  /\ ((0 <= max_length)%Z ->
      (Z.of_nat (String.length (utils_text.clean_caption caption max_length))
       <= max_length + 3)%Z).
Proof.
  unfold utils_text.clean_caption. destruct caption as [|c s]; [split; [reflexivity|cbn; lia]|].
  set (n := Py.join " " (Py.split (String c s))).
  pose proof (normalised_spaced (String c s)) as Hn. fold n in Hn.
  destruct (Z.ltb_spec max_length (Z.of_nat (String.length n))) as [Hlong|Hfit].
  - split.
    + unfold single_spaced in *. apply spaced_dots.
      destruct (slice_to_prefix max_length n) as (rest & Hr).
      rewrite Hr in Hn. apply spaced_prefix in Hn. exact Hn.
    + intros Hmax. rewrite length_append.
      pose proof (slice_to_length max_length n Hmax). cbn [String.length]. lia.
  - split; [exact Hn|]. intros _. lia.
Qed.

Lemma format_02d_two_digits (n : Z) :
  (0 <= n < 100)%Z -> utils_text.format_02d n = two_digits n.
Proof.
  intros Hn.
  assert (H : forallb (fun k => String.eqb (utils_text.format_02d (Z.of_nat k))
                                  (two_digits (Z.of_nat k))) (seq 0 100) = true)
    by (vm_compute; reflexivity).
  rewrite forallb_forall in H. specialize (H (Z.to_nat n)).
  rewrite Z2Nat.id in H by lia. apply String.eqb_eq, H, in_seq. lia.
Qed.

(** X8. For a duration below 100 hours, [format_duration] gives two-digit
    fields separated by colons: minutes and seconds below one hour, hours,
    minutes and seconds from one hour on. *)
Theorem format_duration_fields (seconds : Z) :
  (0 <= seconds < 360000)%Z ->
  utils_text.format_duration seconds
  = if (seconds <? 3600)%Z
    then two_digits (seconds / 60) ++ ":" ++ two_digits (seconds mod 60)
    else two_digits (seconds / 3600) ++ ":" ++ two_digits (seconds mod 3600 / 60)
         ++ ":" ++ two_digits (seconds mod 60).
Proof.
  intros Hs. unfold utils_text.format_duration. cbv zeta.
  assert (Hmod : ((seconds mod 3600) mod 60 = seconds mod 60)%Z).
  { apply Z.mod_mod_divide. exists 60%Z. reflexivity. }
  pose proof (Z.mod_pos_bound seconds 3600 ltac:(lia)) as Hr.
  pose proof (Z.mod_pos_bound seconds 60 ltac:(lia)) as Hsec.
  assert (Hmin : (0 <= seconds mod 3600 / 60 < 60)%Z).
  { split; [apply Z.div_pos; lia|apply Z.div_lt_upper_bound; lia]. }
  rewrite Hmod.
  rewrite (format_02d_two_digits (seconds mod 3600 / 60)) by lia.
  rewrite (format_02d_two_digits (seconds mod 60)) by lia.
  destruct (Z.ltb_spec seconds 3600) as [Hlt|Hge].
  - rewrite (Z.div_small seconds 3600) by lia. rewrite (Z.mod_small seconds 3600) by lia.
    reflexivity.
  - assert (Hh : (1 <= seconds / 3600 < 100)%Z).
    { split; [apply Z.div_le_lower_bound; lia|apply Z.div_lt_upper_bound; lia]. }
    destruct (Z.ltb_spec 0 (seconds / 3600)); [|lia].
    rewrite (format_02d_two_digits (seconds / 3600)) by lia. reflexivity.
Qed.

Lemma format_duration_fields_witness :
  utils_text.format_duration 3725
  = if (3725 <? 3600)%Z
    then two_digits (3725 / 60) ++ ":" ++ two_digits (3725 mod 60)
    else two_digits (3725 / 3600) ++ ":" ++ two_digits (3725 mod 3600 / 60)
         ++ ":" ++ two_digits (3725 mod 60).
Proof. apply (format_duration_fields 3725). lia. Defined.

Lemma contains_here (sub rest : string) : Py.contains sub (sub ++ rest) = true.
Proof.
  assert (H : Py.startswith (sub ++ rest) sub = true).
  { unfold Py.startswith.
    assert (Hp : Py.strip_prefix sub (sub ++ rest) = Some rest).
    { induction sub as [|a l IH]; [reflexivity|].
      rewrite append_cons. simpl. rewrite Ascii.eqb_refl. exact IH. }
    rewrite Hp. reflexivity. }
  destruct (sub ++ rest); simpl; unfold Py.startswith in *; rewrite H; reflexivity.
Qed.

Lemma contains_later (sub pre s : string) :
  Py.contains sub s = true -> Py.contains sub (pre ++ s) = true.
Proof.
  intros H. induction pre as [|c pre IH]; [exact H|].
  rewrite append_cons. cbn [Py.contains]. rewrite IH. apply orb_true_r.
Qed.

Ltac known_by sub :=
  match goal with
  | |- context [Py.contains sub (?scheme ++ ?www ++ ?tail)] =>
      let H := fresh in
      assert (H : Py.contains sub (scheme ++ www ++ tail) = true)
        by (apply (contains_later sub scheme), (contains_later sub www);
            vm_compute; reflexivity);
      rewrite H
  end.

(** X9. What [extract_instagram_url] extracts always has a media type for
    [get_media_type_from_url]: post, reel, igtv or story, never unknown. *)
Theorem extracted_url_has_media_type (text url : string) :
  utils.extract_instagram_url text = Some url ->
  known_media_type (utils_text.get_media_type_from_url url).
Proof.
  unfold utils.extract_instagram_url, utils_text.get_media_type_from_url, known_media_type.
  destruct (Re.search utils.post_pattern text) as [m|] eqn:Hpost.
  - intros [= <-]. apply search_sound in Hpost.
    unfold utils.post_pattern, utils.instagram_prefix in Hpost.
    inversion Hpost as [| |? ? scheme rest1 _ H1| | | | |]; subst; clear Hpost.
    inversion H1 as [| |? ? www rest2 _ H2| | | | |]; subst; clear H1.
    lang_inv H2.
    + known_by "/p/". auto.
    + destruct (Py.contains "/p/" _); [auto|]. known_by "/reel/". auto.
    + destruct (Py.contains "/p/" _); [auto|].
      destruct (Py.contains "/reel/" _); [auto|]. known_by "/tv/". auto.
  - destruct (Re.search utils.story_pattern text) as [m|] eqn:Hstory; [|discriminate].
    intros [= <-]. apply search_sound in Hstory.
    unfold utils.story_pattern, utils.instagram_prefix in Hstory.
    inversion Hstory as [| |? ? scheme rest1 _ H1| | | | |]; subst; clear Hstory.
    inversion H1 as [| |? ? www rest2 _ H2| | | | |]; subst; clear H1.
    lang_inv H2.
    destruct (Py.contains "/p/" _); [auto|].
    destruct (Py.contains "/reel/" _); [auto|].
    destruct (Py.contains "/tv/" _); [auto|].
    known_by "/stories/". auto 6.
Qed.

Lemma extracted_url_has_media_type_witness :
  known_media_type (utils_text.get_media_type_from_url "https://instagram.com/reel/ABC").
Proof.
  apply (extracted_url_has_media_type "see https://instagram.com/reel/ABC now"
           "https://instagram.com/reel/ABC").
  reflexivity.
Defined.

(** ** The rate limiter, user by user *)

(** X10. The rate limiter keeps one stamp per user: a call by another
    user, allowed or denied, and a reset of another user leave the answer to
    a user as it was; after a reset of the user the next call is allowed. *)
Theorem rate_limiter_per_user (now now' user other cooldown cooldown' : Z) (lr : gmap Z Z) :
  other <> user ->
  let after := snd (utils.RateLimiter.can_proceed now' other cooldown' lr) in
  fst (utils.RateLimiter.can_proceed now user cooldown after)
  = fst (utils.RateLimiter.can_proceed now user cooldown lr)
  /\ fst (utils.RateLimiter.can_proceed now user cooldown (utils.RateLimiter.reset other lr))
     = fst (utils.RateLimiter.can_proceed now user cooldown lr)
  /\ fst (utils.RateLimiter.can_proceed now user cooldown (utils.RateLimiter.reset user lr))
     = (true, 0%Z).
Proof.
  intros Hne. cbv zeta. unfold utils.RateLimiter.can_proceed, utils.RateLimiter.reset.
  split; [|split].
  - assert (Hl : snd (match lr !! other with
                      | Some last =>
                          if (now' - last <? cooldown' * utils.RateLimiter.usec)%Z
                          then ((false, utils.RateLimiter.int_seconds
                                          (cooldown' * utils.RateLimiter.usec - (now' - last))), lr)
                          else ((true, 0%Z), <[other := now']> lr)
                      | None => ((true, 0%Z), <[other := now']> lr)
                      end) !! user = lr !! user).
    { destruct (lr !! other) as [last|]; [destruct (_ <? _)%Z|]; cbn [snd];
        rewrite ?lookup_insert_ne by congruence; reflexivity. }
    rewrite Hl. destruct (lr !! user) as [last|]; [destruct (_ <? _)%Z|]; reflexivity.
  - rewrite lookup_delete_ne by congruence.
    destruct (lr !! user) as [last|]; [destruct (_ <? _)%Z|]; reflexivity.
  - rewrite lookup_delete_eq. reflexivity.
Qed.

Lemma rate_limiter_per_user_witness :
  let lr : gmap Z Z := {[ 7%Z := 0%Z ]} in
  let after := snd (utils.RateLimiter.can_proceed 1000000 8 5 lr) in
  fst (utils.RateLimiter.can_proceed 2000000 7 5 after)
  = fst (utils.RateLimiter.can_proceed 2000000 7 5 lr)
  /\ fst (utils.RateLimiter.can_proceed 2000000 7 5 (utils.RateLimiter.reset 8 lr))
     = fst (utils.RateLimiter.can_proceed 2000000 7 5 lr)
  /\ fst (utils.RateLimiter.can_proceed 2000000 7 5 (utils.RateLimiter.reset 7 lr))
     = (true, 0%Z).
Proof. apply (rate_limiter_per_user 2000000 1000000 7 8 5 5 {[ 7%Z := 0%Z ]}). lia. Defined.

(** ** The tables of [database.py] *)

Section Tables.
Import database.

Lemma add_user_lookup (uid other : Z) (uname fname : option string) (d : Database) :
  get_user other (add_user uid uname fname d)
  = if decide (other = uid)
    then Some match get_user uid d with
              | Some u => {| username := uname; first_name := fname;
                             is_banned := is_banned u; is_premium := is_premium u;
                             download_count := download_count u |}
              | None => {| username := uname; first_name := fname;
                           is_banned := 0; is_premium := 0; download_count := 0 |}
              end
    else get_user other d.
Proof.
  unfold add_user, get_user, set_users. cbn [users].
  destruct (decide (other = uid)) as [->|Hne].
  - destruct (users d !! uid) as [u|]; apply lookup_insert_eq.
  - destruct (users d !! uid) as [u|]; apply lookup_insert_ne; congruence.
Qed.

Lemma add_user_keeps_ban (uid anyone : Z) (uname fname : option string) (d : Database) :
  is_user_banned anyone (add_user uid uname fname d) = is_user_banned anyone d.
Proof.
  unfold is_user_banned. rewrite add_user_lookup.
  destruct (decide (anyone = uid)) as [->|Hne]; [|reflexivity].
  destruct (get_user uid d); reflexivity.
Qed.

(** X11. [add_user] is an upsert: it stores the names given, keeps the ban
    flag, the premium flag and the download count of a user already known
    (0 for a new one), and touches no other user; so it bans and unbans
    nobody, and the number of users grows by one for a new user only. *)
Theorem add_user_upsert (uid : Z) (uname fname : option string) (d : Database) :
  let d' := add_user uid uname fname d in
  (exists u', get_user uid d' = Some u'
              /\ username u' = uname /\ first_name u' = fname
              /\ match get_user uid d with
                 | Some u => is_banned u' = is_banned u
                             /\ is_premium u' = is_premium u
                             /\ download_count u' = download_count u
                 | None => is_banned u' = 0%Z /\ is_premium u' = 0%Z
                           /\ download_count u' = 0%Z
                 end)
  /\ (forall other, other <> uid -> get_user other d' = get_user other d)
  /\ (forall anyone, is_user_banned anyone d' = is_user_banned anyone d)
  /\ get_total_users d'
     = (get_total_users d + match get_user uid d with Some _ => 0 | None => 1 end)%Z.
Proof.
  cbv zeta. split; [|split; [|split]].
  - rewrite add_user_lookup, decide_True by reflexivity. eexists. split; [reflexivity|].
    destruct (get_user uid d); repeat split; reflexivity.
  - intros other Hne. rewrite add_user_lookup, decide_False by exact Hne. reflexivity.
  - intros anyone. apply add_user_keeps_ban.
  - unfold get_total_users, add_user, get_user, set_users. cbn [users].
    destruct (users d !! uid) as [u|] eqn:E.
    + rewrite map_size_insert_Some by eauto. lia.
    + rewrite map_size_insert_None by exact E. lia.
Qed.

Lemma set_is_banned_lookup (flag uid other : Z) (d : Database) :
  get_user other (set_is_banned flag uid d)
  = if decide (other = uid)
    then match get_user uid d with
         | Some u => Some {| username := username u; first_name := first_name u;
                             is_banned := flag; is_premium := is_premium u;
                             download_count := download_count u |}
         | None => None
         end
    else get_user other d.
Proof.
  unfold set_is_banned, get_user, set_users. cbn [users].
  destruct (decide (other = uid)) as [->|Hne].
  - destruct (users d !! uid) as [u|] eqn:E; [apply lookup_insert_eq|exact E].
  - destruct (users d !! uid) as [u|] eqn:E; [|reflexivity].
    apply lookup_insert_ne. congruence.
Qed.

(** X12. [ban_user] bans exactly the users already in the table - for an
    unknown identity it does nothing - and [unban_user] lifts the ban; no
    other user is touched, and registering the user again with [add_user]
    does not lift a ban. *)
Theorem ban_and_unban (uid : Z) (d : Database) :
  (is_user_banned uid (ban_user uid d) = true <-> is_Some (get_user uid d))
  /\ is_user_banned uid (unban_user uid d) = false
  /\ is_user_banned uid (unban_user uid (ban_user uid d)) = false
  /\ (forall other, other <> uid ->
        get_user other (ban_user uid d) = get_user other d
        /\ get_user other (unban_user uid d) = get_user other d)
  /\ (forall uname fname,
        is_user_banned uid (add_user uid uname fname (ban_user uid d))
        = is_user_banned uid (ban_user uid d)).
Proof.
  unfold ban_user, unban_user.
  split; [|split; [|split; [|split]]].
  - unfold is_user_banned. rewrite set_is_banned_lookup, decide_True by reflexivity.
    destruct (get_user uid d) as [u|]; cbn [is_banned].
    + split; [eauto|reflexivity].
    + split; [discriminate|]. intros [? ?]. discriminate.
  - unfold is_user_banned. rewrite set_is_banned_lookup, decide_True by reflexivity.
    destruct (get_user uid d) as [u|]; reflexivity.
  - unfold is_user_banned. rewrite !set_is_banned_lookup, !decide_True by reflexivity.
    destruct (get_user uid d) as [u|]; reflexivity.
  - intros other Hne. rewrite !set_is_banned_lookup, !decide_False by exact Hne. auto.
  - intros uname fname. apply add_user_keeps_ban.
Qed.

(** X13. [create_verification] hands out a key that was never in use: the
    new record is found under it, every other key answers as before, and a
    key is not handed out again after its record was deleted. *)
Theorem create_verification_fresh (uid : Z) (ig_username code : string) (expires : Z)
        (d : Database) :
  pending_wf d ->
  let '(i, d') := create_verification uid ig_username code expires d in
  get_verification i d = None
  /\ get_verification i d'
     = Some {| pv_user_id := uid; pv_verification_code := code;
               pv_instagram_username := ig_username; expires_at := expires |}
  /\ (forall j, j <> i -> get_verification j d' = get_verification j d)
  /\ pending_wf d'
  /\ (forall j, pending_wf (delete_verification j d'))
  /\ (forall uid2 name2 code2 expires2,
        fst (create_verification uid2 name2 code2 expires2 (delete_verification i d')) <> i).
Proof.
  intros Hwf. unfold create_verification, get_verification, delete_verification, set_pending,
                pending_wf in *.
  cbn [pending_verifications seq_pending_verifications fst].
  split; [|split; [|split; [|split; [|split]]]].
  - destruct (pending_verifications d !! _) as [v|] eqn:E; [|reflexivity].
    apply Hwf in E. lia.
  - apply lookup_insert_eq.
  - intros j Hne. apply lookup_insert_ne. congruence.
  - intros j v. destruct (decide (j = seq_pending_verifications d + 1)%Z) as [->|Hne].
    + intros _. lia.
    + rewrite lookup_insert_ne by congruence. intros H. apply Hwf in H. lia.
  - intros j k v. rewrite lookup_delete_Some. intros [_ H].
    destruct (decide (k = seq_pending_verifications d + 1)%Z) as [->|Hne]; [lia|].
    rewrite lookup_insert_ne in H by congruence. apply Hwf in H. lia.
  - intros. lia.
Qed.

Lemma create_verification_fresh_witness :
  let '(i, d') := create_verification 7 "bob" "AB12CD34" 2000 (sample.db_with 0) in
  get_verification i (sample.db_with 0) = None
  /\ get_verification i d'
     = Some {| pv_user_id := 7; pv_verification_code := "AB12CD34";
               pv_instagram_username := "bob"; expires_at := 2000 |}
  /\ (forall j, j <> i -> get_verification j d' = get_verification j (sample.db_with 0))
  /\ pending_wf d'
  /\ (forall j, pending_wf (delete_verification j d'))
  /\ (forall uid2 name2 code2 expires2,
        fst (create_verification uid2 name2 code2 expires2 (delete_verification i d')) <> i).
Proof.
  apply (create_verification_fresh 7 "bob" "AB12CD34" 2000 (sample.db_with 0)).
  intros i v H. cbn in H. apply lookup_singleton_Some in H as [<- _]. cbn. lia.
Defined.

Lemma has_verified_account_iff (uid : Z) (d : Database) :
  has_verified_account uid d = true
  <-> exists a, a ∈ instagram_accounts d /\ user_id a = uid /\ is_verified a = 1%Z.
Proof.
  unfold has_verified_account. rewrite Z.ltb_lt. split.
  - intros H. destruct (filter _ _) as [|a l] eqn:E; [simpl in H; lia|].
    assert (Ha : a ∈ filter (fun a => user_id a = uid /\ is_verified a = 1%Z)
                   (instagram_accounts d)) by (rewrite E; left).
    apply list_elem_of_filter in Ha as [[? ?] ?]. exists a. auto.
  - intros (a & Hin & Hu & Hv).
    assert (Ha : a ∈ filter (fun a => user_id a = uid /\ is_verified a = 1%Z)
                   (instagram_accounts d)) by (apply list_elem_of_filter; auto).
    destruct (filter _ _); [inversion Ha|simpl; lia].
Qed.

Lemma insert_behind_newer (a x : InstagramAccount) (l : list InstagramAccount) :
  insert_by_created_at a (behind_newer x l) = behind_newer x (insert_by_created_at a l).
Proof.
  induction l as [|y l IH]; simpl.
  - destruct (Z.leb_spec (created_at x) (created_at a));
      destruct (Z.ltb_spec (created_at a) (created_at x)); try lia; reflexivity.
  - destruct (Z.ltb_spec (created_at y) (created_at x)) as [Hyx|Hyx];
      destruct (Z.leb_spec (created_at y) (created_at a)) as [Hya|Hya]; simpl.
    + destruct (Z.leb_spec (created_at x) (created_at a));
        destruct (Z.ltb_spec (created_at a) (created_at x)); try lia.
      * destruct (Z.ltb_spec (created_at y) (created_at x)); [reflexivity|lia].
      * destruct (Z.leb_spec (created_at y) (created_at a)); [reflexivity|lia].
    + destruct (Z.leb_spec (created_at x) (created_at a)); [lia|].
      destruct (Z.leb_spec (created_at y) (created_at a)); [lia|].
      destruct (Z.ltb_spec (created_at y) (created_at x)); [reflexivity|lia].
    + destruct (Z.leb_spec (created_at y) (created_at a)); [|lia].
      destruct (Z.ltb_spec (created_at a) (created_at x)); [lia|].
      destruct (Z.ltb_spec (created_at y) (created_at x)); [lia|reflexivity].
    + destruct (Z.leb_spec (created_at y) (created_at a)); [lia|].
      destruct (Z.ltb_spec (created_at y) (created_at x)); [lia|].
      rewrite IH. reflexivity.
Qed.

Lemma order_snoc (l : list InstagramAccount) (x : InstagramAccount) :
  order_by_created_at_desc (l ++ [x]) = behind_newer x (order_by_created_at_desc l).
Proof.
  unfold order_by_created_at_desc. induction l as [|a l IH]; [reflexivity|].
  cbn [app foldr]. rewrite IH. apply insert_behind_newer.
Qed.

Lemma elem_of_insert_by_created_at (a x : InstagramAccount) (l : list InstagramAccount) :
  a ∈ insert_by_created_at x l <-> a = x \/ a ∈ l.
Proof.
  induction l as [|y l IH]; simpl.
  - rewrite list_elem_of_singleton, elem_of_nil. tauto.
  - destruct (_ <=? _)%Z.
    + rewrite elem_of_cons. reflexivity.
    + rewrite !elem_of_cons, IH. tauto.
Qed.

Lemma elem_of_order (a : InstagramAccount) (l : list InstagramAccount) :
  a ∈ order_by_created_at_desc l <-> a ∈ l.
Proof.
  unfold order_by_created_at_desc. induction l as [|y l IH]; simpl; [reflexivity|].
  rewrite elem_of_insert_by_created_at, IH, elem_of_cons. reflexivity.
Qed.

Lemma elem_of_behind_newer (a x : InstagramAccount) (l : list InstagramAccount) :
  a ∈ behind_newer x l <-> a = x \/ a ∈ l.
Proof.
  induction l as [|y l IH]; simpl.
  - rewrite list_elem_of_singleton, elem_of_nil. tauto.
  - destruct (_ <? _)%Z.
    + rewrite elem_of_cons. reflexivity.
    + rewrite !elem_of_cons, IH. tauto.
Qed.

Lemma head_behind_newer (x : InstagramAccount) (l : list InstagramAccount) :
  (forall a, a ∈ l -> (created_at a < created_at x)%Z) ->
  head (behind_newer x l) = Some x.
Proof.
  destruct l as [|y l]; [reflexivity|]. intros H. simpl.
  destruct (Z.ltb_spec (created_at y) (created_at x)); [reflexivity|].
  specialize (H y (list_elem_of_here _ _)). lia.
Qed.

(** The list of a user's accounts is sorted: no row comes before a row of
    a later second. *)
Lemma insert_by_created_at_sorted (x : InstagramAccount) (l : list InstagramAccount) :
  StronglySorted (fun a b => (created_at b <= created_at a)%Z) l ->
  StronglySorted (fun a b => (created_at b <= created_at a)%Z) (insert_by_created_at x l).
Proof.
  induction 1 as [|y l Hs IH Hall]; simpl.
  - repeat constructor.
  - destruct (Z.leb_spec (created_at y) (created_at x)) as [Hle|Hgt].
    + constructor; [constructor; assumption|].
      constructor; [exact Hle|].
      eapply Forall_impl; [exact Hall|]. intros b Hb. simpl in Hb. lia.
    + constructor; [exact IH|].
      apply Forall_forall. intros b Hb. apply elem_of_insert_by_created_at in Hb as [->|Hb].
      * lia.
      * rewrite Forall_forall in Hall. apply Hall, Hb.
Qed.

Lemma accounts_sorted (uid : Z) (d : Database) :
  StronglySorted (fun a b => (created_at b <= created_at a)%Z)
                 (get_user_instagram_accounts uid d).
Proof.
  unfold get_user_instagram_accounts, order_by_created_at_desc.
  induction (filter _ _) as [|x l IH]; simpl; [constructor|].
  apply insert_by_created_at_sorted, IH.
Qed.

Lemma elem_of_accounts (a : InstagramAccount) (uid : Z) (d : Database) :
  a ∈ get_user_instagram_accounts uid d <-> a ∈ instagram_accounts d /\ user_id a = uid.
Proof.
  unfold get_user_instagram_accounts. rewrite elem_of_order, list_elem_of_filter. tauto.
Qed.

(** Where [add_instagram_account] puts the new row in the list of the
    user's accounts. *)
Lemma add_account_listed (uid : Z) (ig_username code : string)
      (expires created : Z) (d : Database) :
  get_user_instagram_accounts uid
    (snd (add_instagram_account uid ig_username code expires created d))
  = behind_newer
      {| id := seq_instagram_accounts d + 1; user_id := uid;
         instagram_username := ig_username;
         instagram_user_id := None; is_verified := 0;
         verification_code := code; code_expires_at := expires;
         created_at := created |}
      (get_user_instagram_accounts uid d).
Proof.
  unfold add_instagram_account, get_user_instagram_accounts.
  cbn [snd instagram_accounts].
  rewrite filter_app, filter_cons_True by reflexivity.
  rewrite filter_nil. apply order_snoc.
Qed.

(** X14. A new row of [instagram_accounts] is unverified: after
    [add_instagram_account] every user has a verified account exactly when
    they had one before.  In the list of the user's accounts the new row
    stands behind the rows stamped in the same second or later and before
    the rows of earlier seconds, so it is the first of the list when every
    other row of the user is from an earlier second, and the row that was
    first stays first when it is from the same second or a later one. *)
Theorem new_account_is_unverified (uid : Z) (ig_username code : string)
        (expires created : Z) (d : Database) :
  let '(i, d') := add_instagram_account uid ig_username code expires created d in
  let row := {| id := i; user_id := uid; instagram_username := ig_username;
                instagram_user_id := None; is_verified := 0;
                verification_code := code; code_expires_at := expires;
                created_at := created |} in
  (forall anyone, has_verified_account anyone d' = has_verified_account anyone d)
  /\ get_user_instagram_accounts uid d'
     = behind_newer row (get_user_instagram_accounts uid d)
  /\ row ∈ get_user_instagram_accounts uid d'
  /\ StronglySorted (fun a b => (created_at b <= created_at a)%Z)
                    (get_user_instagram_accounts uid d')
  /\ ((forall a, a ∈ get_user_instagram_accounts uid d -> (created_at a < created)%Z) ->
      head (get_user_instagram_accounts uid d') = Some row)
  /\ (forall a, head (get_user_instagram_accounts uid d) = Some a ->
                (created <= created_at a)%Z ->
                head (get_user_instagram_accounts uid d') = Some a)
  /\ get_total_verified_accounts d' = get_total_verified_accounts d.
Proof.
  cbv zeta.
  pose proof (add_account_listed uid ig_username code expires created d) as Hlist.
  pose proof (accounts_sorted uid
                (snd (add_instagram_account uid ig_username code expires created d)))
    as Hsorted.
  unfold add_instagram_account in *. cbn [snd] in Hlist, Hsorted.
  split; [|split; [|split; [|split; [|split; [|split]]]]].
  - intros anyone. unfold has_verified_account. cbn [instagram_accounts].
    rewrite filter_app, length_app.
    rewrite filter_cons_False; [simpl; f_equal; lia|]. cbn. intros [_ H]. discriminate.
  - exact Hlist.
  - rewrite Hlist. apply elem_of_behind_newer. left. reflexivity.
  - exact Hsorted.
  - intros Holder. rewrite Hlist. apply head_behind_newer. exact Holder.
  - intros a Hhead Hle. rewrite Hlist.
    destruct (get_user_instagram_accounts uid d) as [|y l]; [discriminate|].
    injection Hhead as ->. cbn [behind_newer created_at].
    destruct (Z.ltb_spec (created_at a) created); [lia|reflexivity].
  - unfold get_total_verified_accounts. cbn [instagram_accounts].
    rewrite filter_app, length_app.
    rewrite filter_cons_False; [simpl; f_equal; lia|]. cbn. discriminate.
Qed.

Lemma find_app {A} (f : A -> bool) (l1 l2 : list A) :
  find f (l1 ++ l2)%list = match find f l1 with Some x => Some x | None => find f l2 end.
Proof.
  induction l1 as [|x l1 IH]; [reflexivity|]. simpl. destruct (f x); [reflexivity|exact IH].
Qed.

Lemma find_id_fresh (i : Z) (l : list InstagramAccount) :
  Forall (fun a => (id a < i)%Z) l -> find (fun a => Z.eqb (id a) i) l = None.
Proof.
  induction 1 as [|a l Ha _ IH]; [reflexivity|]. simpl.
  destruct (Z.eqb_spec (id a) i); [lia|exact IH].
Qed.

(** X15. The account added and then verified by its id: it is found by
    [get_instagram_account] with the flag set, its owner has a verified
    account, and for every other user nothing changes (the steps of
    [test_database]). *)
Theorem verify_fresh_account (uid : Z) (ig_username code : string) (expires created : Z)
        (ig_uid : option string) (d : Database) :
  accounts_wf d ->
  let '(i, d1) := add_instagram_account uid ig_username code expires created d in
  let d2 := verify_instagram_account i ig_uid d1 in
  get_instagram_account i d1
  = Some {| id := i; user_id := uid; instagram_username := ig_username;
            instagram_user_id := None; is_verified := 0;
            verification_code := code; code_expires_at := expires;
            created_at := created |}
  /\ get_instagram_account i d2
     = Some {| id := i; user_id := uid; instagram_username := ig_username;
               instagram_user_id := ig_uid; is_verified := 1;
               verification_code := code; code_expires_at := expires;
               created_at := created |}
  /\ has_verified_account uid d2 = true
  /\ (forall other, other <> uid ->
        has_verified_account other d2 = has_verified_account other d)
  /\ accounts_wf d2.
Proof.
  intros Hwf. unfold accounts_wf in *.
  unfold add_instagram_account, verify_instagram_account, get_instagram_account, set_accounts.
  cbn [instagram_accounts seq_instagram_accounts].
  set (i := (seq_instagram_accounts d + 1)%Z).
  assert (Hold : Forall (fun a => (id a < i)%Z) (instagram_accounts d)).
  { eapply Forall_impl; [exact Hwf|]. intros a Ha. simpl in Ha. unfold i. lia. }
  assert (Hmap : map (fun a =>
                   if Z.eqb (id a) i
                   then {| id := id a; user_id := user_id a;
                           instagram_username := instagram_username a;
                           instagram_user_id := ig_uid; is_verified := 1;
                           verification_code := verification_code a;
                           code_expires_at := code_expires_at a;
                           created_at := created_at a |}
                   else a) (instagram_accounts d) = instagram_accounts d).
  { clear -Hold. induction Hold as [|a l Ha _ IH]; [reflexivity|]. simpl.
    rewrite IH. destruct (Z.eqb_spec (id a) i); [lia|reflexivity]. }
  rewrite map_app, Hmap. cbn [map id]. rewrite Z.eqb_refl.
  cbn [user_id instagram_username verification_code code_expires_at created_at].
  split; [|split; [|split; [|split]]].
  - rewrite find_app, find_id_fresh by exact Hold. simpl. rewrite Z.eqb_refl. reflexivity.
  - rewrite find_app, find_id_fresh by exact Hold. simpl. rewrite Z.eqb_refl. reflexivity.
  - apply has_verified_account_iff. eexists. cbn [instagram_accounts].
    split; [apply elem_of_app; right; left|]. split; reflexivity.
  - intros other Hne. unfold has_verified_account. cbn [instagram_accounts].
    rewrite filter_app, length_app.
    rewrite filter_cons_False; [simpl; f_equal; lia|]. cbn. intros [H _]. congruence.
  - apply Forall_app. split.
    + eapply Forall_impl; [exact Hold|]. intros a Ha. simpl in *. lia.
    + repeat constructor. simpl. lia.
Qed.

Lemma verify_fresh_account_witness :
  let d := sample.db_with 0 in
  let '(i, d1) := add_instagram_account 8 "ig_user" "CODE123" 3000 2 d in
  let d2 := verify_instagram_account i (Some "99") d1 in
  get_instagram_account i d1
  = Some {| id := i; user_id := 8; instagram_username := "ig_user";
            instagram_user_id := None; is_verified := 0;
            verification_code := "CODE123"; code_expires_at := 3000;
            created_at := 2 |}
  /\ get_instagram_account i d2
     = Some {| id := i; user_id := 8; instagram_username := "ig_user";
               instagram_user_id := Some "99"; is_verified := 1;
               verification_code := "CODE123"; code_expires_at := 3000;
               created_at := 2 |}
  /\ has_verified_account 8 d2 = true
  /\ (forall other, other <> 8%Z ->
        has_verified_account other d2 = has_verified_account other d)
  /\ accounts_wf d2.
Proof.
  apply (verify_fresh_account 8 "ig_user" "CODE123" 3000 2 (Some "99") (sample.db_with 0)).
  repeat constructor. cbn. lia.
Defined.

(** X16. After [delete_instagram_account] the id is not found any more,
    and a user has a verified account exactly when one of their other
    accounts is verified. *)
Theorem delete_instagram_account_spec (account_id : Z) (d : Database) :
  get_instagram_account account_id (delete_instagram_account account_id d) = None
  /\ (forall uid,
        has_verified_account uid (delete_instagram_account account_id d) = true
        <-> exists a, a ∈ instagram_accounts d /\ id a <> account_id
                      /\ user_id a = uid /\ is_verified a = 1%Z).
Proof.
  split.
  - unfold get_instagram_account, delete_instagram_account, set_accounts.
    cbn [instagram_accounts].
    induction (instagram_accounts d) as [|a l IH]; [reflexivity|].
    rewrite filter_cons. destruct (decide (id a <> account_id)) as [Hne|Heq]; [|exact IH].
    simpl. destruct (Z.eqb_spec (id a) account_id); [contradiction|exact IH].
  - intros uid. rewrite has_verified_account_iff.
    unfold delete_instagram_account, set_accounts. cbn [instagram_accounts].
    split.
    + intros (a & Hin & Hu & Hv). apply list_elem_of_filter in Hin as [Hne Hin].
      exists a. auto.
    + intros (a & Hin & Hne & Hu & Hv). exists a. split; [|auto].
      apply list_elem_of_filter. auto.
Qed.

Lemma active_replace (cid : string) (row : Channel) (cs : list Channel) :
  channel_id row = cid -> is_active row = 1%Z ->
  NoDup (map channel_id cs) ->
  (length (filter (fun c => is_active c = 1%Z)
             (map (fun c => if String.eqb (channel_id c) cid then row else c) cs))
   <= S (length (filter (fun c => is_active c = 1%Z) cs)))%nat
  /\ map channel_id (map (fun c => if String.eqb (channel_id c) cid then row else c) cs)
     = map channel_id cs
  /\ (cid ∉ map channel_id cs ->
      map (fun c => if String.eqb (channel_id c) cid then row else c) cs = cs).
Proof.
  intros Hid Hact. induction cs as [|c cs IH]; intros Hnd; [simpl; auto|].
  cbn [map] in *. apply NoDup_cons in Hnd as [Hc Hnd].
  destruct (IH Hnd) as (IHlen & IHids & IHabs).
  destruct (String.eqb_spec (channel_id c) cid) as [Heq|Hne].
  - assert (Hc' : cid ∉ map channel_id cs) by (rewrite <- Heq; exact Hc).
    rewrite (IHabs Hc'). split; [|split].
    + rewrite filter_cons_True by exact Hact. rewrite (filter_cons _ c).
      destruct (decide _); simpl; lia.
    + cbn [map]. rewrite Hid, Heq. reflexivity.
    + intros H. exfalso. apply H. rewrite Heq. left.
  - split; [|split].
    + rewrite !filter_cons. destruct (decide _); simpl; lia.
    + rewrite IHids. reflexivity.
    + intros H. rewrite IHabs; [reflexivity|]. intros ?. apply H. right. assumption.
Qed.

Lemma existsb_channel (cid : string) (cs : list Channel) :
  existsb (fun c => String.eqb (channel_id c) cid) cs = true <-> cid ∈ map channel_id cs.
Proof.
  induction cs as [|c cs IH]; simpl.
  - split; [discriminate|]. intros H. inversion H.
  - rewrite orb_true_iff, IH, elem_of_cons, String.eqb_eq. intuition congruence.
Qed.

(** X17. [add_channel_lock] refuses exactly when two channels are active,
    and then changes nothing - also when the channel is already in the
    table; otherwise the channel is active afterwards, the lock is enabled,
    at most two channels are active, and ids stay unique. *)
Theorem add_channel_lock_limit (cid : string) (cusername ctitle : option string)
        (d : Database) :
  channels_wf d ->
  let '(ok, d') := add_channel_lock cid cusername ctitle d in
  (ok = false <-> (2 <= active_channels d)%nat)
  /\ (ok = false -> d' = d)
  /\ (ok = true ->
      {| channel_id := cid; channel_title := ctitle; is_active := 1 |}
        ∈ get_locked_channels d'
      /\ is_channel_lock_enabled d' = true
      /\ (active_channels d' <= 2)%nat)
  /\ channels_wf d'.
Proof.
  intros Hwf.
  assert (Hon : forall (x : Channel) d0,
             x ∈ get_locked_channels d0 -> is_channel_lock_enabled d0 = true).
  { intros x d0 Hx. unfold is_channel_lock_enabled.
    destruct (get_locked_channels d0); [inversion Hx|reflexivity]. }
  revert Hon. unfold add_channel_lock, active_channels, get_locked_channels, channels_wf in *.
  set (row := {| channel_id := cid; channel_title := ctitle; is_active := 1 |}).
  destruct (Z.leb_spec 2 (Z.of_nat (length (filter (fun c => is_active c = 1%Z)
                                              (channel_lock d))))) as [Hfull|Hroom];
    intros Hon.
  - split; [split; [intros _; lia|reflexivity]|]. split; [reflexivity|].
    split; [discriminate|exact Hwf].
  - split; [split; [discriminate|lia]|]. split; [discriminate|].
    unfold set_channel_lock. cbn [channel_lock].
    destruct (existsb _ (channel_lock d)) eqn:Hex.
    + destruct (active_replace cid row (channel_lock d) eq_refl eq_refl Hwf)
        as (Hlen & Hids & _).
      split; [|rewrite Hids; exact Hwf]. intros _.
      assert (Hrow : row ∈ filter (fun c => is_active c = 1%Z)
                       (map (fun c => if String.eqb (channel_id c) cid then row else c)
                          (channel_lock d))).
      { apply list_elem_of_filter. split; [reflexivity|].
        apply existsb_channel in Hex. apply list_elem_of_fmap in Hex as (c & Hc & Hin).
        apply list_elem_of_fmap. exists c. split; [|exact Hin].
        rewrite <- Hc, String.eqb_refl. reflexivity. }
      split; [exact Hrow|]. split; [|lia].
      eapply (Hon row (set_channel_lock _ d)). exact Hrow.
    + split.
      * intros _. rewrite filter_app, length_app, filter_cons_True by reflexivity.
        assert (Hrow : row ∈ (filter (fun c => is_active c = 1%Z) (channel_lock d)
                              ++ [row])%list).
        { apply elem_of_app. right. left. }
        split; [exact Hrow|]. split; [|simpl; lia].
        eapply (Hon row (set_channel_lock (fun cs => (cs ++ [row])%list) d)).
        unfold get_locked_channels, set_channel_lock. cbn [channel_lock].
        rewrite filter_app, filter_cons_True by reflexivity. exact Hrow.
      * rewrite map_app. apply NoDup_app. split; [exact Hwf|]. split.
        -- intros x Hx Hin. apply list_elem_of_singleton in Hin. cbn in Hin. subst x.
           apply existsb_channel in Hx. rewrite Hex in Hx. discriminate.
        -- apply NoDup_singleton.
Qed.

Lemma add_channel_lock_limit_witness :
  let d := sample.db_with_channel 1 in
  let '(ok, d') := add_channel_lock "-1002" None (Some "Clips") d in
  (ok = false <-> (2 <= active_channels d)%nat)
  /\ (ok = false -> d' = d)
  /\ (ok = true ->
      {| channel_id := "-1002"; channel_title := Some "Clips"; is_active := 1 |}
        ∈ get_locked_channels d'
      /\ is_channel_lock_enabled d' = true
      /\ (active_channels d' <= 2)%nat)
  /\ channels_wf d'.
Proof.
  apply (add_channel_lock_limit "-1002" None (Some "Clips") (sample.db_with_channel 1)).
  apply NoDup_singleton.
Defined.

(** X18. [toggle_channel_lock] does not look at the limit: enabling a
    channel that is in the table and inactive adds one to the number of
    active channels, whatever that number is. *)
Theorem toggle_channel_lock_count (cid : string) (c : Channel) (d : Database) :
  channels_wf d ->
  c ∈ channel_lock d -> channel_id c = cid -> is_active c <> 1%Z ->
  active_channels (toggle_channel_lock cid true d) = S (active_channels d)
  /\ channels_wf (toggle_channel_lock cid true d).
Proof.
  unfold channels_wf, active_channels, get_locked_channels, toggle_channel_lock,
    set_channel_lock. cbn [channel_lock].
  intros Hwf Hin Hid Hoff.
  induction (channel_lock d) as [|x cs IH]; [inversion Hin|].
  cbn [map] in *. apply NoDup_cons in Hwf as [Hx Hwf].
  assert (Hids : forall l, map channel_id
            (map (fun c0 => if String.eqb (channel_id c0) cid
                            then {| channel_id := channel_id c0;
                                    channel_title := channel_title c0;
                                    is_active := 1 |}
                            else c0) l) = map channel_id l).
  { intros l. induction l as [|y l IHl]; [reflexivity|]. cbn [map]. rewrite IHl.
    destruct (String.eqb (channel_id y) cid); reflexivity. }
  apply elem_of_cons in Hin as [<-|Hin].
  - rewrite Hid, String.eqb_refl. rewrite filter_cons_True by reflexivity.
    rewrite (filter_cons_False _ c) by exact Hoff.
    assert (Hsame : map (fun c0 => if String.eqb (channel_id c0) cid
                            then {| channel_id := channel_id c0;
                                    channel_title := channel_title c0;
                                    is_active := 1 |}
                            else c0) cs = cs).
    { clear -Hx Hid. rewrite Hid in Hx. induction cs as [|y cs IH]; [reflexivity|].
      cbn [map] in *. apply not_elem_of_cons in Hx as [Hy Hx]. rewrite (IH Hx).
      destruct (String.eqb_spec (channel_id y) cid); [congruence|reflexivity]. }
    rewrite Hsame. split; [reflexivity|]. cbn [map channel_id]. rewrite <- Hid.
    apply NoDup_cons. auto.
  - destruct (IH Hwf Hin) as [IHlen IHnd].
    assert (Hne : channel_id x <> cid).
    { intros Heq. apply Hx. rewrite Heq, <- Hid. apply list_elem_of_fmap. eauto. }
    destruct (String.eqb_spec (channel_id x) cid); [contradiction|].
    split.
    + rewrite !(filter_cons _ x). destruct (decide _); simpl; rewrite IHlen; reflexivity.
    + cbn [map]. apply NoDup_cons. rewrite Hids. auto.
Qed.

Lemma toggle_channel_lock_count_witness :
  let d := sample.db_with_channel 0 in
  active_channels (toggle_channel_lock "-1001" true d) = S (active_channels d)
  /\ channels_wf (toggle_channel_lock "-1001" true d).
Proof.
  apply (toggle_channel_lock_count "-1001"
           {| channel_id := "-1001"; channel_title := Some "News"; is_active := 0 |}
           (sample.db_with_channel 0)).
  - apply NoDup_singleton.
  - left.
  - reflexivity.
  - discriminate.
Defined.

(** X19. A disabled channel is not required: for the membership check,
    disabling a channel is the same as removing it. *)
Theorem disabled_channel_is_not_checked (cid : string) (user_id : Z) (env : Env) (w : World) :
  fst (bot.check_channel_membership user_id env (set_db (toggle_channel_lock cid false) w))
  = fst (bot.check_channel_membership user_id env (set_db (remove_channel_lock cid) w)).
Proof.
  unfold bot.check_channel_membership. run_step. cbn [fst db set_db].
  unfold get_locked_channels, toggle_channel_lock, remove_channel_lock, set_channel_lock.
  cbn [channel_lock]. do 2 f_equal.
  induction (channel_lock (db w)) as [|c cs IH]; [reflexivity|].
  cbn [map]. rewrite !filter_cons.
  destruct (String.eqb_spec (channel_id c) cid) as [Heq|Hne].
  - rewrite decide_False by (cbn; discriminate).
    rewrite (decide_False (P := channel_id c <> cid)) by auto. exact IH.
  - rewrite (decide_True (P := channel_id c <> cid)) by exact Hne.
    rewrite (filter_cons _ c).
    destruct (decide (is_active c = 1%Z)); rewrite IH; reflexivity.
Qed.

(** After a successful [add_channel_lock] the channel is among the active
    ones, with the title given. *)
Lemma add_channel_lock_row (cid : string) (cusername ctitle : option string) (d : Database) :
  fst (add_channel_lock cid cusername ctitle d) = true ->
  {| channel_id := cid; channel_title := ctitle; is_active := 1 |}
    ∈ get_locked_channels (snd (add_channel_lock cid cusername ctitle d)).
Proof.
  unfold add_channel_lock, get_locked_channels.
  destruct (2 <=? _)%Z; [discriminate|]. intros _.
  unfold set_channel_lock. cbn [snd channel_lock].
  apply list_elem_of_filter. split; [reflexivity|].
  destruct (existsb _ (channel_lock d)) eqn:Hex.
  - apply existsb_channel in Hex. apply list_elem_of_fmap in Hex as (c & Hc & Hin).
    apply list_elem_of_fmap. exists c. split; [|exact Hin].
    rewrite <- Hc, String.eqb_refl. reflexivity.
  - apply elem_of_app. right. left.
Qed.

(** X20. A channel that was added is required from the next request on:
    the membership check fails for a user who left it, was kicked from it,
    or whose membership Telegram cannot tell. *)
Theorem added_channel_is_checked (cid : string) (cusername ctitle : option string)
        (user_id : Z) (env : Env) (w : World) :
  fst (add_channel_lock cid cusername ctitle (db w)) = true ->
  not_a_member env cid user_id ->
  fst (bot.check_channel_membership user_id env
         (set_db (fun d => snd (add_channel_lock cid cusername ctitle d)) w))
  = Ok false.
Proof.
  intros Hok Hout. apply add_channel_lock_row in Hok.
  unfold bot.check_channel_membership. run_step. cbn [fst db set_db]. f_equal.
  apply not_true_is_false. intros Hall. rewrite forallb_forall in Hall.
  specialize (Hall _ (proj1 (list_elem_of_In _ _) Hok)). cbn in Hall.
  unfold not_a_member in Hout.
  destruct (get_chat_member env cid user_id) as [status|]; [|discriminate].
  destruct Hout as [-> | ->]; discriminate.
Qed.

Lemma added_channel_is_checked_witness :
  fst (bot.check_channel_membership 7 (sample.env_of_status "left")
         (set_db (fun d => snd (add_channel_lock "-1002" None (Some "Clips") d))
                 (sample.world_with 1)))
  = Ok false.
Proof.
  apply (added_channel_is_checked "-1002" None (Some "Clips") 7
           (sample.env_of_status "left") (sample.world_with 1)).
  - reflexivity.
  - left. reflexivity.
Defined.

End Tables.

(** ** The scan of the threads of an inbox *)

(** X21. [scan_threads] stops at the first thread that holds the code: it
    answers with a thread exactly when that thread has a message with the
    code and the messages of every thread before it could be read and hold
    none; a thread that cannot be read hides every thread after it. *)
Theorem scan_threads_first_match (cl : Client) (code : string) (n : Z)
        (threads : list Z) (thread : Z) :
  instagram_handler.scan_threads cl code n threads = Returned (Some thread)
  <-> exists before after,
        threads = (before ++ thread :: after)%list
        /\ Forall (clean_thread cl code n) before
        /\ holding_thread cl code n thread.
Proof.
  induction threads as [|t threads IH]; cbn [instagram_handler.scan_threads].
  - split; [discriminate|]. intros (b & a & H & _). destruct b; discriminate.
  - destruct (direct_messages cl t n) as [messages|] eqn:Hm.
    + destruct (existsb (instagram_handler.has_code code) messages) eqn:Hc.
      * split.
        -- intros [= <-]. exists [], threads. split; [reflexivity|]. split; [constructor|].
           exists messages. auto.
        -- intros (b & a & Hs & Hb & Hh). destruct b as [|t' b].
           ++ injection Hs as <- _. reflexivity.
           ++ injection Hs as <- _. inversion Hb as [|? ? (ms & Hms & Hno) _]; subst.
              rewrite Hm in Hms. injection Hms as <-. congruence.
      * rewrite IH. split.
        -- intros (b & a & -> & Hb & Hh). exists (t :: b), a. split; [reflexivity|].
           split; [|exact Hh]. constructor; [|exact Hb]. exists messages. auto.
        -- intros (b & a & Hs & Hb & Hh). destruct b as [|t' b].
           ++ injection Hs as <- _. destruct Hh as (ms & Hms & Hyes).
              rewrite Hm in Hms. injection Hms as <-. congruence.
           ++ injection Hs as <- ->. inversion Hb; subst. exists b, a. auto.
    + split; [discriminate|].
      intros (b & a & Hs & Hb & Hh). destruct b as [|t' b].
      * injection Hs as <- _. destruct Hh as (ms & Hms & _). congruence.
      * injection Hs as <- _. inversion Hb as [|? ? (ms & Hms & _) _]; subst. congruence.
Qed.

(** ** Requests the gates refuse *)

(** When Telegram does not fail, [_perform_download] returns: its own
    [except] clause catches what the body raises. *)
Lemma perform_download_returns env w user_id url quality :
  reliable env ->
  exists w' more,
    bot._perform_download user_id url quality env w = (Ok tt, w')
    /\ trace w' = (trace w ++ [send_chat_action;
                               ydl_fetch url (fst (downloader.format_of_quality quality))]
                           ++ more)%list.
Proof.
  intros Hrel.
  unfold bot._perform_download, downloader.download_with_quality,
    downloader.download_with_ytdlp, downloader.select_format,
    downloader.get_file_size, downloader.cleanup_file, bot.open_rb.
  run_step.
  pose proof (format_of_quality_audio quality) as Haudio.
  destruct (downloader.format_of_quality quality) as [format audio]. simpl in Haudio.
  cbn [downloader.falsy_str negb andb fst].
  crunch Hrel.
  assert (Hshape : forall (w1 : World) (l : list Event),
             trace w1
             = (((trace w ++ [send_chat_action]) ++ [ydl_fetch url format]) ++ l)%list ->
             exists w' more,
               (Ok tt, w1) = (@Ok unit tt, w')
               /\ trace w'
                  = (trace w ++ [send_chat_action; ydl_fetch url format] ++ more)%list).
  { intros w1 l H. exists w1, l. split; [reflexivity|]. rewrite H, <- !app_assoc. reflexivity. }
  destruct (fetch (ydl env) url format audio) as [[info|] written] eqn:Hfetch;
    crunch Hrel.
  2:{ apply (Hshape _ [edit_text DOWNLOAD_FAILED NoMarkup]). reflexivity. }
  rewrite <- Haudio, orb_diag.
  set (fp := if audio then _ else _).
  cbn [downloader.dl_duration]. fold (duration_of info).
  assert (Hcaption : forall w1, exists r,
             bot.duration_str (duration_of info) env w1 = (r, w1)).
  { intros w1. destruct (showable (duration_of info)) eqn:Hshow.
    - destruct (duration_str_showable _ env w1 Hshow) as [s ->]. eexists. reflexivity.
    - rewrite duration_str_raises by exact Hshow. eexists. reflexivity. }
  destruct (downloader.write_files written (files w) !! fp) as [size|] eqn:Hfp;
    crunch Hrel.
  - destruct (bot.size_limit <? size)%Z; crunch Hrel.
    + rewrite Hfp. crunch Hrel.
      apply (Hshape _ [edit_text UPLOADING NoMarkup; reply_text FILE_TOO_LARGE NoMarkup;
                       delete_message]).
      cbn [trace log count_call set_files set_db]. rewrite <- !app_assoc. reflexivity.
    + match goal with
      | |- context [bot.duration_str _ env ?w1] =>
          destruct (Hcaption w1) as [[s|e] ->]
      end; crunch Hrel.
      * rewrite Hfp. crunch Hrel.
        destruct (_ || _); [|destruct (os_path.ext_in _ _)]; crunch Hrel; rewrite Hfp; crunch Hrel;
          (eapply (Hshape _ [edit_text UPLOADING NoMarkup; _; delete_message]);
           cbn [trace log count_call set_files set_db]; rewrite <- !app_assoc; reflexivity).
      * apply (Hshape _ [edit_text UPLOADING NoMarkup; edit_text DOWNLOAD_FAILED NoMarkup]).
        cbn [trace log count_call set_files set_db]. rewrite <- !app_assoc. reflexivity.
  - destruct (bot.size_limit <? 0)%Z eqn:Hl; [discriminate|]. crunch Hrel.
    match goal with
    | |- context [bot.duration_str _ env ?w1] =>
        destruct (Hcaption w1) as [[s|e] ->]
    end; crunch Hrel.
    + rewrite Hfp. crunch Hrel.
      apply (Hshape _ [edit_text UPLOADING NoMarkup; edit_text DOWNLOAD_FAILED NoMarkup]).
      cbn [trace log count_call set_files set_db]. rewrite <- !app_assoc. reflexivity.
    + apply (Hshape _ [edit_text UPLOADING NoMarkup; edit_text DOWNLOAD_FAILED NoMarkup]).
      cbn [trace log count_call set_files set_db]. rewrite <- !app_assoc. reflexivity.
Qed.

(** The gate reads the ban flag and the channels only: registering the
    sender first does not change its answer. *)
Lemma membership_after_add_user (user : bot.TgUser) (env : Env) (w : World) :
  let w1 := set_db (database.add_user (bot.tg_id user) (bot.tg_username user)
                      (bot.tg_first_name user)) w in
  fst (bot.check_membership_middleware (bot.tg_id user) env w1)
  = fst (bot.check_membership_middleware (bot.tg_id user) env w).
Proof.
  cbv zeta. unfold bot.check_membership_middleware, bot.check_channel_membership. run_step.
  destruct (Z.eqb _ _); [reflexivity|]. cbn [db set_db].
  rewrite add_user_keeps_ban.
  destruct (database.is_user_banned _ _).
  - unfold telegram. cbn [telegram_calls set_db].
    destruct (telegram_raises env (telegram_calls w)); reflexivity.
  - unfold database.get_locked_channels, database.add_user, database.set_users.
    cbn [database.channel_lock].
    destruct (forallb _ _); [reflexivity|]. cbn [negb].
    unfold telegram. cbn [telegram_calls set_db].
    destruct (telegram_raises env (telegram_calls w)); reflexivity.
Qed.

(** X22. A request that comes less than five seconds after the last
    admitted one is answered with the waiting time and nothing else, by both
    handlers: nothing is fetched or sent, the stamp is not renewed. *)
Theorem rate_limited_request_is_refused (env : Env) (w : World) (user : bot.TgUser)
        (text : string) (last : Z) :
  let user_id := bot.tg_id user in
  let usec := utils.RateLimiter.usec in
  let wait := utils.RateLimiter.int_seconds (5 * usec - (clock env - last)) in
  last_request w !! user_id = Some last ->
  (clock env - last < 5 * usec)%Z ->
  fst (bot.check_membership_middleware user_id env w) = Ok true ->
  telegram_raises env (telegram_calls w) = false ->
  (database.has_verified_account user_id (db w) = true ->
   let '(r, w') := bot.download_handler user_id text env w in
   r = Ok tt /\ quiet w w' /\ added w w' = [reply_text (RATE_LIMIT wait) NoMarkup])
  /\ (let '(r, w') := bot.ytdlp_download_handler user text env w in
      r = Ok tt
      /\ quiet (set_db (database.add_user user_id (bot.tg_username user)
                          (bot.tg_first_name user)) w) w'
      /\ added w w' = [reply_text (RATE_LIMIT wait) NoMarkup]).
Proof.
  intros user_id usec wait Hlast Hearly Hmem Hok.
  assert (Hrate : forall lr, lr = last_request w ->
            utils.RateLimiter.can_proceed (clock env) user_id 5 lr = ((false, wait), lr)).
  { intros lr ->. unfold utils.RateLimiter.can_proceed. rewrite Hlast.
    fold usec. destruct (Z.ltb_spec (clock env - last) (5 * usec)); [reflexivity|lia]. }
  split.
  - intros Hver. unfold bot.download_handler, bot.rate_limit. run_step.
    destruct (bot.check_membership_middleware user_id env w) as [r0 w0] eqn:Hm.
    simpl in Hmem. subst r0. apply check_membership_pass in Hm as ->.
    cbv beta iota. cbn [negb]. rewrite Hver. cbn [negb].
    rewrite (Hrate _ eq_refl). cbv beta iota. cbn [negb].
    unfold telegram. cbn [telegram_calls set_last_request]. rewrite Hok.
    split; [reflexivity|]. split.
    + repeat split. exists [reply_text (RATE_LIMIT wait) NoMarkup].
      split; [reflexivity|]. repeat constructor.
    + added_events.
  - unfold bot.ytdlp_download_handler, bot.rate_limit. run_step. cbv beta iota.
    pose proof (membership_after_add_user user env w) as Hsame. cbv zeta in Hsame.
    fold user_id in Hsame |- *. rewrite Hmem in Hsame.
    match type of Hsame with
    | fst ?m = _ => destruct m as [r0 w0] eqn:Hm
    end.
    simpl in Hsame. subst r0.
    apply check_membership_pass in Hm as ->.
    cbv beta iota. cbn [negb last_request set_db].
    rewrite (Hrate _ eq_refl). cbv beta iota. cbn [negb].
    unfold telegram. cbn [telegram_calls set_last_request set_db]. rewrite Hok.
    split; [reflexivity|]. split.
    + repeat split. exists [reply_text (RATE_LIMIT wait) NoMarkup].
      split; [reflexivity|]. repeat constructor.
    + added_events.
Qed.

Lemma rate_limited_request_is_refused_witness :
  let env := sample.env_with true None (sample.ydl_with 10) sample.never in
  let w := set_last_request (fun _ => {[ 7%Z := 1699999998000000%Z ]}) (sample.world_with 1) in
  (database.has_verified_account 7 (db w) = true ->
   let '(r, w') := bot.download_handler 7 "https://instagram.com/p/ABC123/" env w in
   r = Ok tt /\ quiet w w' /\ added w w' = [reply_text (RATE_LIMIT 3) NoMarkup])
  /\ (let '(r, w') :=
        bot.ytdlp_download_handler sample.tg_user7 "https://instagram.com/p/ABC123/" env w in
      r = Ok tt
      /\ quiet (set_db (database.add_user 7 (Some "u7") None) w) w'
      /\ added w w' = [reply_text (RATE_LIMIT 3) NoMarkup]).
Proof.
  intros env w.
  apply (rate_limited_request_is_refused env w sample.tg_user7
           "https://instagram.com/p/ABC123/" 1699999998000000).
  - reflexivity.
  - reflexivity.
  - reflexivity.
  - reflexivity.
Defined.

(** X23. A banned user who is not the administrator is turned away by both
    handlers before anything is fetched or sent, whatever Telegram does; the
    generic handler registers the sender first, which does not lift the
    ban. *)
Theorem banned_user_is_refused (env : Env) (w : World) (user : bot.TgUser) (text : string) :
  let user_id := bot.tg_id user in
  let registered := set_db (database.add_user user_id (bot.tg_username user)
                              (bot.tg_first_name user)) w in
  database.is_user_banned user_id (db w) = true ->
  user_id <> admin_id env ->
  (let '(r, w') := bot.download_handler user_id text env w in
   quiet w w'
   /\ (telegram_raises env (telegram_calls w) = false ->
       r = Ok tt /\ added w w' = [reply_text USER_BANNED_MESSAGE NoMarkup]))
  /\ (let '(r, w') := bot.ytdlp_download_handler user text env w in
      quiet registered w'
      /\ database.is_user_banned user_id (db w') = true
      /\ (telegram_raises env (telegram_calls w) = false ->
          r = Ok tt /\ added w w' = [reply_text USER_BANNED_MESSAGE NoMarkup])).
Proof.
  intros user_id registered Hban Hadmin.
  assert (Hne : Z.eqb user_id (admin_id env) = false) by (apply Z.eqb_neq, Hadmin).
  split.
  - unfold bot.download_handler, bot.check_membership_middleware. run_step.
    rewrite Hne, Hban. unfold telegram.
    destruct (telegram_raises env (telegram_calls w)); cbv beta iota; cbn [negb].
    + split; [|discriminate]. repeat split. exists []. rewrite app_nil_r.
      split; [reflexivity|constructor].
    + split.
      * repeat split. exists [reply_text USER_BANNED_MESSAGE NoMarkup].
        split; [reflexivity|]. repeat constructor.
      * intros _. split; [reflexivity|added_events].
  - unfold bot.ytdlp_download_handler, bot.check_membership_middleware. run_step.
    cbv beta iota. fold user_id. fold registered.
    assert (Hban' : database.is_user_banned user_id (db registered) = true).
    { unfold registered. cbn [db set_db]. rewrite add_user_keeps_ban. exact Hban. }
    rewrite Hne, Hban'. unfold telegram.
    assert (Hcalls : telegram_calls registered = telegram_calls w) by reflexivity.
    rewrite Hcalls.
    destruct (telegram_raises env (telegram_calls w)); cbv beta iota; cbn [negb].
    + split; [|split; [exact Hban'|discriminate]]. repeat split. exists [].
      rewrite app_nil_r. split; [reflexivity|constructor].
    + split; [|split; [exact Hban'|]].
      * repeat split. exists [reply_text USER_BANNED_MESSAGE NoMarkup].
        split; [reflexivity|]. repeat constructor.
      * intros _. split; [reflexivity|]. unfold registered. added_events.
Qed.

Lemma banned_user_is_refused_witness :
  let env := sample.env_with true None (sample.ydl_with 10) sample.never in
  let w := set_db (database.ban_user 7) (sample.world_with 1) in
  let registered := set_db (database.add_user 7 (Some "u7") None) w in
  (let '(r, w') := bot.download_handler 7 "https://instagram.com/p/ABC123/" env w in
   quiet w w'
   /\ (telegram_raises env (telegram_calls w) = false ->
       r = Ok tt /\ added w w' = [reply_text USER_BANNED_MESSAGE NoMarkup]))
  /\ (let '(r, w') :=
        bot.ytdlp_download_handler sample.tg_user7 "https://youtu.be/x" env w in
      quiet registered w'
      /\ database.is_user_banned 7 (db w') = true
      /\ (telegram_raises env (telegram_calls w) = false ->
          r = Ok tt /\ added w w' = [reply_text USER_BANNED_MESSAGE NoMarkup])).
Proof.
  intros env w.
  pose proof (banned_user_is_refused env w sample.tg_user7) as H. cbv zeta in H.
  split.
  - apply (H "https://instagram.com/p/ABC123/"); [reflexivity|discriminate].
  - apply (H "https://youtu.be/x"); [reflexivity|discriminate].
Defined.

(** ** Other outcomes of the handlers *)

(** X24. A post whose media type is neither photo, video nor album is
    reported as a failed download: nothing is written, nothing is sent and
    no download is recorded. *)
Theorem unknown_media_type_is_reported (env : Env) (w : World) (user_id : Z)
        (text url : string) (cl : Client) (media : Media) :
  reliable env ->
  fst (bot.check_membership_middleware user_id env w) = Ok true ->
  database.has_verified_account user_id (db w) = true ->
  fst (fst (utils.RateLimiter.can_proceed (clock env) user_id 5 (last_request w))) = true ->
  utils.extract_instagram_url text = Some url -> url <> EmptyString ->
  instagram_initialized env = true -> client env = Some cl ->
  media_info cl url = Returned media ->
  instagram_handler._get_media_type (media_type media) = "unknown" ->
  let '(r, w') := bot.download_handler user_id text env w in
  r = Ok tt
  /\ added w w' = [ reply_text DOWNLOADING NoMarkup; send_chat_action;
                    ig_media_info url; edit_text PROCESSING NoMarkup;
                    ig_download url; edit_text DOWNLOAD_FAILED NoMarkup ]
  /\ files w' = files w
  /\ db w' = db w.
Proof.
  intros Hrel Hmem Hver Hrate Hurl Hne Hinit Hcl Hmedia Hunknown.
  assert (Hdl : instagram_handler.download_by_type cl url (download_dir env) = Some []).
  { unfold instagram_handler.download_by_type. rewrite Hmedia.
    unfold instagram_handler._get_media_type in Hunknown.
    destruct (Z.eqb (media_type media) 1); [discriminate|].
    destruct (Z.eqb (media_type media) 2); [discriminate|].
    destruct (Z.eqb (media_type media) 8); [discriminate|reflexivity]. }
  unfold bot.download_handler, bot.rate_limit, instagram_handler.get_media_info,
    instagram_handler.download_media. run_step.
  destruct (bot.check_membership_middleware user_id env w) as [r0 w0] eqn:Hm.
  simpl in Hmem. subst r0. apply check_membership_pass in Hm as ->.
  crunch Hrel. rewrite Hver. crunch Hrel.
  apply can_proceed_allowed_stamps in Hrate. rewrite Hrate. crunch Hrel.
  rewrite Hurl. destruct url as [|c u]; [congruence|]. crunch Hrel.
  repeat (progress (crunch Hrel; rewrite ?Hinit, ?Hcl, ?Hmedia, ?Hdl)).
  cbn [map instagram_handler.written omap downloader.write_files fold_left]. crunch Hrel.
  split; [reflexivity|]. split; [added_events|]. split; reflexivity.
Qed.

Lemma unknown_media_type_is_reported_witness :
  let env := sample.env_with true (Some (sample.client_of_type 5))
               (sample.ydl_with 10) sample.never in
  let w := sample.world_with 1 in
  let url := "https://instagram.com/p/ABC123" in
  let '(r, w') := bot.download_handler 7 "https://instagram.com/p/ABC123/" env w in
  r = Ok tt
  /\ added w w' = [ reply_text DOWNLOADING NoMarkup; send_chat_action;
                    ig_media_info url; edit_text PROCESSING NoMarkup;
                    ig_download url; edit_text DOWNLOAD_FAILED NoMarkup ]
  /\ files w' = files w
  /\ db w' = db w.
Proof.
  intros env w url.
  apply (unknown_media_type_is_reported env w 7 "https://instagram.com/p/ABC123/" url
           (sample.client_of_type 5)
           {| media_type := 5; owner_username := "owner"; caption_text := "";
              like_count := 1; comment_count := 2 |}).
  - intros n. reflexivity.
  - reflexivity.
  - reflexivity.
  - reflexivity.
  - reflexivity.
  - discriminate.
  - reflexivity.
  - reflexivity.
  - reflexivity.
  - reflexivity.
Defined.

(** X25. When the probe fails - it raises, finds nothing, or finds formats
    that cannot be read or sorted - the generic handler shows no menu:
    after the probe it goes on exactly as a download in best quality. *)
Theorem failed_probe_downloads_best (env : Env) (w : World) (user : bot.TgUser)
        (text url : string) :
  reliable env ->
  fst (bot.check_membership_middleware (bot.tg_id user) env w) = Ok true ->
  fst (fst (utils.RateLimiter.can_proceed (clock env) (bot.tg_id user) 5 (last_request w)))
  = true ->
  utils.extract_media_url text = Some url -> url <> EmptyString ->
  match probe (ydl env) url with
  | Returned (Some info) => downloader.parse_formats_of info = None
  | _ => True
  end ->
  exists w1,
    added w w1 = [reply_text FETCHING_INFO NoMarkup; send_chat_action; ydl_probe url]
    /\ download_url w1 = Some url
    /\ bot.ytdlp_download_handler user text env w
       = bot._perform_download (bot.tg_id user) url "best" env w1.
Proof.
  intros Hrel Hmem Hrate Hurl Hne Hprobe.
  unfold bot.ytdlp_download_handler, bot.rate_limit, downloader.get_video_info.
  run_step. crunch Hrel.
  pose proof (membership_after_add_user user env w) as Hsame. cbv zeta in Hsame.
  rewrite Hmem in Hsame.
  match type of Hsame with
  | fst ?m = _ => destruct m as [r0 w0] eqn:Hm
  end.
  simpl in Hsame. subst r0. apply check_membership_pass in Hm as ->.
  crunch Hrel.
  apply can_proceed_allowed_stamps in Hrate. rewrite Hrate. crunch Hrel.
  rewrite Hurl. destruct url as [|c u]; [congruence|]. crunch Hrel.
  set (url := String c u) in *.
  destruct (probe (ydl env) url) as [[info|]|]; rewrite ?Hprobe; crunch Hrel;
    match goal with
    | |- context [bot._perform_download _ _ _ env ?w1] =>
        exists w1; split; [added_events|]; split; [reflexivity|];
        destruct (perform_download_returns env w1 (bot.tg_id user) url "best" Hrel)
          as (w' & more & Hrun & _);
        rewrite Hrun; reflexivity
    end.
Qed.

Lemma failed_probe_downloads_best_witness :
  let env := sample.env_with true None (sample.ydl_with 10) sample.never in
  let w := sample.world_with 1 in
  let url := "https://youtu.be/x" in
  exists w1,
    added w w1 = [reply_text FETCHING_INFO NoMarkup; send_chat_action; ydl_probe url]
    /\ download_url w1 = Some url
    /\ bot.ytdlp_download_handler sample.tg_user7 "watch https://youtu.be/x." env w
       = bot._perform_download 7 url "best" env w1.
Proof.
  intros env w url.
  apply (failed_probe_downloads_best env w sample.tg_user7 "watch https://youtu.be/x." url).
  - intros n. reflexivity.
  - reflexivity.
  - reflexivity.
  - reflexivity.
  - discriminate.
  - exact I.
Defined.

(** X26. A request for audio whose duration can be shown is sent as audio
    under a name that ends in [.mp3], whatever the name yt-dlp reports; the
    file is deleted afterwards, one download is recorded and the counter of
    the user is one more than before.  The other two ways to ask the
    downloader for audio, [download_audio_only] and
    [download_with_format_id] with the format [audio], run exactly as the
    quality [audio]. *)
Theorem audio_request_is_sent_as_audio (env : Env) (w : World) (user_id : Z)
        (url : string) (info : YdlInfo) (size : Z) :
  let mp3 := fst (os_path.splitext (filename info)) ++ ".mp3" in
  reliable env ->
  fetch (ydl env) url "bestaudio/best" true = (Returned info, [(mp3, size)]) ->
  (size <= bot.size_limit)%Z ->
  showable (duration_of info) = true ->
  let '(r, w') := bot._perform_download user_id url "audio" env w in
  r = Ok tt
  /\ added w w' = [ send_chat_action; ydl_fetch url "bestaudio/best";
                    edit_text UPLOADING NoMarkup; reply_audio mp3; delete_message ]
  /\ Py.endswith mp3 ".mp3" = true
  /\ files w' !! mp3 = None
  /\ database.downloads (db w')
     = (database.downloads (db w)
          ++ [ {| database.dl_user_id := user_id; database.media_type := "ytdlp";
                  database.media_url := url; database.dl_instagram_username := None;
                  database.file_size := 0 |} ])%list
  /\ counted_once (db w) (db w') user_id
  /\ database.get_total_downloads (db w') = (database.get_total_downloads (db w) + 1)%Z
  /\ downloader.download_audio_only url env w
     = downloader.download_with_quality url "audio" env w
  /\ downloader.download_with_format_id url "audio" env w
     = downloader.download_with_quality url "audio" env w.
Proof.
  intros mp3 Hrel Hfetch Hsize Hshow.
  assert (Hsame : downloader.download_audio_only url env w
                  = downloader.download_with_quality url "audio" env w)
    by reflexivity.
  assert (Hsame' : downloader.download_with_format_id url "audio" env w
                   = downloader.download_with_quality url "audio" env w)
    by reflexivity.
  revert Hsame Hsame'.
  generalize (downloader.download_audio_only url env w)
             (downloader.download_with_format_id url "audio" env w).
  intros audio_only by_format.
  unfold bot._perform_download, downloader.download_with_quality,
    downloader.download_with_ytdlp, downloader.select_format,
    downloader.get_file_size, downloader.cleanup_file, bot.open_rb.
  run_step.
  cbn [downloader.falsy_str negb andb downloader.format_of_quality
       String.eqb Ascii.eqb Bool.eqb].
  crunch Hrel. rewrite Hfetch. crunch Hrel.
  cbn [orb]. fold mp3.
  unfold downloader.write_files. cbn [fold_left fst snd].
  rewrite lookup_insert_eq. crunch Hrel.
  destruct (Z.ltb_spec bot.size_limit size) as [Hbig|_]; [lia|]. crunch Hrel.
  cbn [downloader.dl_duration]. fold (duration_of info).
  match goal with
  | |- context [bot.duration_str _ env ?w1] =>
      destruct (duration_str_showable _ env w1 Hshow) as [s ->]
  end.
  crunch Hrel.
  rewrite lookup_insert_eq. crunch Hrel.
  rewrite orb_true_r. crunch Hrel. rewrite lookup_insert_eq. crunch Hrel.
  intros Hsame Hsame'.
  split; [reflexivity|]. split; [added_events|].
  split; [apply endswith_spec; exists (fst (os_path.splitext (filename info))); reflexivity|].
  split; [apply lookup_delete_eq|]. split; [reflexivity|].
  split; [apply increment_counted_once; reflexivity|].
  split; [|split; assumption].
  unfold database.get_total_downloads, database.increment_download_count,
    database.add_download, database.set_users, database.set_downloads.
  cbn [database.downloads]. rewrite length_app. cbn [length]. lia.
Qed.

Lemma audio_request_is_sent_as_audio_witness :
  let env := sample.env_with true None (sample.ydl_with 10) sample.never in
  let w := sample.world_with 1 in
  let url := "https://youtu.be/x" in
  let mp3 := fst (os_path.splitext (filename sample.clip)) ++ ".mp3" in
  let '(r, w') := bot._perform_download 7 url "audio" env w in
  r = Ok tt
  /\ added w w' = [ send_chat_action; ydl_fetch url "bestaudio/best";
                    edit_text UPLOADING NoMarkup; reply_audio mp3; delete_message ]
  /\ Py.endswith mp3 ".mp3" = true
  /\ files w' !! mp3 = None
  /\ database.downloads (db w')
     = (database.downloads (db w)
          ++ [ {| database.dl_user_id := 7; database.media_type := "ytdlp";
                  database.media_url := url; database.dl_instagram_username := None;
                  database.file_size := 0 |} ])%list
  /\ counted_once (db w) (db w') 7
  /\ database.get_total_downloads (db w') = (database.get_total_downloads (db w) + 1)%Z
  /\ downloader.download_audio_only url env w
     = downloader.download_with_quality url "audio" env w
  /\ downloader.download_with_format_id url "audio" env w
     = downloader.download_with_quality url "audio" env w.
Proof.
  intros env w url.
  apply (audio_request_is_sent_as_audio env w 7 url sample.clip 10).
  - intros n. reflexivity.
  - reflexivity.
  - discriminate.
  - reflexivity.
Defined.

(** X27. The buttons of the menu of [download_options].  A quality button
    or the audio button carries data that reaches
    [handle_quality_selection], which starts the download of the URL kept
    for the user - not of the shortened URL the button carries - in the
    quality of its label.  The data of the cancel button matches no
    registered pattern, so it reaches [button_callback], none of whose
    branches takes it: the query is answered and nothing else happens. *)
Theorem menu_button_selects_quality (env : Env) (w : World) (user_id : Z)
        (url full_url : string) (has_audio has_video : bool) (b : Button)
        (branch_body : nat -> string -> M unit) :
  reliable env ->
  b ∈ concat (keyboards.download_options url has_audio has_video) ->
  download_url w = Some full_url -> full_url <> EmptyString ->
  match label b with
  | Cancel =>
      bot.callback_target (callback_data b) = bot.ButtonCallback
      /\ exists w',
           bot.button_callback branch_body (callback_data b) env w = (Ok tt, w')
           /\ added w w' = [answer_query]
           /\ quiet w w'
  | l =>
      bot.callback_target (callback_data b) = bot.HandleQualitySelection
      /\ exists w1,
           added w w1 = [answer_query; edit_text DOWNLOADING NoMarkup]
           /\ bot.handle_quality_selection user_id (callback_data b) env w
              = bot._perform_download user_id full_url (quality_of_label l) env w1
  end.
Proof.
  intros Hrel Hb Hurl Hne.
  destruct full_url as [|c u]; [congruence|].
  unfold keyboards.download_options in Hb.
  generalize dependent (keyboards.head50 url). intros tail Hb.
  assert (Hrun : forall data q,
             String.eqb data "cancel_download" = false ->
             Py.startswith data "dl:" = true ->
             bot.quality_of_callback data = q ->
             exists w1,
               added w w1 = [answer_query; edit_text DOWNLOADING NoMarkup]
               /\ bot.handle_quality_selection user_id data env w
                  = bot._perform_download user_id (String c u) q env w1).
  { intros data q Hnc Hdlp Hq. unfold bot.handle_quality_selection. run_step.
    crunch Hrel. rewrite Hnc, Hdlp. crunch Hrel. rewrite Hurl. crunch Hrel. rewrite Hq.
    eexists. split; [|reflexivity]. added_events. }
  assert (Hcancel : exists w',
             bot.button_callback branch_body "cancel_download" env w = (Ok tt, w')
             /\ added w w' = [answer_query]
             /\ quiet w w').
  { unfold bot.button_callback. run_step. crunch Hrel.
    change (bot.first_branch bot.button_callback_conditions 0 "cancel_download")
      with (@None nat).
    crunch Hrel.
    eexists. split; [reflexivity|]. split; [added_events|].
    repeat split. exists [answer_query].
    cbn [trace log count_call]. split; [reflexivity|].
    repeat constructor. }
  destruct has_video, has_audio; cbn [concat app] in Hb;
    repeat (apply elem_of_cons in Hb as [->|Hb];
            [cbn [label callback_data quality_of_label];
             split; [vm_compute; reflexivity|];
             first [ exact Hcancel | apply Hrun; reflexivity ] |]);
    inversion Hb.
Qed.

Lemma menu_button_selects_quality_witness :
  let env := sample.env_with true None (sample.ydl_with 10) sample.never in
  let url := "https://youtu.be/x" in
  let w := set_download_url (Some url) (sample.world_with 1) in
  let data := "dl:720:" ++ keyboards.head50 url in
  bot.callback_target data = bot.HandleQualitySelection
  /\ exists w1,
       added w w1 = [answer_query; edit_text DOWNLOADING NoMarkup]
       /\ bot.handle_quality_selection 7 data env w
          = bot._perform_download 7 url (quality_of_label (Resolution 720)) env w1.
Proof.
  intros env url w data.
  apply (menu_button_selects_quality env w 7 url url true true
           {| label := Resolution 720;
              callback_data := "dl:720:" ++ keyboards.head50 url |}
           (fun _ _ => mret tt)).
  - intros n. reflexivity.
  - apply list_elem_of_In. cbn. right. left. reflexivity.
  - reflexivity.
  - discriminate.
Defined.

(** X28. A quality button pressed when no URL is kept for the user is
    answered with the text for a missing link; nothing is fetched. *)
Theorem missing_url_is_reported (env : Env) (w : World) (user_id : Z) (data : string) :
  reliable env ->
  Py.startswith data "dl:" = true ->
  Py.truthy (download_url w) = false ->
  let '(r, w') := bot.handle_quality_selection user_id data env w in
  r = Ok tt
  /\ added w w' = [answer_query; edit_text LINK_NOT_FOUND NoMarkup]
  /\ quiet w w'.
Proof.
  intros Hrel Hdl Hnone. unfold bot.handle_quality_selection. run_step. crunch Hrel.
  assert (Hnc : String.eqb data "cancel_download" = false).
  { destruct (String.eqb_spec data "cancel_download") as [->|]; [discriminate|reflexivity]. }
  rewrite Hnc, Hdl. crunch Hrel.
  destruct (download_url w) as [[|c u]|]; try discriminate; crunch Hrel;
    (split; [reflexivity|]; split; [added_events|];
     repeat split; exists [answer_query; edit_text LINK_NOT_FOUND NoMarkup];
     cbn [trace log count_call]; rewrite <- app_assoc; split; [reflexivity|];
     repeat constructor).
Qed.

Lemma missing_url_is_reported_witness :
  let env := sample.env_with true None (sample.ydl_with 10) sample.never in
  let w := sample.world_with 1 in
  let '(r, w') := bot.handle_quality_selection 7 "dl:best:https://youtu.be/x" env w in
  r = Ok tt
  /\ added w w' = [answer_query; edit_text LINK_NOT_FOUND NoMarkup]
  /\ quiet w w'.
Proof.
  intros env w.
  apply (missing_url_is_reported env w 7 "dl:best:https://youtu.be/x").
  - intros n. reflexivity.
  - reflexivity.
  - reflexivity.
Defined.

(** ** Issuing a code and confirming it *)

Section Issue.
Variable G : Type.
Variable randbelow : G -> nat -> nat * G.
Variable user_info_by_username : string -> Result unit.
(** [_randbelow(n)] returns an index below [n]. *)
Hypothesis randbelow_lt : forall g n, (0 < n)%nat -> (fst (randbelow g n) < n)%nat.

(** X29. [receive_username] always answers.  A name that is not valid, or
    that Instagram does not know, stores nothing and keeps the conversation
    waiting; otherwise a code of 8 characters is stored in a pending
    verification that expires 30 minutes later and in a new, unverified
    account row, which joins the list of the user's accounts behind the
    rows stamped in the same second or later.  No outcome gives anyone a
    verified account. *)
Theorem receive_username_outcomes (now created : Z) (init : bool) (cl : option Client)
        (user_id : Z) (text : string) (g : G) (d : database.Database) :
  let username := entered_username text in
  let known := instagram_handler.get_user_info user_info_by_username cl username in
  let expires := (now + bot.validity)%Z in
  exists reply st g1 d1,
    bot.receive_username G randbelow user_info_by_username now created init cl user_id
      text g d
    = Some (reply, st, g1, d1)
    /\ (forall anyone, database.has_verified_account anyone d1
                       = database.has_verified_account anyone d)
    /\ match reply with
       | bot.InvalidUsername =>
           utils_text.is_valid_instagram_username username = false
           /\ st = bot.WAITING_USERNAME /\ d1 = d
       | bot.UsernameNotOnInstagram =>
           utils_text.is_valid_instagram_username username = true
           /\ init = true /\ known = false
           /\ st = bot.WAITING_USERNAME /\ d1 = d
       | bot.VerificationCodeSent code vid =>
           utils_text.is_valid_instagram_username username = true
           /\ (init = true -> known = true)
           /\ st = bot.END
           /\ String.length code = 8%nat
           /\ Py.all_chars (fun c => Py.mem c utils.characters) code = true
           /\ database.get_verification vid d1
              = Some {| database.pv_user_id := user_id;
                        database.pv_verification_code := code;
                        database.pv_instagram_username := username;
                        database.expires_at := expires |}
           /\ exists account,
                database.get_user_instagram_accounts user_id d1
                = behind_newer account (database.get_user_instagram_accounts user_id d)
                /\ account ∈ database.get_user_instagram_accounts user_id d1
                /\ database.user_id account = user_id
                /\ database.instagram_username account = username
                /\ database.verification_code account = code
                /\ database.code_expires_at account = expires
                /\ database.is_verified account = 0%Z
                /\ database.created_at account = created
       end.
Proof.
  intros username known expires.
  assert (Hissued : forall (code : string) (g' : G),
             String.length code = 8%nat ->
             Py.all_chars (fun c => Py.mem c utils.characters) code = true ->
             utils_text.is_valid_instagram_username username = true ->
             (init = true -> known = true) ->
             let '(vid, d0) :=
               database.create_verification user_id username code expires d in
             let '(_, d1) :=
               database.add_instagram_account user_id username code expires
                 created d0 in
             exists reply st g1 d2,
               Some (bot.VerificationCodeSent code vid, bot.END, g', d1)
               = Some (reply, st, g1, d2)
               /\ (forall anyone, database.has_verified_account anyone d2
                                  = database.has_verified_account anyone d)
               /\ match reply with
                  | bot.InvalidUsername =>
                      utils_text.is_valid_instagram_username username = false
                      /\ st = bot.WAITING_USERNAME /\ d2 = d
                  | bot.UsernameNotOnInstagram =>
                      utils_text.is_valid_instagram_username username = true
                      /\ init = true /\ known = false
                      /\ st = bot.WAITING_USERNAME /\ d2 = d
                  | bot.VerificationCodeSent code vid =>
                      utils_text.is_valid_instagram_username username = true
                      /\ (init = true -> known = true)
                      /\ st = bot.END
                      /\ String.length code = 8%nat
                      /\ Py.all_chars (fun c => Py.mem c utils.characters) code = true
                      /\ database.get_verification vid d2
                         = Some {| database.pv_user_id := user_id;
                                   database.pv_verification_code := code;
                                   database.pv_instagram_username := username;
                                   database.expires_at := expires |}
                      /\ exists account,
                           database.get_user_instagram_accounts user_id d2
                           = behind_newer account
                               (database.get_user_instagram_accounts user_id d)
                           /\ account ∈ database.get_user_instagram_accounts user_id d2
                           /\ database.user_id account = user_id
                           /\ database.instagram_username account = username
                           /\ database.verification_code account = code
                           /\ database.code_expires_at account = expires
                           /\ database.is_verified account = 0%Z
                           /\ database.created_at account = created
                  end).
  { intros code g' Hl Hall Hvalid Hknown.
    pose proof (add_account_listed user_id username code expires
                  created
                  (snd (database.create_verification user_id username code expires d)))
      as Hlist.
    unfold database.create_verification, database.add_instagram_account in *.
    cbn [snd] in Hlist.
    eexists _, _, _, _. split; [reflexivity|]. split.
    - intros anyone. unfold database.has_verified_account.
      cbn [database.instagram_accounts]. rewrite filter_app, length_app.
      rewrite filter_cons_False; [simpl; f_equal; lia|]. cbn. intros [_ H]. discriminate.
    - split; [exact Hvalid|]. split; [exact Hknown|]. split; [reflexivity|].
      split; [exact Hl|]. split; [exact Hall|]. split.
      + unfold database.get_verification. cbn [database.pending_verifications].
        apply lookup_insert_eq.
      + eexists. split; [exact Hlist|]. split.
        * rewrite Hlist. apply elem_of_behind_newer. left. reflexivity.
        * repeat split. }
  unfold bot.receive_username. fold (entered_username text). fold username. fold known.
  destruct (utils_text.is_valid_instagram_username username) eqn:Hvalid; cbn [negb].
  2:{ exists bot.InvalidUsername, bot.WAITING_USERNAME, g, d. repeat split. }
  destruct (join_choices_spec G randbelow randbelow_lt 8 g) as (code & g' & Hrun & Hl & Hall).
  unfold utils.generate_verification_code, utils.default_code_length.
  change (Z.to_nat 8) with 8%nat. rewrite Hrun. fold expires.
  destruct init; cbn [andb].
  - destruct known eqn:Hknown; cbn [negb].
    + apply (Hissued code g' Hl Hall eq_refl). reflexivity.
    + exists bot.UsernameNotOnInstagram, bot.WAITING_USERNAME, g, d. repeat split.
  - apply (Hissued code g' Hl Hall eq_refl). discriminate.
Qed.

(** What is stored when a code is issued. *)
Lemma receive_username_issued now created init cl user_id text g d code vid st g' d1 :
  bot.receive_username G randbelow user_info_by_username now created init cl user_id
    text g d
  = Some (bot.VerificationCodeSent code vid, st, g', d1) ->
  let username := entered_username text in
  let expires := (now + bot.validity)%Z in
  utils_text.is_valid_instagram_username username = true
  /\ utils.generate_verification_code G randbelow 8 g = Some (code, g')
  /\ st = bot.END
  /\ vid = (database.seq_pending_verifications d + 1)%Z
  /\ d1 = snd (database.add_instagram_account user_id username code expires
                 created
                 (snd (database.create_verification user_id username code expires d))).
Proof.
  unfold bot.receive_username. fold (entered_username text).
  destruct (utils_text.is_valid_instagram_username (entered_username text)); [|discriminate].
  cbn [negb]. destruct (init && _); [discriminate|].
  unfold utils.default_code_length.
  destruct (utils.generate_verification_code G randbelow 8 g) as [[code' g'']|]; [|discriminate].
  cbn. intros [= <- <- <- <- <-]. repeat split; reflexivity.
Qed.

(** X30. Issue, then confirm: when the inbox of the bot holds the code that
    [receive_username] issued, [check_verification] reports success, the
    user has a verified account and the pending verification is gone; a
    second confirmation of the same id is answered as expired and changes
    nothing. *)
Theorem issued_code_confirms_account (env : Env) (w : World) (now created : Z) (cl : Client)
        (user_id : Z) (text : string) (g g' : G) (d : database.Database)
        (code : string) (vid : Z) (st : bot.ConversationState) :
  bot.receive_username G randbelow user_info_by_username now created
    (instagram_initialized env) (client env) user_id text g d
  = Some (bot.VerificationCodeSent code vid, st, g', db w) ->
  reliable env ->
  instagram_initialized env = true -> client env = Some cl ->
  instagram_handler.scan_inboxes cl code 50 = true ->
  let '(r, w') := bot.check_verification vid env w in
  r = Ok tt
  /\ confirm_outcome (added w w') = Some Found
  /\ database.has_verified_account user_id (db w') = true
  /\ database.get_verification vid (db w') = None
  /\ let '(r2, w2) := bot.check_verification vid env w' in
     r2 = Ok tt /\ confirm_outcome (added w' w2) = Some Expired /\ db w2 = db w'.
Proof.
  intros Hissue Hrel Hinit Hcl Hscan.
  apply receive_username_issued in Hissue as (_ & _ & _ & -> & Hdb).
  cbv zeta in Hdb. set (username := entered_username text) in *.
  set (vid := (database.seq_pending_verifications d + 1)%Z) in *.
  set (d0 := snd (database.create_verification user_id username code
                    (now + bot.validity) d)) in *.
  assert (Hv : database.get_verification vid (db w)
               = Some {| database.pv_user_id := user_id;
                         database.pv_verification_code := code;
                         database.pv_instagram_username := username;
                         database.expires_at := now + bot.validity |}).
  { rewrite Hdb. unfold d0, database.get_verification, database.add_instagram_account,
      database.create_verification.
    cbn [snd database.pending_verifications]. apply lookup_insert_eq. }
  pose proof (add_account_listed user_id username code (now + bot.validity)
                created d0) as Hlist.
  rewrite <- Hdb in Hlist.
  destruct (find (fun acc => String.eqb (database.instagram_username acc) username)
              (database.get_user_instagram_accounts user_id (db w)))
    as [acc|] eqn:Hfind.
  2:{ exfalso.
      match type of Hlist with
      | _ = behind_newer ?row _ =>
          assert (Hrow : In row (database.get_user_instagram_accounts user_id (db w)))
            by (apply list_elem_of_In; rewrite Hlist; apply elem_of_behind_newer;
                left; reflexivity);
          pose proof (find_none _ _ Hfind _ Hrow) as Hno
      end.
      cbn [database.instagram_username] in Hno. rewrite String.eqb_refl in Hno.
      discriminate. }
  apply find_some in Hfind as Hacc. destruct Hacc as [Hlisted _].
  apply list_elem_of_In in Hlisted.
  apply elem_of_accounts in Hlisted. destruct Hlisted as [Hin Huser].
  unfold bot.check_verification, instagram_handler.check_direct_message.
  run_step. crunch Hrel.
  rewrite Hv. crunch Hrel. rewrite Hinit, Hcl. crunch Hrel.
  cbn [database.pv_verification_code]. unfold instagram_handler.default_max_messages.
  rewrite Hscan. crunch Hrel.
  cbn [database.pv_user_id database.pv_instagram_username].
  rewrite Hfind. crunch Hrel.
  split; [reflexivity|]. split.
  { unfold confirm_outcome.
    replace (added w _) with
      [answer_query; edit_text VERIFICATION_PENDING NoMarkup; ig_inbox;
       edit_text (VERIFICATION_SUCCESS username) BackButton] by (symmetry; added_events).
    reflexivity. }
  split.
  { apply has_verified_account_iff.
    unfold database.delete_verification, database.verify_instagram_account,
      database.set_pending, database.set_accounts.
    cbn [database.instagram_accounts].
    match goal with
    | |- context [map ?f (database.instagram_accounts (db w))] =>
        exists (f acc); split;
        [rewrite list_elem_of_In; apply (in_map f _ acc);
         rewrite <- list_elem_of_In; exact Hin|]
    end.
    cbv beta. rewrite Z.eqb_refl. split; [exact Huser|reflexivity]. }
  assert (Hgone : forall d0,
             database.get_verification vid (database.delete_verification vid d0) = None).
  { intros d1. unfold database.get_verification, database.delete_verification,
      database.set_pending. cbn [database.pending_verifications]. apply lookup_delete_eq. }
  split; [apply Hgone|].
  rewrite Hgone. crunch Hrel.
  split; [reflexivity|]. split; [|reflexivity].
  unfold confirm_outcome.
  unfold added. cbn [trace log count_call set_db].
  match goal with
  | |- context [drop (length ?t) ((?t ++ ?a) ++ ?b)] =>
      rewrite <- (app_assoc t a b), drop_app_length
  end.
  reflexivity.
Qed.

End Issue.

Lemma receive_username_outcomes_witness :
  let username := entered_username " @bob " in
  let known := instagram_handler.get_user_info (fun _ => Returned tt) None username in
  let expires := (1700000000000000 + bot.validity)%Z in
  let d := sample.db_with 0 in
  exists reply st g1 d1,
    bot.receive_username nat sample.counter_randbelow (fun _ => Returned tt)
      1700000000000000 1700000000 false None 7 " @bob " 0%nat d
    = Some (reply, st, g1, d1)
    /\ (forall anyone, database.has_verified_account anyone d1
                       = database.has_verified_account anyone d)
    /\ match reply with
       | bot.InvalidUsername =>
           utils_text.is_valid_instagram_username username = false
           /\ st = bot.WAITING_USERNAME /\ d1 = d
       | bot.UsernameNotOnInstagram =>
           utils_text.is_valid_instagram_username username = true
           /\ false = true /\ known = false
           /\ st = bot.WAITING_USERNAME /\ d1 = d
       | bot.VerificationCodeSent code vid =>
           utils_text.is_valid_instagram_username username = true
           /\ (false = true -> known = true)
           /\ st = bot.END
           /\ String.length code = 8%nat
           /\ Py.all_chars (fun c => Py.mem c utils.characters) code = true
           /\ database.get_verification vid d1
              = Some {| database.pv_user_id := 7;
                        database.pv_verification_code := code;
                        database.pv_instagram_username := username;
                        database.expires_at := expires |}
           /\ exists account,
                database.get_user_instagram_accounts 7 d1
                = behind_newer account (database.get_user_instagram_accounts 7 d)
                /\ account ∈ database.get_user_instagram_accounts 7 d1
                /\ database.user_id account = 7%Z
                /\ database.instagram_username account = username
                /\ database.verification_code account = code
                /\ database.code_expires_at account = expires
                /\ database.is_verified account = 0%Z
                /\ database.created_at account = 1700000000%Z
       end.
Proof.
  apply (receive_username_outcomes nat sample.counter_randbelow (fun _ => Returned tt)).
  intros g n Hn. unfold sample.counter_randbelow. simpl fst.
  apply Nat.mod_upper_bound. lia.
Defined.

Lemma issued_code_confirms_account_witness :
  let cl := sample.client_with
              [ {| text := Some sample.first_code; dm_user_id := 42 |} ] [] in
  let env := sample.env_with true (Some cl) (sample.ydl_with 10) sample.never in
  let expires := (1700000000000000 + bot.validity)%Z in
  let w := set_db (fun d =>
             snd (database.add_instagram_account 7 "bob" sample.first_code expires
                    1700000000
                    (snd (database.create_verification 7 "bob" sample.first_code
                            expires d))))
             (sample.world_with 0) in
  let '(r, w') := bot.check_verification 2 env w in
  r = Ok tt
  /\ confirm_outcome (added w w') = Some Found
  /\ database.has_verified_account 7 (db w') = true
  /\ database.get_verification 2 (db w') = None
  /\ let '(r2, w2) := bot.check_verification 2 env w' in
     r2 = Ok tt /\ confirm_outcome (added w' w2) = Some Expired /\ db w2 = db w'.
Proof.
  intros cl env expires w.
  apply (issued_code_confirms_account nat sample.counter_randbelow (fun _ => Returned tt)
           env w 1700000000000000 1700000000 cl 7 "bob" 0%nat 8%nat (sample.db_with 0)
           sample.first_code 2 bot.END).
  - reflexivity.
  - intros n. reflexivity.
  - reflexivity.
  - reflexivity.
  - reflexivity.
Defined.
